(** * Process-listing ingestion and query planner: a verification development

    A shallow embedding of the parsers ([app/parsers]), the ingestion
    pipeline ([app/services/data_organizer.py]), the query planner
    ([app/services/query_engine.py]) and the two endpoints that call them
    ([app/main.py]), followed by the properties proved about them.

    Conventions of the embedding:
    - Python [str] is [string]; the text is ASCII.
    - Python [int] is [Z]; Python [float] is the rational [Q] it denotes
      (finite values; binary64 rounding, NaN and the infinities are not
      represented).
    - A call that can raise returns [result]: [Ok v] or [Raise e], with one
      constructor of [exn] per exception class the code can raise.
    - Redis is a finite map [gmap string redis_value]; the SQL table is the
      list of its rows in insertion order.
    - Builtins and library calls whose behaviour lives outside the
      repository ([int()], [float()], [pd.to_datetime], SQL [ILIKE], whether
      the database takes the rows of an insert, its cast of a timestamp to
      an instant, the attributes the model class inherits, the SQL engine's
      evaluation of aggregate projections) are fields of the class
      [Runtime]; the definitions and the general theorems are generic in it,
      the worked examples that need actual numbers use the instance
      [Reference.runtime].
    - The clock ([datetime.now()], [pd.Timestamp.now()]) is an argument
      [now] of the functions that read it, and the value of the id sequence
      of the table an argument [next_id] of those that insert. *)

From Stdlib Require Import ZArith QArith String Ascii List Permutation Sorted Lia Bool.
From stdpp Require Import gmap strings.

Open Scope string_scope.
Open Scope list_scope.
Open Scope Z_scope.

(** ** Exceptions and results *)

Inductive exn : Type :=
  | HTTPException (status_code : Z) (detail : string)
  | ValueError (msg : string)
  | IndexError
  | KeyError (key : string)
  | TypeError
  | OverflowError
  | NotImplementedError (msg : string)
  | DatabaseError.

Inductive result (A : Type) : Type :=
  | Ok (v : A)
  | Raise (e : exn).
Arguments Ok {A} v.
Arguments Raise {A} e.

Global Instance result_ret : MRet result := fun A v => Ok v.
Global Instance result_bind : MBind result := fun A B k r =>
  match r with
  | Ok v => k v
  | Raise e => Raise e
  end.

Definition of_option {A : Type} (o : option A) (e : exn) : result A :=
  match o with
  | Some v => Ok v
  | None => Raise e
  end.

(** [collect f l]: a [for] loop that appends [f x] to a list for each [x] of
    [l] in order and stops at the first exception. *)
Fixpoint collect {A B : Type} (f : A -> result B) (l : list A) : result (list B) :=
  match l with
  | [] => Ok []
  | x :: l' =>
      y ← f x;
      ys ← collect f l';
      Ok (y :: ys)
  end.

(** ** Python string operations *)

Module PyStr.

(** [str.isspace] on an ASCII character: TAB, LF, VT, FF, CR, FS, GS, RS,
    US and the space; this is also the class [\s] of [re] on [str]. *)
Definition isspace (c : ascii) : bool :=
  let n := nat_of_ascii c in
  ((9 <=? n)%nat && (n <=? 13)%nat) || ((28 <=? n)%nat && (n <=? 32)%nat).

Definition is_empty (s : string) : bool :=
  match s with
  | EmptyString => true
  | String _ _ => false
  end.

Fixpoint lstrip (s : string) : string :=
  match s with
  | EmptyString => EmptyString
  | String c s' => if isspace c then lstrip s' else s
  end.

Fixpoint rstrip (s : string) : string :=
  match s with
  | EmptyString => EmptyString
  | String c s' =>
      let r := rstrip s' in
      if isspace c && is_empty r then EmptyString else String c r
  end.

(** [s.strip()] *)
Definition strip (s : string) : string := rstrip (lstrip s).

(** [s.startswith(p)] *)
Definition startswith (s p : string) : bool := String.prefix p s.

(** [s.split(sep)] for a one-character separator: every occurrence splits,
    empty pieces are kept, the empty string gives [['']]. *)
Fixpoint split_char (sep : ascii) (s : string) : list string :=
  match s with
  | EmptyString => [EmptyString]
  | String c s' =>
      if Ascii.eqb c sep then EmptyString :: split_char sep s'
      else match split_char sep s' with
           | t :: ts => String c t :: ts
           | [] => [String c EmptyString]
           end
  end.

(** [re.split(r'\s+', s)]: split at every maximal run of whitespace; a run
    at either end leaves an empty piece there. [in_run] tells that the
    previous character was part of the current run. *)
Fixpoint re_split_ws_from (in_run : bool) (s : string) : list string :=
  match s with
  | EmptyString => [EmptyString]
  | String c s' =>
      if isspace c then
        if in_run then re_split_ws_from true s'
        else EmptyString :: re_split_ws_from true s'
      else match re_split_ws_from false s' with
           | t :: ts => String c t :: ts
           | [] => [String c EmptyString]
           end
  end.

Definition re_split_ws (s : string) : list string := re_split_ws_from false s.

(** [s.split()]: the maximal runs of non-whitespace characters. *)
Definition split (s : string) : list string :=
  filter (fun t => t <> EmptyString) (re_split_ws s).

(** [sep.join(l)] *)
Fixpoint join (sep : string) (l : list string) : string :=
  match l with
  | [] => EmptyString
  | [t] => t
  | t :: l' => t +:+ sep +:+ join sep l'
  end.

(** [s.replace(c, '')] for a one-character [c] *)
Fixpoint remove_char (c : ascii) (s : string) : string :=
  match s with
  | EmptyString => EmptyString
  | String d s' => if Ascii.eqb d c then remove_char c s' else String d (remove_char c s')
  end.

(** The ASCII line boundaries of [str.splitlines]: LF, VT, FF, CR, FS, GS, RS. *)
Definition is_linebreak (c : ascii) : bool :=
  let n := nat_of_ascii c in
  ((10 <=? n)%nat && (n <=? 13)%nat) || ((28 <=? n)%nat && (n <=? 30)%nat).

(** Lines of [s], each boundary closing a line; [after_cr] tells that the
    previous character was a CR, so that a LF right after it belongs to the
    same boundary. The head of the result is the line in progress. *)
Fixpoint splitlines_from (after_cr : bool) (s : string) : list string :=
  match s with
  | EmptyString => [EmptyString]
  | String c s' =>
      if after_cr && Ascii.eqb c "010" then splitlines_from false s'
      else if is_linebreak c then EmptyString :: splitlines_from (Ascii.eqb c "013") s'
      else match splitlines_from false s' with
           | t :: ts => String c t :: ts
           | [] => [String c EmptyString]
           end
  end.

(** [s.splitlines()]: no empty last line after a final boundary, and no line
    at all for the empty string. *)
Definition splitlines (s : string) : list string :=
  let ls := splitlines_from false s in
  match last ls with
  | Some EmptyString => removelast ls
  | _ => ls
  end.

(** [s[a:b]] and [s[a:]] for offsets [0 <= a], clipped to the string. *)
Fixpoint drop_chars (n : nat) (s : string) : string :=
  match n, s with
  | O, _ => s
  | S n', String _ s' => drop_chars n' s'
  | S _, EmptyString => EmptyString
  end.

Fixpoint take_chars (n : nat) (s : string) : string :=
  match n, s with
  | S n', String c s' => String c (take_chars n' s')
  | _, _ => EmptyString
  end.

Definition slice (s : string) (a b : nat) : string := take_chars (b - a) (drop_chars a s).
Definition slice_from (s : string) (a : nat) : string := drop_chars a s.

(** [s.lower()] on ASCII *)
Definition lower_char (c : ascii) : ascii :=
  let n := nat_of_ascii c in
  if (65 <=? n)%nat && (n <=? 90)%nat then ascii_of_nat (n + 32) else c.

Fixpoint lower (s : string) : string :=
  match s with
  | EmptyString => EmptyString
  | String c s' => String (lower_char c) (lower s')
  end.

End PyStr.

Definition nl : string := String "010" EmptyString.

(** ** Dates and times (Python [datetime])

    A naive [datetime] is the number of microseconds since the midnight that
    starts proleptic Gregorian ordinal day 0, so that the quotient by
    [us_per_day] is [date.toordinal()]. Python's dates range over the
    ordinals [1 .. max_ordinal] (0001-01-01 to 9999-12-31). The clock and the
    timestamps of the table are naive; the two bounds of a query can be
    aware, see [stamp]. *)

Module Calendar.

Definition datetime : Type := Z.
Definition date : Type := Z.

Definition us_per_second : Z := 1000000.
Definition us_per_day : Z := 86400 * us_per_second.
Definition max_ordinal : Z := 3652059.

(** [timedelta(days=n)] *)
Definition days (n : Z) : Z := n * us_per_day.

(** [dt.date()] *)
Definition date_of (t : datetime) : date := t / us_per_day.

Definition days_before_month (m : Z) : Z :=
  nth (Z.to_nat m) [-1; 0; 31; 59; 90; 120; 151; 181; 212; 243; 273; 304; 334] 0.
Definition days_in_month (m : Z) : Z :=
  nth (Z.to_nat m) [-1; 31; 28; 31; 30; 31; 30; 31; 31; 30; 31; 30; 31] 0.

(** [datetime._ord2ymd]: ordinal to (year, month, day). *)
Definition ord2ymd (ord : date) : Z * Z * Z :=
  let n := ord - 1 in
  let n400 := n / 146097 in
  let n := n mod 146097 in
  let n100 := n / 36524 in
  let n := n mod 36524 in
  let n4 := n / 1461 in
  let n := n mod 1461 in
  let n1 := n / 365 in
  let n := n mod 365 in
  let year := n400 * 400 + 1 + n100 * 100 + n4 * 4 + n1 in
  if (n1 =? 4) || (n100 =? 4) then (year - 1, 12, 31)
  else
    let leapyear := (n1 =? 3) && (negb (n4 =? 24) || (n100 =? 3)) in
    let month := Z.shiftr (n + 50) 5 in
    let preceding :=
      days_before_month month + (if (2 <? month) && leapyear then 1 else 0) in
    if n <? preceding then
      let month := month - 1 in
      let preceding :=
        preceding - (days_in_month month + (if (month =? 2) && leapyear then 1 else 0)) in
      (year, month, n - preceding + 1)
    else (year, month, n - preceding + 1).

Definition digit (n : Z) : ascii := ascii_of_nat (48 + Z.to_nat (n mod 10)).

(** [%02d] and [%04d] of a value below 100, respectively below 10000 *)
Definition pad2 (n : Z) : string :=
  String (digit (n / 10)) (String (digit n) EmptyString).
Definition pad4 (n : Z) : string := pad2 (n / 100) +:+ pad2 (n mod 100).

(** [str(d)] of a date, which is also [str] of a daily pandas period *)
Definition date_str (d : date) : string :=
  let '(y, m, dd) := ord2ymd d in
  pad4 y +:+ "-" +:+ pad2 m +:+ "-" +:+ pad2 dd.

(** [t.strftime('%Y%m%d%H%M%S')] *)
Definition strftime_compact (t : datetime) : string :=
  let '(y, m, dd) := ord2ymd (date_of t) in
  let secs := (t mod us_per_day) / us_per_second in
  pad4 y +:+ pad2 m +:+ pad2 dd +:+
  pad2 (secs / 3600) +:+ pad2 ((secs / 60) mod 60) +:+ pad2 (secs mod 60).

(** [datetime(y, m, d, hh, mm, ss, us)] from an ordinal and a time of day,
    to write concrete instants. *)
Definition at_time (d : date) (hh mm ss us : Z) : datetime :=
  d * us_per_day + ((hh * 60 + mm) * 60 + ss) * us_per_second + us.

(** A [datetime] as a request carries it. The schema reads a text without
    offset into a naive datetime, and a text with a UTC offset (or a number)
    into an aware one, whose [tzinfo] is a fixed offset. [wall] is what the
    clock face shows, [utcoffset] is [dt.utcoffset()] in microseconds, [None]
    for a naive value. *)
Record stamp : Type := mkStamp {
  wall : datetime;
  utcoffset : option Z
}.

Definition naive (t : datetime) : stamp := mkStamp t None.

(** [a > b]: two naive values compare by their readings, two aware ones by
    their instants; a naive and an aware one do not compare. *)
Definition gt (a b : stamp) : result bool :=
  match utcoffset a, utcoffset b with
  | None, None => Ok (wall b <? wall a)
  | Some offset_a, Some offset_b => Ok (wall b - offset_b <? wall a - offset_a)
  | _, _ => Raise TypeError
  end.

(** [a - b], a [timedelta] in microseconds *)
Definition diff (a b : stamp) : result Z :=
  match utcoffset a, utcoffset b with
  | None, None => Ok (wall a - wall b)
  | Some offset_a, Some offset_b => Ok (wall a - wall b + offset_b - offset_a)
  | _, _ => Raise TypeError
  end.

(** [a - timedelta(microseconds=delta)] for a [delta] that is not negative:
    the reading moves back and the [tzinfo] stays; a reading before
    0001-01-01 is out of range. *)
Definition minus (a : stamp) (delta : Z) : result stamp :=
  if date_of (wall a - delta) <? 1 then Raise OverflowError
  else Ok (mkStamp (wall a - delta) (utcoffset a)).

End Calendar.


(** ** The data model ([app/models.py]) *)

(** A [ProcessData] object. The parsers set the eleven listing fields and
    leave [id] and the four batch fields unset ([None]). *)
Record ProcessData : Type := mkProcessData {
  id : option Z;
  command : string;
  pid : Z;
  vsz : Z;
  rss : Z;
  cpu_usage : Q;
  mem_usage : Q;
  tty : string;
  stat : string;
  start_time : string;
  duration : option string;
  user : string;
  timestamp : option Calendar.datetime;
  machine_name : option string;
  machine_id : option string;
  os_type : option string
}.

(** The column names of the table. *)
Definition columns : list string :=
  ["id"; "command"; "pid"; "vsz"; "rss"; "cpu_usage"; "mem_usage"; "tty"; "stat";
   "start_time"; "duration"; "user"; "timestamp"; "machine_name"; "machine_id"; "os_type"].

(** [ProcessData.to_dict]: every column but [duration], which the mapping
    does not carry. *)
Definition to_dict (p : ProcessData) : ProcessData :=
  mkProcessData (id p) (command p) (pid p) (vsz p) (rss p) (cpu_usage p) (mem_usage p)
    (tty p) (stat p) (start_time p) None (user p)
    (timestamp p) (machine_name p) (machine_id p) (os_type p).

(** The staged [meta_info] mapping, with its four keys. *)
Record MetaInfo : Type := mkMetaInfo {
  meta_timestamp : string;
  meta_machine_name : string;
  meta_machine_id : string;
  meta_os_type : string
}.

(** The rollup written per partition key. *)
Record Aggregated : Type := mkAggregated {
  total_cpu_usage : Q;
  total_memory_usage : Q;
  process_count : Z;
  top_cpu_processes : list (string * Q);
  top_memory_processes : list (string * Q)
}.

(** What the code stores in Redis: a staged batch under its [batch_id], a
    rollup under ["agg_" + partition_key]; both as JSON text. *)
Inductive redis_value : Type :=
  | StagedBatch (meta_info : MetaInfo) (process_data : list ProcessData)
  | Rollup (a : Aggregated).

(** A SQL value of an aggregate projection. *)
Inductive sql_value : Type :=
  | SqlNull
  | SqlInt (n : Z)
  | SqlFloat (q : Q)
  | SqlText (s : string).

(** One entity of [with_entities]: an attribute of the class, as a rule a
    column, or an aggregate function applied to one and labelled. *)
Inductive agg_func : Type := FAvg | FMax | FMin | FSum | FCount.
Inductive select_entity : Type :=
  | EColumn (col : string)
  | EAggregate (f : agg_func) (col : string) (label : string).

(** A row of a query result. *)
Inductive result_row : Type :=
  | FullRecord (p : ProcessData)
  | Projection (cols : list (string * sql_value))
  | Stored (v : redis_value).

(** ** Builtins and libraries the code calls *)

Class Runtime : Type := {
  (** [int(s)]; [None] when it raises [ValueError] *)
  py_int : string -> option Z;
  (** [float(s)]; [None] when it raises [ValueError] *)
  py_float : string -> option Q;
  (** [pd.to_datetime(s, errors='coerce')]; [None] is [NaT] *)
  pd_to_datetime : string -> option Calendar.datetime;
  (** [value ILIKE pattern] as the database evaluates it *)
  sql_ilike : string -> string -> bool;
  (** [session.bulk_insert_mappings(ProcessData, records)] and the commit, as
      the driver and the database decide on the mappings handed over: [None]
      when the rows are stored, else the exception raised. PostgreSQL, the
      configured database, refuses an integer outside 32 bits in an [Integer]
      column; its driver refuses [NaT] and a text with a NUL character. *)
  sql_insert_error : list ProcessData -> option exn;
  (** The cast of a [timestamp] to a [timestamptz], which the database
      applies to the column when it is compared with an aware bound: the
      instant, in microseconds of UTC, of a reading of the clock in the time
      zone of the database session. *)
  sql_timestamptz : Calendar.datetime -> Z;
  (** [hasattr(ProcessData, name)] for a [name] that the class body of
      [app/models.py] does not assign: what [declarative_base] and [object]
      give the class ([metadata], [registry], [__init__], ...). *)
  inherited_attribute : string -> bool;
  (** What SQLAlchemy and the database make of a [SELECT] of the given
      entities ([None]: the whole row) with the given [GROUP BY] attributes
      over the rows that passed the [WHERE] clause, before [LIMIT] and
      [OFFSET]: the rows, or the error raised, as for an attribute that is no
      column. *)
  sql_grouped_select :
    option (list select_entity) -> list string -> list ProcessData -> result (list result_row)
}.

(** ** The parsers ([app/parsers]) *)

Definition psaux_invalid : exn := HTTPException 400 "psaux Content is invalid.".

(** The enumeration [UnixPsFields]: the position of each field. *)
Module UnixPsFields.

Definition USER : nat := 0.
Definition PID : nat := 1.
Definition CPU : nat := 2.
Definition MEM : nat := 3.
Definition VSZ : nat := 4.
Definition RSS : nat := 5.
Definition TTY : nat := 6.
Definition STAT : nat := 7.
Definition START : nat := 8.
Definition TIME : nat := 9.
Definition COMMAND : nat := 10.

(** [UnixPsFields.__members__] *)
Definition members : list nat :=
  [USER; PID; CPU; MEM; VSZ; RSS; TTY; STAT; START; TIME; COMMAND].

End UnixPsFields.

Module UnixParser.
Section WithRuntime.
Context `{Runtime}.

(** The body of the [for line in lines] loop. Inside the [try], the fields
    exist, so only [int] and [float] can raise. *)
Definition parse_line (line : string) : result ProcessData :=
  let fields := PyStr.re_split_ws (PyStr.strip line) in
  if negb (length fields =? length UnixPsFields.members)%nat then Raise psaux_invalid
  else
    let field (i : nat) := nth i fields EmptyString in
    match py_int (field UnixPsFields.PID),
          py_float (field UnixPsFields.CPU), py_float (field UnixPsFields.MEM),
          py_int (field UnixPsFields.VSZ), py_int (field UnixPsFields.RSS) with
    | Some pid_, Some cpu_, Some mem_, Some vsz_, Some rss_ =>
        Ok {| id := None;
              command := PyStr.join " " (skipn UnixPsFields.COMMAND fields);
              pid := pid_; vsz := vsz_; rss := rss_;
              cpu_usage := cpu_; mem_usage := mem_;
              tty := field UnixPsFields.TTY; stat := field UnixPsFields.STAT;
              start_time := field UnixPsFields.START;
              duration := Some (field UnixPsFields.TIME);
              user := field UnixPsFields.USER;
              timestamp := None; machine_name := None;
              machine_id := None; os_type := None |}
    | _, _, _, _, _ => Raise psaux_invalid
    end.

Definition parse (content : string) : result (list ProcessData) :=
  (* lines = content.strip().split('\n')[1:] *)
  let lines := tail (PyStr.split_char "010" (PyStr.strip content)) in
  match lines with
  | [] => Raise psaux_invalid
  | header :: _ =>
      if negb (PyStr.startswith header "USER") then Raise psaux_invalid
      else collect parse_line lines
  end.

End WithRuntime.
End UnixParser.

(** The enumeration [WindowsTasklistFields]. *)
Module WindowsTasklistFields.

Definition IMAGE_NAME : nat := 0.
Definition PID : nat := 1.
Definition SESSION_NAME : nat := 2.
Definition SESSION : nat := 3.
Definition MEM_USAGE : nat := 4.

End WindowsTasklistFields.

Module WindowsParser.
Section WithRuntime.
Context `{Runtime}.

(** Index of the first line whose stripped form starts with [=], or 0. *)
Fixpoint separator_index_from (i : nat) (lines : list string) : nat :=
  match lines with
  | [] => O
  | line :: rest =>
      if PyStr.startswith (PyStr.strip line) "=" then i
      else separator_index_from (S i) rest
  end.

(** Offsets at which a run of [=] starts. *)
Fixpoint column_positions_from (i : nat) (prev_is_eq : bool) (s : string) : list nat :=
  match s with
  | EmptyString => []
  | String c s' =>
      let is_eq := Ascii.eqb c "=" in
      (if is_eq && negb prev_is_eq then [i] else [])
        ++ column_positions_from (S i) is_eq s'
  end.

Definition column_positions (separator : string) : list nat :=
  column_positions_from O false separator.

(** [[line[cp[i]:cp[i+1]].strip() for i in range(len(cp) - 1)]] *)
Fixpoint inner_fields (line : string) (cp : list nat) : list string :=
  match cp with
  | a :: ((b :: _) as rest) => PyStr.strip (PyStr.slice line a b) :: inner_fields line rest
  | _ => []
  end.

(** The list of fields of one data line. *)
Definition line_fields (line : string) (cp : list nat) : result (list string) :=
  let inner := inner_fields line cp in
  lastpos ← of_option (last cp) IndexError;
  match PyStr.split (PyStr.slice_from line lastpos) with
  | [] => Raise IndexError
  | t :: _ => Ok (inner ++ [t])
  end.

(** The body of the [for line in data_lines] loop. *)
Definition parse_line (cp : list nat) (line : string) : result ProcessData :=
  fields ← line_fields line cp;
  mem_text ← of_option (nth_error fields WindowsTasklistFields.MEM_USAGE) IndexError;
  let mem :=
    match py_float (PyStr.remove_char "K" (PyStr.remove_char "," mem_text)) with
    | Some q => q
    | None => 0%Q
    end in
  pid_text ← of_option (nth_error fields WindowsTasklistFields.PID) IndexError;
  pid_ ← of_option (py_int pid_text) (ValueError "invalid literal for int() with base 10");
  tty_ ← of_option (nth_error fields WindowsTasklistFields.SESSION_NAME) IndexError;
  command_ ← of_option (nth_error fields WindowsTasklistFields.IMAGE_NAME) IndexError;
  Ok {| id := None;
        command := command_;
        pid := pid_; vsz := 0; rss := 0;
        cpu_usage := 0%Q; mem_usage := mem;
        tty := tty_; stat := "N/A";
        start_time := "N/A"; duration := Some "N/A";
        user := "N/A";
        timestamp := None; machine_name := None;
        machine_id := None; os_type := None |}.

Definition parse (content : string) : result (list ProcessData) :=
  let lines := PyStr.splitlines content in
  let separator_line_index := separator_index_from O lines in
  separator ← of_option (nth_error lines separator_line_index) IndexError;
  let data_lines := skipn (S separator_line_index) lines in
  collect (parse_line (column_positions separator)) data_lines.

End WithRuntime.
End WindowsParser.

Module ParserFactory.

Inductive Parser : Type := Unix | Windows.

Definition get_parser (os_type : string) : result Parser :=
  let tag := PyStr.lower os_type in
  if bool_decide (tag ∈ ["linux"; "unix"; "mac"]) then Ok Unix
  else if bool_decide (tag = "windows") then Ok Windows
  else Raise (ValueError ("Unsupported OS type: " +:+ os_type)).

Definition parse `{Runtime} (p : Parser) (content : string) : result (list ProcessData) :=
  match p with
  | Unix => UnixParser.parse content
  | Windows => WindowsParser.parse content
  end.

End ParserFactory.

(** ** Python list helpers *)

(** [sorted(l, key=...)], a stable sort: [leb a b] tells that the key of [a]
    is not above the key of [b]. Elements are inserted from the right, each
    in front of the first element it is not above, so equal keys keep their
    order. *)
Fixpoint insert_sorted {A : Type} (leb : A -> A -> bool) (x : A) (s : list A) : list A :=
  match s with
  | [] => [x]
  | y :: s' => if leb x y then x :: y :: s' else y :: insert_sorted leb x s'
  end.

Fixpoint py_sorted {A : Type} (leb : A -> A -> bool) (l : list A) : list A :=
  match l with
  | [] => []
  | x :: l' => insert_sorted leb x (py_sorted leb l')
  end.

(** [list(dict.fromkeys(l))]: the keys in first-insertion order; [seen] holds
    the keys already in the dict. *)
Fixpoint fromkeys_from (seen : list string) (l : list string) : list string :=
  match l with
  | [] => []
  | x :: l' =>
      if bool_decide (x ∈ seen) then fromkeys_from seen l'
      else x :: fromkeys_from (x :: seen) l'
  end.

Definition fromkeys (l : list string) : list string := fromkeys_from [] l.

(** [sum] of a float column *)
Definition qsum (l : list Q) : Q := fold_left Qplus l 0%Q.

(** ** The ingestion pipeline ([app/services/data_organizer.py]) *)

Module DataOrganizer.
Section WithRuntime.
Context `{Runtime}.

(** The request body of an ingest call, already a mapping. *)
Record IngestData : Type := mkIngestData {
  in_os_type : option string;
  in_content : option string;
  in_meta_info : gmap string string
}.

Definition store_process_data_in_redis
    (now : Calendar.datetime) (meta_info : gmap string string)
    (process_data_list : list ProcessData) (redis : gmap string redis_value)
    : result (string * nat) * gmap string redis_value :=
  let batch_id := "batch_" +:+ Calendar.strftime_compact now in
  let data_to_store :=
    ts ← of_option (meta_info !! "timestamp") (KeyError "timestamp");
    mn ← of_option (meta_info !! "machine_name") (KeyError "machine_name");
    mi ← of_option (meta_info !! "machine_id") (KeyError "machine_id");
    os ← of_option (meta_info !! "os_type") (KeyError "os_type");
    Ok (StagedBatch (mkMetaInfo ts mn mi os) (map to_dict process_data_list)) in
  match data_to_store with
  | Ok v => (Ok (batch_id, length process_data_list), <[batch_id := v]> redis)
  | Raise e => (Raise e, redis)
  end.

Definition receive_and_parse_data
    (now : Calendar.datetime) (data : IngestData) (redis : gmap string redis_value)
    : result (string * nat) * gmap string redis_value :=
  match in_os_type data, in_content data with
  | Some os_type_, Some raw_content =>
      if PyStr.is_empty os_type_ || PyStr.is_empty raw_content
      then (Raise (ValueError "Missing required fields: os_type and content"), redis)
      else
        match (parser ← ParserFactory.get_parser os_type_;
               ParserFactory.parse parser raw_content) with
        | Ok parsed_data =>
            store_process_data_in_redis now (in_meta_info data) parsed_data redis
        | Raise e => (Raise e, redis)
        end
  | _, _ => (Raise (ValueError "Missing required fields: os_type and content"), redis)
  end.

(** [process.update(data['meta_info'])], with the timestamp column then
    converted by [pd.to_datetime]. *)
Definition merge_meta (m : MetaInfo) (p : ProcessData) : ProcessData :=
  mkProcessData (id p) (command p) (pid p) (vsz p) (rss p) (cpu_usage p) (mem_usage p)
    (tty p) (stat p) (start_time p) (duration p) (user p)
    (pd_to_datetime (meta_timestamp m))
    (Some (meta_machine_name m)) (Some (meta_machine_id m)) (Some (meta_os_type m)).

(** [timestamp.dt.to_period('D').astype(str) + '_' + os_type] *)
Definition partition_key (p : ProcessData) : string :=
  (match timestamp p with
   | Some t => Calendar.date_str (Calendar.date_of t)
   | None => "NaT"
   end) +:+ "_" +:+ default "" (os_type p).

(** [df.nlargest(n, col)] with the default [keep='first']: descending, equal
    values in row order. *)
Definition nlargest (n : nat) (col : ProcessData -> Q) (rows : list ProcessData)
    : list ProcessData :=
  firstn n (py_sorted (fun a b => Qle_bool (col b) (col a)) rows).

(** The rollup of one group of rows. *)
Definition aggregate (partition_df : list ProcessData) : Aggregated :=
  {| total_cpu_usage := qsum (map cpu_usage partition_df);
     total_memory_usage := qsum (map mem_usage partition_df);
     process_count := Z.of_nat (length (fromkeys (map command partition_df)));
     top_cpu_processes :=
       map (fun p => (command p, cpu_usage p)) (nlargest 10 cpu_usage partition_df);
     top_memory_processes :=
       map (fun p => (command p, mem_usage p)) (nlargest 10 mem_usage partition_df) |}.

(** The rows of [df] whose [partition_key] column is [key]. *)
Definition group (key : string) (df : list (string * ProcessData)) : list ProcessData :=
  map snd (filter (fun r => fst r = key) df).

(** [df.groupby('partition_key')] visits the keys in sorted order. *)
Definition group_keys (df : list (string * ProcessData)) : list string :=
  py_sorted String.leb (fromkeys (map fst df)).

Definition _update_redis_aggregations
    (df : list (string * ProcessData)) (redis : gmap string redis_value)
    : gmap string redis_value :=
  fold_left
    (fun r key => <["agg_" +:+ key := Rollup (aggregate (group key df))]> r)
    (group_keys df) redis.

(** Rows inserted by [bulk_insert_mappings] get the next serial ids. *)
Fixpoint assign_ids (next : Z) (rows : list ProcessData) : list ProcessData :=
  match rows with
  | [] => []
  | p :: rest =>
      mkProcessData (Some next) (command p) (pid p) (vsz p) (rss p) (cpu_usage p)
        (mem_usage p) (tty p) (stat p) (start_time p) (duration p) (user p)
        (timestamp p) (machine_name p) (machine_id p) (os_type p)
      :: assign_ids (next + 1) rest
  end.

(** One transaction: either the insert goes through and every row of the
    frame is appended, with the ids the sequence of the table hands out from
    [next_id] on, or it raises, the transaction is rolled back, the table is
    as it was and the exception is raised again. The value of the sequence is
    an argument, as the clock is: a rollback does not give back the values a
    failed insert has drawn, so the table alone does not tell it. *)
Definition _update_sql_database
    (next_id : Z) (df : list (string * ProcessData)) (db : list ProcessData)
    : result (list ProcessData) :=
  let records := map snd df in
  match sql_insert_error records with
  | None => Ok (db ++ assign_ids next_id records)
  | Some e => Raise e
  end.

(** [except (json.JSONDecodeError, KeyError, TypeError)]: of the exceptions
    of [exn], the two the background step catches and prints. *)
Definition caught (e : exn) : bool :=
  match e with
  | KeyError _ | TypeError => true
  | _ => false
  end.

(** The state the pipeline works on is Redis and the SQL table. An exception
    of the insert comes before any rollup is written and before the staged
    batch is deleted; unless it is one of the two caught, it leaves the
    function. *)
Definition process_and_store_data
    (next_id : Z) (batch_id : string) (st : gmap string redis_value * list ProcessData)
    : result unit * (gmap string redis_value * list ProcessData) :=
  let '(redis, db) := st in
  match redis !! batch_id with
  | None => (Ok tt, st)
  | Some (Rollup _) => (Ok tt, st)
  | Some (StagedBatch meta process_data) =>
      let merged := map (merge_meta meta) process_data in
      match merged with
      | [] => (Ok tt, st)
      | _ :: _ =>
          let df := map (fun p => (partition_key p, p)) merged in
          match _update_sql_database next_id df db with
          | Raise e => (if caught e then Ok tt else Raise e, st)
          | Ok db' =>
              let redis' := _update_redis_aggregations df redis in
              (Ok tt, (delete batch_id redis', db'))
          end
      end
  end.

End WithRuntime.
End DataOrganizer.

(** ** The query planner ([app/services/query_engine.py]) *)

(** A key of a loosely typed mapping: missing, present with [None], or present
    with a value. *)
Inductive field (A : Type) : Type :=
  | Absent
  | Null
  | Value (a : A).
Arguments Absent {A}.
Arguments Null {A}.
Arguments Value {A} a.

(** [d.get(k)] and [d.get(k, default)] *)
Definition get {A : Type} (f : field A) : option A :=
  match f with
  | Value a => Some a
  | _ => None
  end.

Definition get_default {A : Type} (f : field A) (d : A) : option A :=
  match f with
  | Absent => Some d
  | Null => None
  | Value a => Some a
  end.

Module SmartQueryEngine.
Section WithRuntime.
Context `{Runtime}.

(** The [query_params] mapping handed to [execute_query]. *)
Record QueryParams : Type := mkQueryParams {
  qp_type : field string;
  qp_start_time : field Calendar.stamp;
  qp_end_time : field Calendar.stamp;
  qp_os_type : field string;
  qp_machine_id : field string;
  qp_command : field string;
  qp_cpu_usage_gt : field Q;
  qp_memory_usage_gt : field Q;
  qp_limit : field Z;
  qp_offset : field Z;
  qp_aggregations : field (list string);
  qp_group_by : field (list string)
}.

(** The mapping [_analyze_query] returns: every key present, [None] allowed. *)
Record Analyzed : Type := mkAnalyzed {
  a_type : option string;
  a_start_time : option Calendar.stamp;
  a_end_time : option Calendar.stamp;
  a_os_type : option string;
  a_machine_id : option string;
  a_command : option string;
  a_cpu_usage_gt : option Q;
  a_memory_usage_gt : option Q;
  a_limit : option Z;
  a_offset : option Z;
  a_aggregations : option (list string);
  a_group_by : option (list string)
}.

(** The [filters] mapping built by [_optimize_filters]; [None] is a missing key. *)
Record Filters : Type := mkFilters {
  f_os_type : option string;
  f_machine_id : option string;
  f_command : option string;
  f_cpu_usage_gt : option Q;
  f_memory_usage_gt : option Q
}.

(** The mapping [_optimize_query] returns: the analyzed keys, five of them
    rewritten, and the new key [filters]. *)
Record Optimized : Type := mkOptimized {
  o_type : option string;
  o_start_time : Calendar.stamp;
  o_end_time : Calendar.stamp;
  o_os_type : option string;
  o_machine_id : option string;
  o_command : option string;
  o_cpu_usage_gt : option Q;
  o_memory_usage_gt : option Q;
  o_limit : Z;
  o_offset : Z;
  o_aggregations : option (list string);
  o_group_by : option (list string);
  o_filters : Filters
}.

Definition _analyze_query (query_params : QueryParams) : Analyzed :=
  {| a_type := get_default (qp_type query_params) "historical";
     a_start_time := get (qp_start_time query_params);
     a_end_time := get (qp_end_time query_params);
     a_os_type := get (qp_os_type query_params);
     a_machine_id := get (qp_machine_id query_params);
     a_command := get (qp_command query_params);
     a_cpu_usage_gt := get (qp_cpu_usage_gt query_params);
     a_memory_usage_gt := get (qp_memory_usage_gt query_params);
     a_limit := get_default (qp_limit query_params) 100;
     a_offset := get_default (qp_offset query_params) 0;
     a_aggregations := get_default (qp_aggregations query_params) [];
     a_group_by := get_default (qp_group_by query_params) [] |}.

Definition priority_order : list string := ["count"; "sum"; "avg"; "min"; "max"].

(** [l.index(x)] for an [x] known to be in [l], and [len(l)] otherwise. *)
Fixpoint index_of (x : string) (l : list string) : nat :=
  match l with
  | [] => O
  | y :: l' => if bool_decide (x = y) then O else S (index_of x l')
  end.

(** [x.split('_')[0]] *)
Definition prefix_of (x : string) : string :=
  hd EmptyString (PyStr.split_char "_" x).

(** The sort key of [_optimize_aggregations] *)
Definition priority (x : string) : nat :=
  if bool_decide (prefix_of x ∈ priority_order)
  then index_of (prefix_of x) priority_order
  else length priority_order.

Definition _optimize_aggregations (aggregations : list string) : list string :=
  let unique_aggregations := fromkeys aggregations in
  py_sorted (fun a b => (priority a <=? priority b)%nat) unique_aggregations.

(** [max(0, x)]: the first argument unless the second is greater. *)
Definition floor0 (x : Q) : Q := if Qle_bool x 0 then 0%Q else x.

Definition _optimize_filters
    (os_type_ machine_id_ command_ : option string) (cpu_usage_gt_ memory_usage_gt_ : option Q)
    : Filters :=
  {| f_os_type := os_type_;
     f_machine_id := machine_id_;
     f_command := command_;
     f_cpu_usage_gt := floor0 <$> cpu_usage_gt_;
     f_memory_usage_gt := floor0 <$> memory_usage_gt_ |}.

(** The first part of [_optimize_query], its three steps on the time range
    (lines 78 to 92): the defaults, from the naive
    [datetime.now()]; the swap; the cut to [max_time_range]. Each can raise:
    the comparison and the difference a [TypeError], when one bound is naive
    and the other aware, the subtractions of a [timedelta] an
    [OverflowError]. *)
Definition time_range (now : Calendar.datetime) (analyzed_query : Analyzed)
    : result (Calendar.stamp * Calendar.stamp) :=
  start0 ← match a_start_time analyzed_query with
           | Some t => Ok t
           | None => Calendar.minus (Calendar.naive now) (Calendar.days 30)
           end;
  let end0 := default (Calendar.naive now) (a_end_time analyzed_query) in
  reversed ← Calendar.gt start0 end0;
  let '(start1, end1) := if reversed : bool then (end0, start0) else (start0, end0) in
  let max_time_range := Calendar.days 365 in
  range ← Calendar.diff end1 start1;
  start2 ← (if max_time_range <? range then Calendar.minus end1 max_time_range
            else Ok start1);
  Ok (start2, end1).

Definition _optimize_query (now : Calendar.datetime) (analyzed_query : Analyzed)
    : result Optimized :=
  '(start2, end1) ← time_range now analyzed_query;
  let limit0 :=
    match a_limit analyzed_query with
    | None => 100
    | Some l => if l =? 0 then 100 else l
    end in
  let limit1 := Z.min limit0 1000 in
  offset1 ← match a_offset analyzed_query with
            | None => Raise TypeError
            | Some o => Ok (Z.max o 0)
            end;
  let aggregations1 :=
    match a_aggregations analyzed_query with
    | Some (x :: l) => Some (_optimize_aggregations (x :: l))
    | other => other
    end in
  Ok {| o_type := a_type analyzed_query;
        o_start_time := start2;
        o_end_time := end1;
        o_os_type := a_os_type analyzed_query;
        o_machine_id := a_machine_id analyzed_query;
        o_command := a_command analyzed_query;
        o_cpu_usage_gt := a_cpu_usage_gt analyzed_query;
        o_memory_usage_gt := a_memory_usage_gt analyzed_query;
        o_limit := limit1;
        o_offset := offset1;
        o_aggregations := aggregations1;
        o_group_by := a_group_by analyzed_query;
        o_filters :=
          _optimize_filters (a_os_type analyzed_query) (a_machine_id analyzed_query)
            (a_command analyzed_query) (a_cpu_usage_gt analyzed_query)
            (a_memory_usage_gt analyzed_query) |}.

Definition pre_aggregated_aggs : list string :=
  ["total_cpu_usage"; "total_memory_usage"; "process_count"].

Definition _select_data_source (optimized_query : Optimized) : string :=
  if bool_decide (o_type optimized_query = Some "real_time") then "raw_data_store"
  else
    match o_aggregations optimized_query with
    | None | Some [] => "sql_store"
    | Some aggregations =>
        if forallb (fun agg => bool_decide (agg ∈ pre_aggregated_aggs)) aggregations
        then "pre_aggregated_store"
        else "sql_store"
    end.

(** *** The memoized rollup lookup

    [functools.lru_cache(maxsize=128)]: the entries from the most to the
    least recently used. A hit moves the entry to the front; a miss calls
    the function, puts the result in front and drops the entry at the back
    when the cache was full. *)
Definition maxsize : nat := 128.

Definition cache_lookup {V : Type} (key : string) (cache : list (string * V)) : option V :=
  snd <$> find (fun e => bool_decide (fst e = key)) cache.

Definition cache_remove {V : Type} (key : string) (cache : list (string * V))
    : list (string * V) :=
  filter (fun e => fst e <> key) cache.

(** The undecorated function: the rollup under ["agg_" + partition_key],
    or [None] for the empty mapping it returns when there is none. *)
Definition fetch_aggregated_data (redis : gmap string redis_value) (partition_key : string)
    : option redis_value :=
  redis !! ("agg_" +:+ partition_key).

Definition _get_aggregated_data
    (redis : gmap string redis_value) (partition_key : string)
    (cache : list (string * option redis_value))
    : option redis_value * list (string * option redis_value) :=
  match cache_lookup partition_key cache with
  | Some v => (v, (partition_key, v) :: cache_remove partition_key cache)
  | None =>
      let v := fetch_aggregated_data redis partition_key in
      (v, firstn maxsize ((partition_key, v) :: cache))
  end.

(** [for os_type in ...]: the values the inner loop iterates over. A string
    iterates over its characters. *)
Fixpoint chars (s : string) : list string :=
  match s with
  | EmptyString => []
  | String c s' => String c EmptyString :: chars s'
  end.

Definition os_types_iterated (filters : Filters) : list string :=
  match f_os_type filters with
  | Some v => chars v
  | None => ["windows"; "linux"; "mac"]
  end.

(** The inner [for] loop on one date. *)
Fixpoint scan_os_types
    (redis : gmap string redis_value) (current_date : Calendar.date) (os_types : list string)
    (cache : list (string * option redis_value))
    : list result_row * list (string * option redis_value) :=
  match os_types with
  | [] => ([], cache)
  | os :: rest =>
      let partition_key := Calendar.date_str current_date +:+ "_" +:+ os in
      let '(aggregated_data, cache1) := _get_aggregated_data redis partition_key cache in
      let '(results, cache2) := scan_os_types redis current_date rest cache1 in
      (match aggregated_data with
       | Some v => Stored v :: results
       | None => results
       end, cache2)
  end.

(** The [while current_date <= end_date] loop, [n] iterations from
    [current_date]; stepping past the last date raises [OverflowError]. *)
Fixpoint scan_dates
    (redis : gmap string redis_value) (n : nat) (current_date : Calendar.date)
    (os_types : list string) (cache : list (string * option redis_value))
    : result (list result_row) * list (string * option redis_value) :=
  match n with
  | O => (Ok [], cache)
  | S n' =>
      let '(rows, cache1) := scan_os_types redis current_date os_types cache in
      if current_date =? Calendar.max_ordinal then (Raise OverflowError, cache1)
      else
        let '(rest, cache2) := scan_dates redis n' (current_date + 1) os_types cache1 in
        (more ← rest; Ok (rows ++ more), cache2)
  end.

Definition _execute_on_pre_aggregated
    (redis : gmap string redis_value) (optimized_query : Optimized)
    (cache : list (string * option redis_value))
    : result (list result_row) * list (string * option redis_value) :=
  let start_date := Calendar.date_of (Calendar.wall (o_start_time optimized_query)) in
  let end_date := Calendar.date_of (Calendar.wall (o_end_time optimized_query)) in
  scan_dates redis (Z.to_nat (end_date - start_date + 1)) start_date
    (os_types_iterated (o_filters optimized_query)) cache.

(** *** The SQL path *)

Definition truthy (s : option string) : bool :=
  match s with
  | Some t => negb (PyStr.is_empty t)
  | None => false
  end.

(** [ProcessData.timestamp >= bound] and [ProcessData.timestamp <= bound]
    for a timestamp [t] that is not [NULL]. A naive bound is sent as a
    [timestamp] and compared with the column as it is; an aware bound is sent
    as a [timestamptz], and the database casts the column to compare the
    instants. *)
Definition not_before (t : Calendar.datetime) (bound : Calendar.stamp) : bool :=
  match Calendar.utcoffset bound with
  | None => Calendar.wall bound <=? t
  | Some offset => Calendar.wall bound - offset <=? sql_timestamptz t
  end.

Definition not_after (t : Calendar.datetime) (bound : Calendar.stamp) : bool :=
  match Calendar.utcoffset bound with
  | None => t <=? Calendar.wall bound
  | Some offset => sql_timestamptz t <=? Calendar.wall bound - offset
  end.

(** The [WHERE] clause built by the chain of [query.filter] calls; a SQL
    comparison with [NULL] is not true. *)
Definition where_clause (q : Optimized) (row : ProcessData) : bool :=
  match timestamp row with
  | Some t => not_before t (o_start_time q) && not_after t (o_end_time q)
  | None => false
  end
  && (if truthy (o_os_type q) then bool_decide (os_type row = o_os_type q) else true)
  && (if truthy (o_machine_id q) then bool_decide (machine_id row = o_machine_id q) else true)
  && (match o_command q with
      | Some c => if PyStr.is_empty c then true
                  else sql_ilike (command row) ("%" +:+ c +:+ "%")
      | None => true
      end)
  && (match o_cpu_usage_gt q with
      | Some x => negb (Qle_bool (cpu_usage row) x)
      | None => true
      end)
  && (match o_memory_usage_gt q with
      | Some x => negb (Qle_bool (mem_usage row) x)
      | None => true
      end).

Definition agg_map : list (string * agg_func) :=
  [("avg", FAvg); ("max", FMax); ("min", FMin); ("sum", FSum); ("count", FCount)].

(** [agg_map.get(agg_type, func.avg)(getattr(ProcessData, column))], yet to
    be labelled. *)
Definition _get_aggregation_func (agg_type column : string) : string -> select_entity :=
  EAggregate
    (default FAvg (snd <$> find (fun e => bool_decide (fst e = agg_type)) agg_map))
    column.

(** [hasattr(ProcessData, col)]: true of the columns, of the two other
    names the class body assigns, and of what the class inherits. *)
Definition hasattr (col : string) : Prop :=
  col ∈ columns \/ col ∈ ["__tablename__"; "to_dict"] \/ inherited_attribute col = true.

Global Instance hasattr_dec (col : string) : Decision (hasattr col).
Proof. unfold hasattr. apply _. Defined.

(** The aggregate entity of one name of [aggregations], when it has one. *)
Definition aggregate_entity (agg : string) : option select_entity :=
  match PyStr.split_char "_" agg with
  | agg_type :: ((_ :: _) as rest) =>
      let column := PyStr.join "_" rest in
      if decide (hasattr column) then Some (_get_aggregation_func agg_type column agg)
      else None
  | _ => None
  end.

(** The query built on [db.query(ProcessData)] and run by [query.all()]. The
    table is read in insertion order; a negative [LIMIT] is an error of the
    database (PostgreSQL, the configured one, refuses it). The names of
    [group_by] and of the aggregations that pass [hasattr] go to the select,
    columns or not. *)
Definition _execute_on_sql (optimized_query : Optimized) (db : list ProcessData)
    : result (list result_row) :=
  let matching := filter (where_clause optimized_query) db in
  let group_cols := filter hasattr (default [] (o_group_by optimized_query)) in
  selected ←
    match default [] (o_aggregations optimized_query) with
    | [] =>
        match group_cols with
        | [] => Ok (map (fun row => FullRecord (to_dict row)) matching)
        | _ :: _ => sql_grouped_select None group_cols matching
        end
    | (_ :: _) as aggregations =>
        match o_group_by optimized_query with
        | None => Raise TypeError
        | Some _ =>
            sql_grouped_select
              (Some (map EColumn group_cols ++ omap aggregate_entity aggregations))
              group_cols matching
        end
    end;
  if o_limit optimized_query <? 0 then Raise DatabaseError
  else Ok (firstn (Z.to_nat (o_limit optimized_query))
             (skipn (Z.to_nat (o_offset optimized_query)) selected)).

Definition _execute_optimized_query
    (redis : gmap string redis_value) (db : list ProcessData)
    (optimized_query : Optimized) (data_source : string)
    (cache : list (string * option redis_value))
    : result (list result_row) * list (string * option redis_value) :=
  if bool_decide (data_source = "pre_aggregated_store")
  then _execute_on_pre_aggregated redis optimized_query cache
  else if bool_decide (data_source = "sql_store")
  then (_execute_on_sql optimized_query db, cache)
  else (Raise (NotImplementedError "Raw data store queries not implemented in this example"),
        cache).

Definition execute_query
    (now : Calendar.datetime) (redis : gmap string redis_value) (db : list ProcessData)
    (query_params : QueryParams) (cache : list (string * option redis_value))
    : result (nat * list result_row) * list (string * option redis_value) :=
  let analyzed_query := _analyze_query query_params in
  match _optimize_query now analyzed_query with
  | Raise e => (Raise e, cache)
  | Ok optimized_query =>
      let data_source := _select_data_source optimized_query in
      let '(r, cache') :=
        _execute_optimized_query redis db optimized_query data_source cache in
      (result ← r; Ok (length result, result), cache')
  end.

End WithRuntime.
End SmartQueryEngine.

(** ** The HTTP endpoints ([app/main.py]) *)

Module Api.
Section WithRuntime.
Context `{Runtime}.

(** [str(e)], the text of a caught exception that goes into the detail of
    the HTTP 500. *)
Context (str : exn -> string).

(** [schemas.IngestDataRequest], validated: the three fields are there. *)
Record IngestDataRequest : Type := mkIngestDataRequest {
  req_os_type : string;
  req_content : string;
  req_meta_info : gmap string string
}.

Record IngestDataResponse : Type := mkIngestDataResponse {
  message : string;
  records_processed : nat
}.

(** [data.dict()] *)
Definition dict (data : IngestDataRequest) : DataOrganizer.IngestData :=
  DataOrganizer.mkIngestData (Some (req_os_type data)) (Some (req_content data))
    (req_meta_info data).

(** [POST /api/v1/ingest]. Besides the response, the endpoint gives the
    background tasks it has added, each a call of [process_and_store_data]
    on a batch id, which run after the response is sent. Every exception,
    the HTTP 400 of the Unix parser included, is caught and raised again as
    an HTTP 500. *)
Definition ingest_data
    (now : Calendar.datetime) (data : IngestDataRequest) (redis : gmap string redis_value)
    : result (IngestDataResponse * list string) * gmap string redis_value :=
  match DataOrganizer.receive_and_parse_data now (dict data) redis with
  | (Ok (batch_id, num_of_records), redis') =>
      (Ok (mkIngestDataResponse "Data received and processing started" num_of_records,
           [batch_id]),
       redis')
  | (Raise e, redis') => (Raise (HTTPException 500 (str e)), redis')
  end.

(** [schemas.QueryParams], validated: a field left out of the request has
    its default, a field sent as null is [None]. *)
Record QueryParams : Type := mkQueryParams {
  start_time : option Calendar.stamp;
  end_time : option Calendar.stamp;
  os_type : option string;
  type : option string;
  machine_id : option string;
  command : option string;
  cpu_usage_gt : option Q;
  memory_usage_gt : option Q;
  limit : option Z;
  offset : option Z;
  aggregations : option (list string)
}.

(** A key of [model_dump()]: always present, [None] when the field is. *)
Definition dumped {A : Type} (o : option A) : field A :=
  match o with
  | Some v => Value v
  | None => Null
  end.

(** [query_params.model_dump()]: the eleven fields of the schema; there is
    no [group_by] among them. *)
Definition model_dump (query_params : QueryParams) : SmartQueryEngine.QueryParams :=
  SmartQueryEngine.mkQueryParams
    (dumped (type query_params)) (dumped (start_time query_params))
    (dumped (end_time query_params)) (dumped (os_type query_params))
    (dumped (machine_id query_params)) (dumped (command query_params))
    (dumped (cpu_usage_gt query_params)) (dumped (memory_usage_gt query_params))
    (dumped (limit query_params)) (dumped (offset query_params))
    (dumped (aggregations query_params)) Absent.

Record QueryResponse : Type := mkQueryResponse {
  total_count : nat;
  records : list result_row
}.

(** [POST /api/v1/query] *)
Definition query_data
    (now : Calendar.datetime) (redis : gmap string redis_value) (db : list ProcessData)
    (query_params : QueryParams) (cache : list (string * option redis_value))
    : result QueryResponse * list (string * option redis_value) :=
  match SmartQueryEngine.execute_query now redis db (model_dump query_params) cache with
  | (Ok (total_count_, records_), cache') => (Ok (mkQueryResponse total_count_ records_), cache')
  | (Raise e, cache') => (Raise (HTTPException 500 (str e)), cache')
  end.

End WithRuntime.
End Api.

(** ** A reference runtime

    An instance of [Runtime] for the worked examples: [int] and [float] read
    plain signed decimal literals, [pd.to_datetime] reads [YYYY-MM-DD] with an
    optional [THH:MM:SS], [ILIKE] knows the wildcards [%] and [_], the
    insert goes through for rows whose integers fit 32 bits, whose timestamp
    is set and whose texts have no NUL character, the database session is in
    UTC, and the database evaluates no grouped or aggregate select. *)

Module Reference.

Definition is_digit (c : ascii) : bool :=
  let n := nat_of_ascii c in (48 <=? n)%nat && (n <=? 57)%nat.

Fixpoint digits_value (acc : Z) (s : string) : option Z :=
  match s with
  | EmptyString => Some acc
  | String c s' =>
      if is_digit c then digits_value (10 * acc + Z.of_nat (nat_of_ascii c - 48)) s'
      else None
  end.

Definition unsigned_int (s : string) : option Z :=
  if PyStr.is_empty s then None else digits_value 0 s.

Definition signed {A : Type} (neg : A -> A) (body : string -> option A) (s : string)
    : option A :=
  match s with
  | String "-" s' => neg <$> body s'
  | String "+" s' => body s'
  | _ => body s
  end.

Definition int (s : string) : option Z := signed Z.opp unsigned_int s.

Definition unsigned_float (s : string) : option Q :=
  match PyStr.split_char "." s with
  | [whole] => inject_Z <$> unsigned_int whole
  | [whole; frac] =>
      if PyStr.is_empty whole && PyStr.is_empty frac then None
      else
        w ← digits_value 0 whole;
        f ← digits_value 0 frac;
        let scale := Z.pow 10 (Z.of_nat (String.length frac)) in
        Some (Qred (Qmake (w * scale + f) (Z.to_pos scale)))
  | _ => None
  end.

Definition float (s : string) : option Q := signed Qopp unsigned_float s.

Definition is_leap (y : Z) : bool :=
  ((y mod 4 =? 0) && negb (y mod 100 =? 0)) || (y mod 400 =? 0).

(** [datetime._ymd2ord] for a valid date *)
Definition ymd2ord (y m d : Z) : option Calendar.date :=
  let dim := Calendar.days_in_month m + (if (m =? 2) && is_leap y then 1 else 0) in
  if (1 <=? y) && (y <=? 9999) && (1 <=? m) && (m <=? 12) && (1 <=? d) && (d <=? dim)
  then
    let y1 := y - 1 in
    Some (y1 * 365 + y1 / 4 - y1 / 100 + y1 / 400
          + Calendar.days_before_month m + (if (2 <? m) && is_leap y then 1 else 0) + d)
  else None.

Definition fixed_digits (s : string) (a b : nat) : option Z :=
  let t := PyStr.slice s a b in
  if (String.length t =? b - a)%nat then digits_value 0 t else None.

Definition char_at (s : string) (i : nat) : string := PyStr.slice s i (S i).

Definition to_datetime (s : string) : option Calendar.datetime :=
  y ← fixed_digits s 0 4;
  m ← fixed_digits s 5 7;
  d ← fixed_digits s 8 10;
  ord ← ymd2ord y m d;
  if negb (bool_decide (char_at s 4 = "-" ∧ char_at s 7 = "-")) then None
  else if (String.length s =? 10)%nat then Some (Calendar.at_time ord 0 0 0 0)
  else
    hh ← fixed_digits s 11 13;
    mm ← fixed_digits s 14 16;
    ss ← fixed_digits s 17 19;
    if bool_decide (char_at s 10 = "T" ∧ char_at s 13 = ":" ∧ char_at s 16 = ":")
       && (String.length s =? 19)%nat && (hh <? 24) && (mm <? 60) && (ss <? 60)
    then Some (Calendar.at_time ord hh mm ss 0)
    else None.

(** [LIKE] on lower-cased text: [%] stands for any run of characters, [_]
    for any one character. *)
Fixpoint like (pattern : string) (value : string) : bool :=
  match pattern with
  | EmptyString => PyStr.is_empty value
  | String "%" pattern' =>
      (fix any_suffix (v : string) : bool :=
         like pattern' v ||
         match v with
         | EmptyString => false
         | String _ v' => any_suffix v'
         end) value
  | String c pattern' =>
      match value with
      | EmptyString => false
      | String d value' => (Ascii.eqb c "_" || Ascii.eqb c d) && like pattern' value'
      end
  end.

Definition ilike (value pattern : string) : bool :=
  like (PyStr.lower pattern) (PyStr.lower value).

(** An [Integer] column of PostgreSQL holds 32 bits. *)
Definition fits_integer (n : Z) : bool := (- 2 ^ 31 <=? n) && (n <? 2 ^ 31).

Fixpoint no_nul (s : string) : bool :=
  match s with
  | EmptyString => true
  | String c s' => negb (Ascii.eqb c "000") && no_nul s'
  end.

(** A mapping the insert goes through for. *)
Definition insertable (p : ProcessData) : bool :=
  fits_integer (pid p) && fits_integer (vsz p) && fits_integer (rss p)
  && bool_decide (is_Some (timestamp p))
  && forallb no_nul
       ([command p; tty p; stat p; start_time p; user p]
        ++ omap (fun o => o) [duration p; machine_name p; machine_id p; os_type p]).

Definition insert_error (records : list ProcessData) : option exn :=
  if forallb insertable records then None else Some DatabaseError.

Definition inherited (name : string) : bool :=
  bool_decide (name ∈ ["metadata"; "registry"; "__table__"; "__mapper__"; "__init__";
                       "__class__"; "__dict__"; "__doc__"; "__module__"; "__weakref__"]).

Global Instance runtime : Runtime :=
  {| py_int := int;
     py_float := float;
     pd_to_datetime := to_datetime;
     sql_ilike := ilike;
     sql_insert_error := insert_error;
     sql_timestamptz := fun t => t;
     inherited_attribute := inherited;
     sql_grouped_select := fun _ _ _ => Raise DatabaseError |}.

End Reference.

(** ** Traces of cache use

    The memoized lookup lives as long as the process. To speak of what
    happens between two lookups of the same key, a trace lists the events in
    between: other lookups, whole pre-aggregated queries, and the content of
    Redis changing under the cache (a later [process_and_store_data]). *)

Module Trace.

(** The partition keys a pre-aggregated query looks up, in order: those of [n]
    dates from [current_date], as [scan_dates] visits them. *)
Fixpoint keys_scanned (n : nat) (current_date : Calendar.date) (os_types : list string)
    : list string :=
  match n with
  | O => []
  | S n' =>
      map (fun os => Calendar.date_str current_date +:+ "_" +:+ os) os_types
      ++ (if current_date =? Calendar.max_ordinal then []
          else keys_scanned n' (current_date + 1) os_types)
  end.

Definition query_keys (q : SmartQueryEngine.Optimized) : list string :=
  let start_date := Calendar.date_of (Calendar.wall (SmartQueryEngine.o_start_time q)) in
  let end_date := Calendar.date_of (Calendar.wall (SmartQueryEngine.o_end_time q)) in
  keys_scanned (Z.to_nat (end_date - start_date + 1)) start_date
    (SmartQueryEngine.os_types_iterated (SmartQueryEngine.o_filters q)).

Inductive event : Type :=
  | Lookup (partition_key : string)
  | Query (q : SmartQueryEngine.Optimized)
  | StoreBecomes (redis : gmap string redis_value).

Definition step (st : gmap string redis_value * list (string * option redis_value))
    (ev : event) : gmap string redis_value * list (string * option redis_value) :=
  match ev with
  | Lookup key => (st.1, (SmartQueryEngine._get_aggregated_data st.1 key st.2).2)
  | Query q => (st.1, (SmartQueryEngine._execute_on_pre_aggregated st.1 q st.2).2)
  | StoreBecomes redis => (redis, st.2)
  end.

Definition run (trace : list event)
    (st : gmap string redis_value * list (string * option redis_value))
    : gmap string redis_value * list (string * option redis_value) :=
  fold_left step trace st.

(** The partition keys looked up along a trace. *)
Fixpoint looked_up (trace : list event) : list string :=
  match trace with
  | [] => []
  | Lookup key :: rest => key :: looked_up rest
  | Query q :: rest => query_keys q ++ looked_up rest
  | StoreBecomes _ :: rest => looked_up rest
  end.

(** The state of the cache relative to the last lookup of [k], which returned
    [v]; [recent] is the set of the keys looked up since. While fewer than
    [maxsize] of them were, the entry of [k] is still there, behind exactly
    those keys; afterwards it is gone. *)
Definition tracks (k : string) (v : option redis_value) (recent : gset string)
    (cache : list (string * option redis_value)) : Prop :=
  NoDup cache.*1
  /\ (length cache <= SmartQueryEngine.maxsize)%nat
  /\ if decide (size recent < SmartQueryEngine.maxsize)%nat
     then exists pre post, cache = pre ++ (k, v) :: post /\ list_to_set pre.*1 = recent
     else k ∉ cache.*1.

(** The values a sequence of lookups returns, in order, and the cache it
    leaves. *)
Fixpoint lookups (redis : gmap string redis_value) (keys : list string)
    (cache : list (string * option redis_value))
    : list (option redis_value) * list (string * option redis_value) :=
  match keys with
  | [] => ([], cache)
  | key :: rest =>
      let found := SmartQueryEngine._get_aggregated_data redis key cache in
      let others := lookups redis rest found.2 in
      (found.1 :: others.1, others.2)
  end.

(** Every entry of the cache is what Redis holds now. *)
Definition agrees_with (redis : gmap string redis_value)
    (cache : list (string * option redis_value)) : Prop :=
  Forall (fun e => e.2 = redis !! ("agg_" +:+ e.1)) cache.

End Trace.

(** ** The specification's wording

    Definitions that follow the sentences of the specification, to state the
    properties against. *)

Global Instance Qeq_decision (x y : Q) : Decision (x == y)%Q := Qeq_dec x y.

Module Spec.

(** Source selection (specification, section 4.4, stage 3). *)
Inductive planned_source : SmartQueryEngine.Optimized -> string -> Prop :=
  | plan_real_time q :
      SmartQueryEngine.o_type q = Some "real_time" ->
      planned_source q "raw_data_store"
  | plan_no_aggregations q :
      SmartQueryEngine.o_type q <> Some "real_time" ->
      default [] (SmartQueryEngine.o_aggregations q) = [] ->
      planned_source q "sql_store"
  | plan_pre_aggregated q aggs :
      SmartQueryEngine.o_type q <> Some "real_time" ->
      SmartQueryEngine.o_aggregations q = Some aggs -> aggs <> [] ->
      (forall a, a ∈ aggs ->
         a ∈ ["total_cpu_usage"; "total_memory_usage"; "process_count"]) ->
      planned_source q "pre_aggregated_store"
  | plan_other q aggs :
      SmartQueryEngine.o_type q <> Some "real_time" ->
      SmartQueryEngine.o_aggregations q = Some aggs ->
      (exists a, a ∈ aggs /\
         a ∉ ["total_cpu_usage"; "total_memory_usage"; "process_count"]) ->
      planned_source q "sql_store".

(** The data lines of a Unix listing: every line of the stripped text but the
    first. *)
Definition unix_data_lines (content : string) : list string :=
  tail (PyStr.split_char "010" (PyStr.strip content)).

(** A Unix data line that violates the field shape: its number of
    whitespace-separated tokens is not 11, or one of PID, %CPU, %MEM, VSZ, RSS
    is not a number. *)
Definition unix_malformed_line `{Runtime} (line : string) : Prop :=
  let tokens := PyStr.split line in
  length tokens <> 11%nat
  \/ py_int (nth 1 tokens EmptyString) = None
  \/ py_float (nth 2 tokens EmptyString) = None
  \/ py_float (nth 3 tokens EmptyString) = None
  \/ py_int (nth 4 tokens EmptyString) = None
  \/ py_int (nth 5 tokens EmptyString) = None.

(** The separator line and the data lines of a Windows listing. *)
Definition windows_lines (content : string) : option string * list string :=
  let lines := PyStr.splitlines content in
  let i := WindowsParser.separator_index_from O lines in
  (nth_error lines i, skipn (S i) lines).

(** A Windows data line that cannot be sliced into the fields (no text at or
    after the last column, as on an empty line), or whose PID field is not a
    number. *)
Definition windows_malformed_line `{Runtime} (cp : list nat) (line : string) : Prop :=
  WindowsParser.line_fields line cp = Raise IndexError
  \/ exists fields, WindowsParser.line_fields line cp = Ok fields
                    /\ py_int (nth 1 fields EmptyString) = None.

Definition malformed `{Runtime} (p : ParserFactory.Parser) (content : string) : Prop :=
  match p with
  | ParserFactory.Unix =>
      exists line, line ∈ unix_data_lines content /\ unix_malformed_line line
  | ParserFactory.Windows =>
      exists separator line,
        (windows_lines content).1 = Some separator
        /\ line ∈ (windows_lines content).2
        /\ windows_malformed_line (WindowsParser.column_positions separator) line
  end.

(** The exception a shape violation surfaces as: the HTTP 400 the Unix parser
    raises for a format error, a bare [IndexError] or [ValueError] from the
    Windows parser. *)
Definition shape_exception (p : ParserFactory.Parser) (e : exn) : Prop :=
  match p with
  | ParserFactory.Unix => e = HTTPException 400 "psaux Content is invalid."
  | ParserFactory.Windows => e = IndexError \/ exists msg, e = ValueError msg
  end.

(** The PartitionKey of a record (specification, section 3): the calendar
    date of its timestamp and its os_type, joined by an underscore. *)
Definition partition_key_of (t : Calendar.datetime) (os_type : string) : string :=
  Calendar.date_str (Calendar.date_of t) +:+ "_" +:+ os_type.

(** That batch's subset of records for a partition key: the rows of the
    frame that carry the key, in the order of the frame. *)
Fixpoint subset (key : string) (df : list (string * ProcessData)) : list ProcessData :=
  match df with
  | [] => []
  | (k, p) :: rest => if decide (k = key) then p :: subset key rest else subset key rest
  end.

(** The sum of a column. *)
Definition total (l : list Q) : Q := fold_right Qplus 0%Q l.

(** The number of distinct values of a column. *)
Definition distinct (l : list string) : nat := size (list_to_set l : gset string).

(** [top] lists the first [n] rows of [rows] ranked by [col] in descending
    order, rows with equal values in the order they have in [rows], each as
    the pair of its command and its value. *)
Definition is_top (n : nat) (col : ProcessData -> Q) (rows : list ProcessData)
    (top : list (string * Q)) : Prop :=
  exists ranked,
    ranked ≡ₚ rows
    /\ StronglySorted (fun a b => (col b <= col a)%Q) ranked
    /\ (forall v, filter (fun p => (col p == v)%Q) ranked
                  = filter (fun p => (col p == v)%Q) rows)
    /\ top = map (fun p => (command p, col p)) (take n ranked).

(** [a] is the rollup of the records [rows]. *)
Definition rollup_of (rows : list ProcessData) (a : Aggregated) : Prop :=
  (total_cpu_usage a == total (map cpu_usage rows))%Q
  /\ (total_memory_usage a == total (map mem_usage rows))%Q
  /\ process_count a = Z.of_nat (distinct (map command rows))
  /\ is_top 10 cpu_usage rows (top_cpu_processes a)
  /\ is_top 10 mem_usage rows (top_memory_processes a).

(** A query read at a clock that stands 30 days into Python's range at
    least, whose time bounds, where given, are naive datetimes of that
    range. *)
Definition naive_window (now : Calendar.datetime) (a : SmartQueryEngine.Analyzed) : Prop :=
  Calendar.days 31 <= now
  /\ (forall t, SmartQueryEngine.a_start_time a = Some t ->
        Calendar.utcoffset t = None /\ Calendar.days 1 <= Calendar.wall t)
  /\ (forall t, SmartQueryEngine.a_end_time a = Some t ->
        Calendar.utcoffset t = None /\ Calendar.days 1 <= Calendar.wall t).

(** The instant of a datetime on the scale of UTC; for a naive one, its
    reading. *)
Definition instant (t : Calendar.stamp) : Z :=
  Calendar.wall t - default 0 (Calendar.utcoffset t).

(** A string that does not begin with whitespace. *)
Definition starts_with_text (s : string) : Prop :=
  match s with
  | EmptyString => True
  | String c _ => PyStr.isspace c = false
  end.

End Spec.

(** ** Worked inputs *)

Module Examples.

Definition ps_header : string :=
  "USER PID %CPU %MEM VSZ RSS TTY STAT START TIME COMMAND".

(** A [ps aux] listing of one process. *)
Definition ps_listing : string :=
  ps_header +:+ nl +:+ "root 1 0.0 0.1 1000 200 ? Ss 10:00 0:01 /sbin/init".

(** A listing whose only process has arguments and is owned by a user whose
    name starts with [USER]. *)
Definition ps_listing_args : string :=
  ps_header +:+ nl +:+ "USERX 7 0.5 0.1 1000 200 pts/0 S 10:00 0:01 python3 app.py --port 80".

(** The same process without its arguments. *)
Definition ps_listing_user : string :=
  ps_header +:+ nl +:+ "USERX 7 0.5 0.1 1000 200 pts/0 S 10:00 0:01 python3".

(** The same process under a process id beyond 32 bits. *)
Definition ps_listing_huge_pid : string :=
  ps_header +:+ nl +:+
  "USERX 99999999999999999999 0.5 0.1 1000 200 pts/0 S 10:00 0:01 python3".

(** A listing whose first line is not the [ps] header. *)
Definition ps_listing_bad_header : string :=
  "PID TTY TIME CMD" +:+ nl +:+ "USERX 7 0.5 0.1 1000 200 pts/0 S 10:00 0:01 python3".

(** A listing whose second data line has four tokens. *)
Definition ps_listing_short_line : string :=
  ps_listing_user +:+ nl +:+ "bob 8 0.5 0.1".

Definition tasklist_header : string :=
  "Image Name                     PID Session Name        Session#    Mem Usage" +:+ nl +:+
  "========================= ======== ================ =========== ============".

Definition tasklist_one : string :=
  tasklist_header +:+ nl +:+
  "chrome.exe                    1234 Console                    1    123,456 K".

Definition tasklist_two : string :=
  tasklist_one +:+ nl +:+
  "System Idle Process              0 Services                   0          8 K".

Definition tasklist_bad_pid : string :=
  tasklist_one +:+ nl +:+
  "broken.exe                     abc Console                    1        N/A".

Definition tasklist_empty_line : string :=
  tasklist_one +:+ nl +:+ nl +:+
  "System Idle Process              0 Services                   0          8 K".

Definition meta (machine : string) : gmap string string :=
  <["timestamp" := "2024-02-29T12:00:00"]>
    (<["machine_name" := machine]>
       (<["machine_id" := machine]> (<["os_type" := "windows"]> ∅))).

Definition ingest (machine content : string) : DataOrganizer.IngestData :=
  DataOrganizer.mkIngestData (Some "windows") (Some content) (meta machine).

(** 2024-02-29 12:00:00.100000 and 12:00:00.900000 *)
Definition noon_early : Calendar.datetime := Calendar.at_time 738945 12 0 0 100000.
Definition noon_late : Calendar.datetime := Calendar.at_time 738945 12 0 0 900000.

(** 2024-01-01 00:00:00 *)
Definition day : Calendar.datetime := Calendar.at_time 738886 0 0 0 0.

Definition rollup_linux : Aggregated :=
  mkAggregated 0.5 0.1 1 [("python3", 0.5%Q)] [("python3", 0.1%Q)].

Definition redis_linux : gmap string redis_value :=
  <["agg_2024-01-01_linux" := Rollup rollup_linux]> ∅.

(** [{"aggregations": ["process_count"], "os_type": os, "start_time": day,
     "end_time": day}] *)
Definition rollup_query (os : field string) : SmartQueryEngine.QueryParams :=
  SmartQueryEngine.mkQueryParams Absent (Value (Calendar.naive day))
    (Value (Calendar.naive day)) os Absent Absent Absent
    Absent Absent Absent (Value ["process_count"]) Absent.

(** A row of the table, as a Windows batch leaves it: [cpu_usage] is 0. *)
Definition idle_row : ProcessData :=
  mkProcessData (Some 1) "System Idle Process" 0 0 0 0%Q 8%Q "Services" "N/A" "N/A" None
    "N/A" (Some day) (Some "host") (Some "m1") (Some "windows").

(** [{"start_time": day, "end_time": day, "cpu_usage_gt": x}] *)
Definition cpu_query (x : Q) : SmartQueryEngine.QueryParams :=
  SmartQueryEngine.mkQueryParams Absent (Value (Calendar.naive day))
    (Value (Calendar.naive day)) Absent Absent Absent
    (Value x) Absent Absent Absent Absent Absent.

(** [{"limit": l, "offset": o}] *)
Definition paged_query (l o : field Z) : SmartQueryEngine.QueryParams :=
  SmartQueryEngine.mkQueryParams Absent Absent Absent Absent Absent Absent Absent Absent
    l o Absent Absent.

Definition proc (cmd : string) (cpu mem : Q) : ProcessData :=
  mkProcessData None cmd 1 0 0 cpu mem "?" "S" "10:00" None "root" None None None None.

(** A frame of three rows on one partition key and one row on another. *)
Definition frame : list (string * ProcessData) :=
  [("2024-01-01_linux", proc "nginx" 1.5 0.25);
   ("2024-01-02_linux", proc "cron" 0.25 0.25);
   ("2024-01-01_linux", proc "python3" 2.5 1);
   ("2024-01-01_linux", proc "nginx" 1.5 3)].

(** The rollup store is rewritten, then another key is looked up. *)
Definition stale_trace : list Trace.event :=
  [Trace.StoreBecomes redis_linux; Trace.Lookup "2024-01-02_linux"].

(** The [Optimized] query of the day [day], with no os_type filter. *)
Definition day_query : SmartQueryEngine.Optimized :=
  SmartQueryEngine.mkOptimized None (Calendar.naive day) (Calendar.naive day)
    None None None None None 100 0 (Some ["process_count"]) None
    (SmartQueryEngine.mkFilters None None None None None).

(** The [Optimized] query of one-letter tag [x] over [n] days from [day]. *)
Definition span_query (n : Z) : SmartQueryEngine.Optimized :=
  SmartQueryEngine.mkOptimized None (Calendar.naive day)
    (Calendar.naive (day + Calendar.days (n - 1))) None None None None None
    100 0 (Some ["process_count"]) None
    (SmartQueryEngine.mkFilters (Some "x") None None None None).

End Examples.

(** * Properties *)

Import SmartQueryEngine DataOrganizer Trace.

#[local] Set Warnings "-clear-no-such-hyp".

(** Reduce the binds and conversions of [result] without unfolding the
    functions under them. *)
Ltac run_result := cbn [mbind result_bind mret result_ret of_option].

(** Read the fields of the datetimes at hand. *)
Ltac stamp_fields :=
  repeat progress
    cbn [Calendar.wall Calendar.utcoffset Calendar.naive default from_option Datatypes.id
         mbind result_bind mret result_ret].

(** Replace the members of the field enumerations by their positions. *)
Ltac field_positions :=
  change (length UnixPsFields.members) with 11%nat in *;
  unfold UnixPsFields.USER, UnixPsFields.PID, UnixPsFields.CPU, UnixPsFields.MEM,
    UnixPsFields.VSZ, UnixPsFields.RSS, UnixPsFields.TTY, UnixPsFields.STAT,
    UnixPsFields.START, UnixPsFields.TIME, UnixPsFields.COMMAND,
    WindowsTasklistFields.IMAGE_NAME, WindowsTasklistFields.PID,
    WindowsTasklistFields.SESSION_NAME, WindowsTasklistFields.SESSION,
    WindowsTasklistFields.MEM_USAGE in *.

(** ** Calendar and string checks *)

Example date_str_epoch :
  Calendar.date_str 719163 = "1970-01-01".
Proof. reflexivity. Qed.

Example date_str_leap_day :
  Calendar.date_str 738945 = "2024-02-29".
Proof. reflexivity. Qed.

Example date_str_last :
  Calendar.date_str Calendar.max_ordinal = "9999-12-31".
Proof. reflexivity. Qed.

Example strftime_compact_leap_day :
  Calendar.strftime_compact (Calendar.at_time 738945 13 5 9 123456) = "20240229130509".
Proof. reflexivity. Qed.

Example re_split_ws_keeps_edge_pieces :
  PyStr.re_split_ws " a  b " = [""; "a"; "b"; ""].
Proof. reflexivity. Qed.

Example splitlines_crlf :
  PyStr.splitlines ("a" +:+ String "013" nl +:+ "b" +:+ nl +:+ nl) = ["a"; "b"; ""].
Proof. reflexivity. Qed.

(** ** Stable sorting *)

Section Sorting.
Context {A : Type} (leb : A -> A -> bool).

Lemma insert_sorted_perm (x : A) (s : list A) :
  insert_sorted leb x s ≡ₚ x :: s.
Proof.
  induction s as [|y s IH]; simpl; [done|].
  destruct (leb x y); [done|].
  rewrite IH. apply Permutation_swap.
Qed.

Lemma py_sorted_perm (l : list A) :
  py_sorted leb l ≡ₚ l.
Proof.
  induction l as [|x l IH]; simpl; [done|].
  by rewrite insert_sorted_perm, IH.
Qed.

Hypothesis leb_total : forall a b, leb a b = true \/ leb b a = true.
Hypothesis leb_trans : forall a b c, leb a b = true -> leb b c = true -> leb a c = true.

Lemma insert_sorted_sorted (x : A) (s : list A) :
  StronglySorted (fun a b => leb a b = true) s ->
  StronglySorted (fun a b => leb a b = true) (insert_sorted leb x s).
Proof.
  induction 1 as [|y s Hs IH Hy]; simpl.
  - repeat constructor.
  - destruct (leb x y) eqn:E.
    + constructor; [by constructor|].
      constructor; [done|].
      eapply Forall_impl; [exact Hy|]. intros z Hz. by eapply leb_trans.
    + constructor; [done|].
      rewrite insert_sorted_perm. constructor; [|done].
      destruct (leb_total x y); congruence.
Qed.

Lemma py_sorted_sorted (l : list A) :
  StronglySorted (fun a b => leb a b = true) (py_sorted leb l).
Proof.
  induction l; simpl; [constructor|]. by apply insert_sorted_sorted.
Qed.

End Sorting.

Section Stability.
Context {A : Type} (leb : A -> A -> bool) (P : A -> Prop) `{!forall a, Decision (P a)}.

(** The elements of the class [P] are tied in the order. *)
Hypothesis tied : forall a b, P a -> P b -> leb a b = true.

Lemma filter_insert_sorted (x : A) (s : list A) :
  filter P (insert_sorted leb x s) = filter P (x :: s).
Proof.
  induction s as [|y s IH]; simpl; [done|].
  destruct (leb x y) eqn:E; [done|].
  rewrite filter_cons, IH, !filter_cons.
  destruct (decide (P y)) as [Hy|]; [|done].
  destruct (decide (P x)) as [Hx|]; [|done].
  rewrite tied in E by done. done.
Qed.

(** Sorting keeps the elements of a class of tied elements in their order. *)
Lemma filter_py_sorted (l : list A) :
  filter P (py_sorted leb l) = filter P l.
Proof.
  induction l as [|x l IH]; simpl; [done|].
  by rewrite filter_insert_sorted, !filter_cons, IH.
Qed.

End Stability.

Lemma StronglySorted_impl {A} (R1 R2 : A -> A -> Prop) (l : list A) :
  (forall a b, R1 a b -> R2 a b) -> StronglySorted R1 l -> StronglySorted R2 l.
Proof.
  intros HR. induction 1 as [|x l Hl IH Hx]; constructor; [done|].
  eapply Forall_impl; [exact Hx|]. auto.
Qed.

(** ** [dict.fromkeys] *)

Lemma fromkeys_from_filter (seen l : list string) :
  fromkeys_from seen l = filter (fun y => y ∉ seen) (fromkeys l).
Proof.
  unfold fromkeys. revert seen.
  induction l as [|x l IH]; intros seen; cbn [fromkeys_from]; [done|].
  rewrite (bool_decide_eq_false_2 (x ∈ [])); [|apply not_elem_of_nil].
  rewrite filter_cons.
  rewrite (IH [x]), (IH seen), (IH (x :: seen)), list_filter_filter.
  case_bool_decide; destruct (decide (x ∉ seen)); try done.
  - apply list_filter_iff. set_solver.
  - f_equal. apply list_filter_iff. set_solver.
Qed.

(** The first occurrence is kept, the later ones go. *)
Lemma fromkeys_cons (x : string) (l : list string) :
  fromkeys (x :: l) = x :: filter (fun y => y <> x) (fromkeys l).
Proof.
  unfold fromkeys at 1. cbn [fromkeys_from].
  rewrite (bool_decide_eq_false_2 (x ∈ [])); [|apply not_elem_of_nil].
  rewrite fromkeys_from_filter. f_equal. apply list_filter_iff. set_solver.
Qed.

Lemma elem_of_fromkeys (x : string) (l : list string) :
  x ∈ fromkeys l <-> x ∈ l.
Proof.
  induction l as [|y l IH]; [done|].
  rewrite fromkeys_cons, !elem_of_cons, list_elem_of_filter, IH.
  destruct (decide (x = y)); naive_solver.
Qed.

Lemma NoDup_fromkeys (l : list string) :
  NoDup (fromkeys l).
Proof.
  induction l as [|y l IH]; [constructor|].
  rewrite fromkeys_cons. constructor.
  - rewrite list_elem_of_filter. naive_solver.
  - by apply NoDup_filter.
Qed.

(** ** Optimize stage: what it returns *)

(** What the optimize stage returns, when it returns: the time range is
    settled, the offset is not null, and each key is as follows. *)
Lemma optimize_query_inv (now : Calendar.datetime) (a : Analyzed) (q : Optimized) :
  _optimize_query now a = Ok q ->
  exists o,
    a_offset a = Some o
    /\ time_range now a = Ok (o_start_time q, o_end_time q)
    /\ o_limit q = Z.min (match a_limit a with
                          | None => 100
                          | Some l => if l =? 0 then 100 else l
                          end) 1000
    /\ o_offset q = Z.max o 0
    /\ o_aggregations q = match a_aggregations a with
                          | Some (x :: l) => Some (_optimize_aggregations (x :: l))
                          | other => other
                          end
    /\ o_type q = a_type a
    /\ o_group_by q = a_group_by a.
Proof.
  unfold _optimize_query.
  destruct (time_range now a) as [[start2 end1]|e]; run_result; [|done].
  destruct (a_offset a) as [o|]; run_result; [|done].
  intros [= <-]. by exists o.
Qed.

Lemma optimize_query_returns (now : Calendar.datetime) (a : Analyzed)
    (start2 end1 : Calendar.stamp) (o : Z) :
  time_range now a = Ok (start2, end1) -> a_offset a = Some o ->
  exists q, _optimize_query now a = Ok q.
Proof.
  intros Hr Ho. unfold _optimize_query. rewrite Hr, Ho. run_result. by eexists.
Qed.

Lemma days_pos (n : Z) : 0 < n -> 0 < Calendar.days n.
Proof. unfold Calendar.days, Calendar.us_per_day, Calendar.us_per_second. lia. Qed.

Lemma minus_in_range (t : Calendar.stamp) (delta : Z) :
  Calendar.days 1 <= Calendar.wall t - delta ->
  Calendar.minus t delta = Ok (Calendar.mkStamp (Calendar.wall t - delta) (Calendar.utcoffset t)).
Proof.
  intros Hr. unfold Calendar.minus.
  destruct (Z.ltb_spec (Calendar.date_of (Calendar.wall t - delta)) 1) as [Hlt|]; [|done].
  exfalso. unfold Calendar.date_of in Hlt.
  assert (1 <= (Calendar.wall t - delta) / Calendar.us_per_day); [|lia].
  apply Z.div_le_lower_bound; [by vm_compute|].
  unfold Calendar.days in Hr. lia.
Qed.

(** The time range of a query with naive bounds: it ends at the later of
    the two readings, a missing start counting as 30 days before now and a
    missing end as now, and starts at the earlier one, or 365 days before
    the end if that is later. *)
Lemma time_range_naive (now : Calendar.datetime) (a : Analyzed) :
  Spec.naive_window now a ->
  let start0 := default (now - Calendar.days 30) (Calendar.wall <$> a_start_time a) in
  let end0 := default now (Calendar.wall <$> a_end_time a) in
  time_range now a
  = Ok (Calendar.naive (Z.max (Z.min start0 end0) (Z.max start0 end0 - Calendar.days 365)),
        Calendar.naive (Z.max start0 end0)).
Proof.
  intros (Hnow & Hs & He) start0 end0. unfold time_range.
  assert (Hd30 : Calendar.days 31 = Calendar.days 1 + Calendar.days 30) by (by vm_compute).
  assert (Hd1 : 0 < Calendar.days 1) by (by apply days_pos).
  assert (Hd30' : 0 < Calendar.days 30) by (by apply days_pos).
  assert (Hd365 : 0 < Calendar.days 365) by (by apply days_pos).
  assert (Hstart : match a_start_time a with
                   | Some t => Ok t
                   | None => Calendar.minus (Calendar.naive now) (Calendar.days 30)
                   end = Ok (Calendar.naive start0) /\ Calendar.days 1 <= start0).
  { subst start0. destruct (a_start_time a) as [[w off]|].
    - destruct (Hs _ eq_refl) as [Hoff Hw]. simpl in *. by subst off.
    - rewrite minus_in_range by (cbn [Calendar.naive Calendar.wall]; lia).
      cbn [default fmap option_fmap option_map]. split; [done|lia]. }
  destruct Hstart as [-> Hstart]. run_result.
  assert (Hend : default (Calendar.naive now) (a_end_time a) = Calendar.naive end0
                 /\ Calendar.days 1 <= end0).
  { subst end0. destruct (a_end_time a) as [[w off]|].
    - destruct (He _ eq_refl) as [Hoff Hw]. simpl in *. by subst off.
    - cbn [default fmap option_fmap option_map]. split; [done|lia]. }
  destruct Hend as [-> Hend].
  unfold Calendar.gt, Calendar.diff. cbn [Calendar.naive Calendar.utcoffset Calendar.wall].
  run_result.
  destruct (Z.ltb_spec end0 start0); cbn [Calendar.naive Calendar.utcoffset Calendar.wall];
    run_result.
  - destruct (Z.ltb_spec (Calendar.days 365) (start0 - end0)).
    + rewrite minus_in_range by (cbn [Calendar.naive Calendar.wall]; lia). run_result. unfold Calendar.naive. simpl.
      do 3 f_equal; lia.
    + run_result. unfold Calendar.naive. do 3 f_equal; lia.
  - destruct (Z.ltb_spec (Calendar.days 365) (end0 - start0)).
    + rewrite minus_in_range by (cbn [Calendar.naive Calendar.wall]; lia). run_result. unfold Calendar.naive. simpl.
      do 3 f_equal; lia.
    + run_result. unfold Calendar.naive. do 3 f_equal; lia.
Qed.

Lemma minus_inv (t s : Calendar.stamp) (delta : Z) :
  Calendar.minus t delta = Ok s ->
  s = Calendar.mkStamp (Calendar.wall t - delta) (Calendar.utcoffset t).
Proof. unfold Calendar.minus. destruct (_ <? 1); [done|]. by intros [= <-]. Qed.

(** A time range that is settled: its bounds are of one kind, both naive or
    both aware; as instants they are in order and at most 365 days apart;
    the end is the later of the two bounds given, a missing start counting
    as 30 days before now and a missing end as now, and the start is the
    earlier one, or 365 days before the end if that is later. *)
Lemma time_range_inv (now : Calendar.datetime) (a : Analyzed) (start2 end1 : Calendar.stamp) :
  time_range now a = Ok (start2, end1) ->
  (Calendar.utcoffset start2 = None <-> Calendar.utcoffset end1 = None)
  /\ Spec.instant start2 <= Spec.instant end1
  /\ Spec.instant end1 - Spec.instant start2 <= Calendar.days 365
  /\ exists start0 end0,
       start0 = default (Calendar.mkStamp (now - Calendar.days 30) None) (a_start_time a)
       /\ end0 = default (Calendar.naive now) (a_end_time a)
       /\ (end1 = start0 \/ end1 = end0)
       /\ Spec.instant end1 = Z.max (Spec.instant start0) (Spec.instant end0)
       /\ Spec.instant start2
          = Z.max (Z.min (Spec.instant start0) (Spec.instant end0))
              (Spec.instant end1 - Calendar.days 365).
Proof.
  unfold time_range. intros Hr.
  assert (Hd365 : 0 < Calendar.days 365) by (by apply days_pos).
  set (end0 := default (Calendar.naive now) (a_end_time a)) in *.
  set (start0' := default (Calendar.mkStamp (now - Calendar.days 30) None) (a_start_time a)).
  destruct (match a_start_time a with
            | Some t => Ok t
            | None => Calendar.minus (Calendar.naive now) (Calendar.days 30)
            end) as [start0|e] eqn:Hstart; run_result; [|done].
  assert (Hs0 : start0 = start0').
  { subst start0'. destruct (a_start_time a); [by injection Hstart|].
    by apply minus_inv in Hstart. }
  clearbody end0 start0'. subst start0'. clear Hstart.
  revert Hr. unfold Calendar.gt, Calendar.diff, Spec.instant.
  destruct start0 as [ws [os|]], end0 as [we [oe|]]; stamp_fields; try done.
  - destruct (Z.ltb_spec (we - oe) (ws - os)); stamp_fields;
      match goal with |- context [Calendar.days 365 <? ?r] =>
        destruct (Z.ltb_spec (Calendar.days 365) r)
      end;
      try (destruct (Calendar.minus _ _) as [s|] eqn:Hm; run_result; [|done];
           apply minus_inv in Hm; subst s);
      stamp_fields; intros [= <- <-]; stamp_fields;
      (split_and!; [by split|lia|lia|]);
      eexists _, _; (split_and!; [reflexivity|reflexivity| | |]);
      stamp_fields; try lia; auto.
  - destruct (Z.ltb_spec we ws); stamp_fields;
      match goal with |- context [Calendar.days 365 <? ?r] =>
        destruct (Z.ltb_spec (Calendar.days 365) r)
      end;
      try (destruct (Calendar.minus _ _) as [s|] eqn:Hm; run_result; [|done];
           apply minus_inv in Hm; subst s);
      stamp_fields; intros [= <- <-]; stamp_fields;
      (split_and!; [by split|lia|lia|]);
      eexists _, _; (split_and!; [reflexivity|reflexivity| | |]);
      stamp_fields; try lia; auto.
Qed.

(** A naive bound against an aware one, a missing bound counting as naive:
    the comparison raises. *)
Lemma time_range_mixed (now : Calendar.datetime) (a : Analyzed) :
  Calendar.days 31 <= now ->
  (Calendar.utcoffset (default (Calendar.naive (now - Calendar.days 30)) (a_start_time a))
   = None
   <-> Calendar.utcoffset (default (Calendar.naive now) (a_end_time a)) <> None) ->
  time_range now a = Raise TypeError.
Proof.
  intros Hnow Hmix. unfold time_range.
  assert (Hd30 : Calendar.days 31 = Calendar.days 1 + Calendar.days 30) by (by vm_compute).
  destruct (a_start_time a) as [[ws os]|], (a_end_time a) as [[we oe]|];
    cbn [default from_option Datatypes.id Calendar.naive Calendar.utcoffset] in Hmix;
    try rewrite minus_in_range by (cbn [Calendar.naive Calendar.wall]; lia); run_result;
    unfold Calendar.gt; cbn [Calendar.naive Calendar.wall Calendar.utcoffset default].
  - destruct os, oe; try done; exfalso; naive_solver.
  - destruct os; [done|]. exfalso. naive_solver.
  - destruct oe; [done|]. exfalso. naive_solver.
  - exfalso. naive_solver.
Qed.

(** ** Optimize stage: aggregations *)

Lemma split_char_nonempty (sep : ascii) (s : string) :
  PyStr.split_char sep s <> [].
Proof.
  destruct s as [|c s]; simpl; [done|].
  destruct (Ascii.eqb c sep); [done|]. by destruct (PyStr.split_char sep s).
Qed.

(** [prefix_of x] is the part of [x] before its first underscore: [x]
    continues with nothing or with an underscore, and the prefix has none. *)
Lemma prefix_of_spec (x : string) :
  exists rest, x = prefix_of x +:+ rest
    /\ (forall a b, prefix_of x <> a +:+ String "_" b)
    /\ (rest = EmptyString \/ exists r, rest = String "_" r).
Proof.
  unfold prefix_of.
  induction x as [|c s IH]; simpl.
  - exists EmptyString. split_and!; [done| |by left]. by intros [|??] ?.
  - destruct (Ascii.eqb_spec c "_") as [->|Hc]; simpl.
    + exists (String "_" s). split_and!; [done| |by right; eexists]. by intros [|??] ?.
    + destruct IH as (rest & Hs & Hno & Hrest).
      pose proof (split_char_nonempty "_" s) as Hne.
      destruct (PyStr.split_char "_" s) as [|t ts]; [done|]. simpl in *.
      exists rest. split_and!; [by rewrite Hs at 1| |done].
      intros [|a0 a] b; simpl; intros [= ? ?]; [congruence|]. by eapply Hno.
Qed.

Lemma priority_known (x : string) (i : nat) :
  priority_order !! i = Some (prefix_of x) -> priority x = i.
Proof.
  unfold priority. generalize (prefix_of x). intros p Hp.
  do 5 (destruct i as [|i]; [injection Hp as <-; reflexivity|]). done.
Qed.

Lemma priority_unknown (x : string) :
  prefix_of x ∉ priority_order -> priority x = length priority_order.
Proof. unfold priority. intros Hp. by rewrite bool_decide_eq_false_2. Qed.

(** C9. [_optimize_aggregations] first removes the duplicates, keeping each
    name's first occurrence ([unique] has no duplicates, the same names, and
    obeys the keep-first law), then sorts stably by priority: the result is a
    permutation of [unique], ascending in priority, and the names of equal
    priority keep the order they have in [unique]. The priority of a name is
    the rank of its prefix before the first underscore in count, sum, avg,
    min, max, and 5, above all of them, for any other prefix. The
    specification's example evaluates as stated. The optimize stage applies
    it: whenever [_optimize_query] returns for a query with these
    aggregations, the aggregations of the result are that list; and it does
    return, with that list, for every such query whose offset is not null
    and whose time bounds are naive. *)
Theorem optimize_aggregations_dedup_then_priority_sort (aggregations : list string) :
  let unique := fromkeys aggregations in
  let out := _optimize_aggregations aggregations in
  (NoDup unique
   /\ (forall x, x ∈ unique <-> x ∈ aggregations)
   /\ (forall x l, fromkeys (x :: l) = x :: filter (fun y => y <> x) (fromkeys l)))
  /\ out ≡ₚ unique
  /\ StronglySorted (fun a b => (priority a <= priority b)%nat) out
  /\ (forall p, filter (fun x => priority x = p) out = filter (fun x => priority x = p) unique)
  /\ (forall x, exists rest,
        x = prefix_of x +:+ rest
        /\ (forall a b, prefix_of x <> a +:+ String "_" b)
        /\ (rest = EmptyString \/ exists r, rest = String "_" r))
  /\ (forall x i,
        ["count"; "sum"; "avg"; "min"; "max"] !! i = Some (prefix_of x) -> priority x = i)
  /\ (forall x,
        prefix_of x ∉ ["count"; "sum"; "avg"; "min"; "max"] -> priority x = 5%nat)
  /\ _optimize_aggregations ["avg_cpu"; "count_pid"; "sum_mem"]
     = ["count_pid"; "sum_mem"; "avg_cpu"]
  /\ (forall now qp q,
        qp_aggregations qp = Value aggregations ->
        _optimize_query now (_analyze_query qp) = Ok q ->
        o_aggregations q = Some out)
  /\ (forall now qp,
        qp_aggregations qp = Value aggregations ->
        Spec.naive_window now (_analyze_query qp) ->
        qp_offset qp <> Null ->
        exists q,
          _optimize_query now (_analyze_query qp) = Ok q /\ o_aggregations q = Some out).
Proof.
  intros unique out.
  assert (Happlied : forall now qp q,
            qp_aggregations qp = Value aggregations ->
            _optimize_query now (_analyze_query qp) = Ok q ->
            o_aggregations q = Some out).
  { intros now qp q Hqp (o & _ & _ & _ & _ & Ha & _)%optimize_query_inv.
    rewrite Ha. cbn [_analyze_query a_aggregations]. rewrite Hqp.
    by destruct aggregations. }
  split_and!.
  - apply NoDup_fromkeys.
  - intros x. apply elem_of_fromkeys.
  - apply fromkeys_cons.
  - apply py_sorted_perm.
  - eapply StronglySorted_impl; [|apply py_sorted_sorted].
    + intros a b Hab. by apply Nat.leb_le.
    + intros a b. rewrite !Nat.leb_le. lia.
    + intros a b c. rewrite !Nat.leb_le. lia.
  - intros p. apply filter_py_sorted.
    intros a b -> ->. by apply Nat.leb_le.
  - apply prefix_of_spec.
  - apply priority_known.
  - apply priority_unknown.
  - reflexivity.
  - exact Happlied.
  - intros now qp Hqp Hwin Hoff.
    destruct (a_offset (_analyze_query qp)) as [o|] eqn:Ho;
      [|cbn [_analyze_query a_offset] in Ho; by destruct (qp_offset qp)].
    destruct (optimize_query_returns now (_analyze_query qp) _ _ o
                (time_range_naive now _ Hwin) Ho) as [q Hq].
    exists q. split; [done|]. by eapply Happlied.
Qed.

(** The specification's example, through the optimize stage. *)
Lemma optimize_aggregations_dedup_then_priority_sort_witness :
  exists q,
    _optimize_query Examples.noon_late
      (_analyze_query
         (mkQueryParams Absent Absent Absent Absent Absent Absent Absent Absent Absent Absent
            (Value ["avg_cpu"; "count_pid"; "sum_mem"]) Absent)) = Ok q
    /\ o_aggregations q = Some ["count_pid"; "sum_mem"; "avg_cpu"].
Proof.
  destruct (optimize_aggregations_dedup_then_priority_sort ["avg_cpu"; "count_pid"; "sum_mem"])
    as (_ & _ & _ & _ & _ & _ & _ & _ & _ & Hreturns).
  apply (Hreturns Examples.noon_late).
  - reflexivity.
  - split_and!.
    + vm_compute. discriminate.
    + intros t Ht. discriminate Ht.
    + intros t Ht. discriminate Ht.
  - discriminate.
Defined.

Example optimize_aggregations_unknown_prefixes_last :
  _optimize_aggregations
    ["avg_cpu"; "zzz"; "count_pid"; "avg_cpu"; "max"; "foo_bar"; "count_x"; "sum_mem"]
  = ["count_pid"; "count_x"; "sum_mem"; "avg_cpu"; "max"; "zzz"; "foo_bar"].
Proof. reflexivity. Qed.

(** ** Optimize stage: limit and offset *)

(** C6, as stated, fails: a negative limit goes through the optimize stage
    unchanged, outside the interval from 1 to 1000. *)
Lemma negative_limit_not_clamped :
  exists q,
    _optimize_query Examples.noon_late
      (_analyze_query (Examples.paged_query (Value (-5)) Absent)) = Ok q
    /\ o_limit q = -5
    /\ ~ (1 <= o_limit q <= 1000).
Proof. eexists. split; [vm_compute; reflexivity|]. simpl. split; [reflexivity|lia]. Qed.

(** C6, amended. Whenever the optimize stage returns, the limit is 100 when
    it was unset, null or 0, and the smaller of the supplied limit and 1000
    otherwise; so it never exceeds 1000, lies between 1 and 1000 whenever the
    supplied limit is not negative, and a negative limit is left as it is;
    the offset is the larger of the supplied offset (0 when unset) and 0.
    The stage does return for every query whose offset is unset or a number
    and whose time bounds are unset or naive. *)
Theorem optimize_limit_and_offset (now : Calendar.datetime) (qp : QueryParams) :
  (forall q,
     _optimize_query now (_analyze_query qp) = Ok q ->
     o_limit q = match qp_limit qp with
                 | Absent | Null => 100
                 | Value l => if l =? 0 then 100 else Z.min l 1000
                 end
     /\ o_limit q <= 1000
     /\ (match qp_limit qp with Value l => 0 <= l | _ => True end ->
         1 <= o_limit q <= 1000)
     /\ (forall l, qp_limit qp = Value l -> l < 0 -> o_limit q = l)
     /\ o_offset q = Z.max (match qp_offset qp with Value o => o | _ => 0 end) 0
     /\ 0 <= o_offset q)
  /\ (Spec.naive_window now (_analyze_query qp) ->
      qp_offset qp <> Null ->
      exists q, _optimize_query now (_analyze_query qp) = Ok q).
Proof.
  split.
  - intros q (o & Ho & _ & Hl & Hoff & _)%optimize_query_inv.
    cbn [_analyze_query a_offset a_limit] in Ho, Hl.
    rewrite Hl, Hoff.
    assert (Hsupplied : o = match qp_offset qp with Value o => o | _ => 0 end).
    { destruct (qp_offset qp); simpl in Ho; congruence. }
    rewrite <- Hsupplied. clear Ho Hsupplied.
    destruct (qp_limit qp) as [| |l]; simpl;
      try destruct (Z.eqb_spec l 0); split_and!; try lia; try done.
    all: intros l' [= ->]; lia.
  - intros Hwin Hoff.
    destruct (a_offset (_analyze_query qp)) as [o|] eqn:Ho;
      [|cbn [_analyze_query a_offset] in Ho; by destruct (qp_offset qp)].
    exact (optimize_query_returns now (_analyze_query qp) _ _ o
             (time_range_naive now _ Hwin) Ho).
Qed.

Lemma optimize_limit_and_offset_witness :
  exists q,
    _optimize_query Examples.noon_late
      (_analyze_query (Examples.paged_query (Value 5000) (Value (-5)))) = Ok q
    /\ o_limit q = 1000 /\ o_offset q = 0.
Proof.
  destruct (optimize_limit_and_offset Examples.noon_late
              (Examples.paged_query (Value 5000) (Value (-5)))) as [Hprops Hreturns].
  destruct Hreturns as [q Hq].
  - split_and!.
    + vm_compute. discriminate.
    + intros t Ht. discriminate Ht.
    + intros t Ht. discriminate Ht.
  - discriminate.
  - exists q. split; [exact Hq|].
    destruct (Hprops q Hq) as (Hl & _ & _ & _ & Ho & _). split; [exact Hl|exact Ho].
Defined.

(** ** Source selection *)

Lemma forallb_false_elem {A} (f : A -> bool) (l : list A) :
  forallb f l = false -> exists x, x ∈ l /\ f x = false.
Proof.
  induction l as [|y l IH]; simpl; [done|].
  destruct (f y) eqn:E; simpl.
  - intros (x & Hx & Hfx)%IH. exists x. split; [by right|done].
  - intros _. exists y. split; [by left|done].
Qed.

Lemma select_data_source_planned (q : Optimized) :
  Spec.planned_source q (_select_data_source q).
Proof.
  unfold _select_data_source.
  case_bool_decide as Ht; [by constructor|].
  destruct (o_aggregations q) as [[|a aggs]|] eqn:Ha.
  - apply Spec.plan_no_aggregations; [done|by rewrite Ha].
  - destruct (forallb _ _) eqn:Hall.
    + eapply Spec.plan_pre_aggregated; [done..|].
      intros x Hx. rewrite forallb_forall in Hall.
      apply list_elem_of_In, Hall in Hx. by apply bool_decide_eq_true in Hx.
    + eapply Spec.plan_other; [done..|].
      apply forallb_false_elem in Hall as (x & Hx & Hfx).
      exists x. split; [done|]. by apply bool_decide_eq_false in Hfx.
  - apply Spec.plan_no_aggregations; [done|by rewrite Ha].
Qed.

Lemma planned_source_unique (q : Optimized) (s : string) :
  Spec.planned_source q s -> s = _select_data_source q.
Proof.
  intros Hs. unfold _select_data_source.
  destruct Hs as [q Ht|q Ht Ha|q aggs Ht Ha Hne Hall|q aggs Ht Ha (a & Hin & Hnot)].
  - by rewrite bool_decide_eq_true_2.
  - rewrite bool_decide_eq_false_2 by done.
    by destruct (o_aggregations q) as [[|??]|].
  - rewrite bool_decide_eq_false_2, Ha by done.
    destruct aggs as [|a aggs]; [done|].
    replace (forallb _ _) with true; [done|].
    symmetry. apply forallb_forall. intros x Hx%list_elem_of_In.
    apply bool_decide_eq_true. by apply Hall.
  - rewrite bool_decide_eq_false_2, Ha by done.
    destruct aggs as [|a0 aggs]; [by apply elem_of_nil in Hin|].
    replace (forallb _ _) with false; [done|].
    symmetry. apply not_true_iff_false. rewrite forallb_forall.
    intros Hall. apply list_elem_of_In, Hall in Hin.
    by apply bool_decide_eq_true in Hin.
Qed.

(** C5. The source [_select_data_source] returns is the one the
    specification plans, and no other source fits the plan: the raw data store
    for type [real_time]; otherwise the SQL store when there is no
    aggregation, the pre-aggregated store when every aggregation is one of
    total_cpu_usage, total_memory_usage, process_count, and the SQL store in
    every other case. Executing on the raw data store raises
    [NotImplementedError], so a [real_time] query fails with it. The three
    selections the specification lists come out as stated. *)
Theorem select_data_source_follows_plan `{Runtime} (q : Optimized) :
  Spec.planned_source q (_select_data_source q)
  /\ (forall s, Spec.planned_source q s -> s = _select_data_source q)
  /\ (forall redis db cache,
        exists msg,
          (_execute_optimized_query redis db q "raw_data_store" cache).1
          = Raise (NotImplementedError msg))
  /\ (forall redis db cache,
        o_type q = Some "real_time" ->
        exists msg,
          (_execute_optimized_query redis db q (_select_data_source q) cache).1
          = Raise (NotImplementedError msg))
  /\ (o_type q <> Some "real_time" ->
      (o_aggregations q = Some ["total_cpu_usage"; "process_count"] ->
       _select_data_source q = "pre_aggregated_store")
      /\ (o_aggregations q = Some ["p95_cpu_usage"] ->
          _select_data_source q = "sql_store")
      /\ (o_aggregations q = Some [] \/ o_aggregations q = None ->
          _select_data_source q = "sql_store")).
Proof.
  split_and!.
  - apply select_data_source_planned.
  - apply planned_source_unique.
  - intros redis db cache. by eexists.
  - intros redis db cache Ht. eexists.
    unfold _select_data_source. rewrite bool_decide_eq_true_2 by done.
    reflexivity.
  - intros Ht. unfold _select_data_source. rewrite bool_decide_eq_false_2 by done.
    split_and!; [by intros ->..|]. by intros [->| ->].
Qed.

Lemma select_data_source_follows_plan_witness :
  exists q,
    _optimize_query 0 (_analyze_query (Examples.rollup_query Absent)) = Ok q
    /\ Spec.planned_source q "pre_aggregated_store"
    /\ _select_data_source q = "pre_aggregated_store".
Proof.
  eexists. split; [reflexivity|].
  match goal with
  | |- Spec.planned_source ?q _ /\ _ =>
      destruct (select_data_source_follows_plan (H := Reference.runtime) q) as [Hplan _]
  end.
  split; [exact Hplan|reflexivity].
Defined.

(** ** The pre-aggregated path and the SQL path at concrete queries *)

(** C7 (the code departs from the claim). The rollup of 2024-01-01 for linux
    is stored under [agg_2024-01-01_linux]. A query of that day with the
    filter os_type = "linux" is routed to the pre-aggregated store, looks up
    the five keys [2024-01-01_l], [_i], [_n], [_u], [_x], one per character of
    the tag, and returns no row. The same query without the filter returns
    the rollup. *)
Theorem os_type_filter_scans_characters `{Runtime}
    (now : Calendar.datetime) (db : list ProcessData) :
  Examples.redis_linux !! "agg_2024-01-01_linux" = Some (Rollup Examples.rollup_linux)
  /\ (exists q,
        _optimize_query now (_analyze_query (Examples.rollup_query (Value "linux"))) = Ok q
        /\ _select_data_source q = "pre_aggregated_store"
        /\ f_os_type (o_filters q) = Some "linux")
  /\ execute_query now Examples.redis_linux db (Examples.rollup_query (Value "linux")) []
     = (Ok (0%nat, []),
        [("2024-01-01_x", None); ("2024-01-01_u", None); ("2024-01-01_n", None);
         ("2024-01-01_i", None); ("2024-01-01_l", None)])
  /\ (execute_query now Examples.redis_linux db (Examples.rollup_query Absent) []).1
     = Ok (1%nat, [Stored (Rollup Examples.rollup_linux)]).
Proof.
  split_and!; [vm_compute; reflexivity| |vm_compute; reflexivity..].
  eexists. split; [reflexivity|]. split; reflexivity.
Qed.

(** C8 (the code departs from the claim). For cpu_usage_gt = -5 the optimize
    stage builds the floored threshold 0 into [filters], yet the SQL path
    compares with the supplied -5: a row whose cpu_usage is 0, which is not
    above 0, is returned. With the threshold 0 supplied, it is not. *)
Theorem sql_path_applies_unfloored_threshold `{Runtime}
    (now : Calendar.datetime) (redis : gmap string redis_value) :
  (exists q,
     _optimize_query now (_analyze_query (Examples.cpu_query (-5))) = Ok q
     /\ _select_data_source q = "sql_store"
     /\ f_cpu_usage_gt (o_filters q) = Some 0%Q
     /\ o_cpu_usage_gt q = Some (-5)%Q)
  /\ ~ (0 < cpu_usage Examples.idle_row)%Q
  /\ (execute_query now redis [Examples.idle_row] (Examples.cpu_query (-5)) []).1
     = Ok (1%nat, [FullRecord (to_dict Examples.idle_row)])
  /\ (execute_query now redis [Examples.idle_row] (Examples.cpu_query 0) []).1
     = Ok (0%nat, []).
Proof.
  split_and!.
  - eexists. split; [reflexivity|]. split_and!; reflexivity.
  - vm_compute. congruence.
  - reflexivity.
  - reflexivity.
Qed.

(** ** Fields and tokens of a line *)

Section Tokens.
Import PyStr.

Lemma filter_nonempty_cons (t : string) (l : list string) :
  filter (fun t => t <> EmptyString) (t :: l)
  = (if decide (t = EmptyString) then [] else [t]) ++ filter (fun t => t <> EmptyString) l.
Proof. rewrite filter_cons. by repeat case_decide. Qed.

Lemma re_split_ws_from_nonempty (b : bool) (s : string) :
  re_split_ws_from b s <> [].
Proof.
  revert b. induction s as [|c s IH]; intros b; simpl; [done|].
  destruct (isspace c); [destruct b; [apply IH|done]|].
  by destruct (re_split_ws_from false s).
Qed.

Lemma re_split_ws_from_in_run (s : string) :
  filter (fun t => t <> EmptyString) (re_split_ws_from true s)
  = filter (fun t => t <> EmptyString) (re_split_ws_from false s).
Proof. destruct s as [|c s]; simpl; [done|]. by destruct (isspace c). Qed.

Lemma split_lstrip (s : string) :
  split (lstrip s) = split s.
Proof.
  unfold split, re_split_ws. induction s as [|c s IH]; [done|].
  cbn [lstrip re_split_ws_from]. destruct (isspace c) eqn:Hc; [|by cbn; rewrite Hc].
  by rewrite IH, filter_nonempty_cons, decide_True, re_split_ws_from_in_run.
Qed.

Lemma rstrip_cons (c : ascii) (s : string) :
  rstrip (String c s)
  = if isspace c && is_empty (rstrip s) then EmptyString else String c (rstrip s).
Proof. reflexivity. Qed.

Lemma re_split_ws_from_blank (s : string) :
  rstrip s = EmptyString -> re_split_ws_from true s = [EmptyString].
Proof.
  induction s as [|c s IH]; [done|]. rewrite rstrip_cons. cbn [re_split_ws_from].
  destruct (isspace c); [|done]. destruct (rstrip s); [|done]. intros _. by apply IH.
Qed.

Lemma re_split_ws_from_rstrip (b : bool) (s : string) :
  hd EmptyString (re_split_ws_from b (rstrip s)) = hd EmptyString (re_split_ws_from b s)
  /\ filter (fun t => t <> EmptyString) (tail (re_split_ws_from b (rstrip s)))
     = filter (fun t => t <> EmptyString) (tail (re_split_ws_from b s)).
Proof.
  revert b. induction s as [|c s IH]; intros b; [done|].
  rewrite rstrip_cons. destruct (isspace c) eqn:Hc; cbn [andb].
  - destruct (is_empty (rstrip s)) eqn:Hr.
    + assert (rstrip s = EmptyString) as Hblank%re_split_ws_from_blank
        by (by destruct (rstrip s)).
      cbn [re_split_ws_from]. rewrite Hc, Hblank. by destruct b.
    + cbn [re_split_ws_from]. rewrite Hc.
      destruct (IH true) as [Hhd Htl]. destruct b; [done|]. cbn [hd tail]. split; [done|].
      pose proof (re_split_ws_from_nonempty true s).
      pose proof (re_split_ws_from_nonempty true (rstrip s)).
      destruct (re_split_ws_from true s), (re_split_ws_from true (rstrip s)); try done.
      simpl in Hhd, Htl. subst. by rewrite !filter_nonempty_cons, Htl.
  - cbn [re_split_ws_from]. rewrite Hc.
    destruct (IH false) as [Hhd Htl].
    pose proof (re_split_ws_from_nonempty false s).
    pose proof (re_split_ws_from_nonempty false (rstrip s)).
    destruct (re_split_ws_from false s), (re_split_ws_from false (rstrip s)); try done.
    simpl in *. by subst.
Qed.

Lemma split_rstrip (s : string) :
  split (rstrip s) = split s.
Proof.
  unfold split, re_split_ws. destruct (re_split_ws_from_rstrip false s) as [Hhd Htl].
  pose proof (re_split_ws_from_nonempty false s).
  pose proof (re_split_ws_from_nonempty false (rstrip s)).
  destruct (re_split_ws_from false s), (re_split_ws_from false (rstrip s)); try done.
  simpl in *. subst. by rewrite !filter_nonempty_cons, Htl.
Qed.

Lemma split_strip (s : string) :
  split (strip s) = split s.
Proof. unfold strip. by rewrite split_rstrip, split_lstrip. Qed.

Lemma rstrip_idemp (s : string) :
  rstrip (rstrip s) = rstrip s.
Proof.
  induction s as [|c s IH]; [done|]. rewrite rstrip_cons.
  destruct (isspace c && is_empty (rstrip s)) eqn:E; [done|].
  by rewrite rstrip_cons, IH, E.
Qed.

Lemma lstrip_starts_with_text (s : string) :
  Spec.starts_with_text (lstrip s).
Proof. induction s as [|c s IH]; simpl; [done|]. by destruct (isspace c) eqn:E. Qed.

Lemma rstrip_starts_with_text (s : string) :
  Spec.starts_with_text s -> Spec.starts_with_text (rstrip s).
Proof.
  destruct s as [|c s]; [done|]. intros Hc. rewrite rstrip_cons.
  simpl in Hc. rewrite Hc. exact Hc.
Qed.

(** In a string that does not end with whitespace, only the first piece can
    be empty, and it is not when the string starts with text or the split
    starts within a run. *)
Lemma re_split_ws_from_pieces (b : bool) (s : string) :
  rstrip s = s -> s <> EmptyString ->
  Forall (fun t => t <> EmptyString) (tail (re_split_ws_from b s))
  /\ (b = true \/ Spec.starts_with_text s ->
      hd EmptyString (re_split_ws_from b s) <> EmptyString).
Proof.
  revert b. induction s as [|c s IH]; intros b Hr Hs; [done|]. clear Hs.
  rewrite rstrip_cons in Hr. cbn [re_split_ws_from].
  destruct (isspace c) eqn:Hc; cbn [andb] in Hr.
  - destruct (is_empty (rstrip s)) eqn:Hempty; [done|]. injection Hr as Hr.
    assert (s <> EmptyString) as Hne by (intros ->; done).
    destruct (IH true Hr Hne) as [Htl Hhd]. specialize (Hhd (or_introl eq_refl)).
    destruct b; [done|]. cbn [tail hd]. split; [|intros [?|?]; [done|simpl in *; congruence]].
    pose proof (re_split_ws_from_nonempty true s).
    destruct (re_split_ws_from true s); [done|]. by constructor.
  - injection Hr as Hr.
    pose proof (re_split_ws_from_nonempty false s).
    destruct (re_split_ws_from false s) as [|t ts] eqn:E; [done|]. cbn [tail hd].
    split; [|done].
    destruct s as [|c' s']; [by injection E as <- <-|].
    destruct (IH false Hr) as [Htl _]; [done|]. by rewrite E in Htl.
Qed.

(** The fields the Unix parser gets from a line, [re.split(r'\s+',
    line.strip())], are the whitespace-separated tokens of the line; a blank
    line gives the single field [""]. *)
Lemma re_split_ws_strip (line : string) :
  re_split_ws (strip line)
  = match split line with
    | [] => [EmptyString]
    | tokens => tokens
    end.
Proof.
  rewrite <- split_strip. unfold split, re_split_ws.
  destruct (decide (strip line = EmptyString)) as [->|Hne]; [done|].
  destruct (re_split_ws_from_pieces false (strip line)) as [Htl Hhd]; [|done|].
  { unfold strip. apply rstrip_idemp. }
  specialize (Hhd (or_intror (rstrip_starts_with_text _ (lstrip_starts_with_text line)))).
  pose proof (re_split_ws_from_nonempty false (strip line)).
  destruct (re_split_ws_from false (strip line)) as [|t ts]; [done|].
  simpl in *. rewrite filter_nonempty_cons, decide_False by done.
  assert (filter (fun t => t <> EmptyString) ts = ts) as ->; [|done].
  clear -Htl. induction Htl as [|x l Hx Hl IH]; [done|].
  by rewrite filter_cons, decide_True, IH.
Qed.

End Tokens.

(** ** The parsers *)

(** C1 (the code departs from the claim). A well-formed listing, the [ps]
    header and one data line of eleven tokens, is rejected with the HTTP 400
    of a format error: after dropping the header, [parse] tests the first
    data line for the prefix [USER]. A listing that passes this test and
    whose command has arguments is rejected too, for having more than eleven
    tokens. Without the arguments, it parses. *)
Theorem unix_parse_rejects_well_formed_listing `{Runtime} :
  UnixParser.parse Examples.ps_listing = Raise psaux_invalid
  /\ UnixParser.parse Examples.ps_listing_args = Raise psaux_invalid
  /\ exists record,
       UnixParser.parse (H := Reference.runtime) Examples.ps_listing_user = Ok [record]
       /\ user record = "USERX" /\ command record = "python3".
Proof.
  split_and!; [reflexivity..|]. eexists. split; [vm_compute; reflexivity|]. done.
Qed.

Lemma collect_raise {A B} (f : A -> result B) (l : list A) (x : A) (e : exn) :
  x ∈ l -> f x = Raise e ->
  exists y e', y ∈ l /\ f y = Raise e' /\ collect f l = Raise e'.
Proof.
  intros Hx Hfx. induction Hx as [x l|x y l Hx IH]; simpl.
  - exists x, e. rewrite Hfx. split_and!; [by left|done..].
  - destruct (f y) as [v|e'] eqn:Hfy; simpl.
    + destruct (IH Hfx) as (z & e' & Hz & Hfz & Hc). rewrite Hc.
      exists z, e'. split_and!; [by right|done..].
    + exists y, e'. split_and!; [by left|done..].
Qed.

Lemma collect_ok {A B} (f : A -> result B) (l : list A) (rs : list B) :
  collect f l = Ok rs -> Forall2 (fun x r => f x = Ok r) l rs.
Proof.
  revert rs. induction l as [|x l IH]; intros rs; simpl.
  - intros [= <-]. constructor.
  - destruct (f x) as [r|e] eqn:Hfx; run_result; [|done].
    destruct (collect f l) as [rs'|e]; run_result; [|done].
    intros [= <-]. constructor; [done|]. by apply IH.
Qed.

Section UnixAccepts.
Context `{Runtime}.

(** A line the Unix parser accepts has exactly eleven tokens; the record
    takes them by position, the command being the eleventh. *)
Lemma unix_parse_line_ok (line : string) (r : ProcessData) :
  UnixParser.parse_line line = Ok r ->
  let tokens := PyStr.split line in
  length tokens = 11%nat
  /\ user r = nth 0 tokens EmptyString
  /\ py_int (nth 1 tokens EmptyString) = Some (pid r)
  /\ py_float (nth 2 tokens EmptyString) = Some (cpu_usage r)
  /\ py_float (nth 3 tokens EmptyString) = Some (mem_usage r)
  /\ py_int (nth 4 tokens EmptyString) = Some (vsz r)
  /\ py_int (nth 5 tokens EmptyString) = Some (rss r)
  /\ command r = nth 10 tokens EmptyString.
Proof.
  unfold UnixParser.parse_line. field_positions. rewrite re_split_ws_strip.
  destruct (PyStr.split line) as [|t ts] eqn:Htokens; [done|].
  set (fields := t :: ts).
  destruct (_ =? _)%nat eqn:Hlen; cbn [negb]; [|done].
  apply Nat.eqb_eq in Hlen.
  destruct (py_int (nth 1 fields _)) eqn:E1; [|done].
  destruct (py_float (nth 2 fields _)) eqn:E2; [|done].
  destruct (py_float (nth 3 fields _)) eqn:E3; [|done].
  destruct (py_int (nth 4 fields _)) eqn:E4; [|done].
  destruct (py_int (nth 5 fields _)) eqn:E5; [|done].
  intros [= <-]. cbn [user pid cpu_usage mem_usage vsz rss command].
  split_and!; try done.
  do 11 (destruct ts as [|? ts]; [done|]). by destruct ts.
Qed.

(** X29. When [parse] returns, it returns one record per data line, in order;
    and it returns only if the first data line starts with [USER] and every
    data line has exactly eleven tokens, the last of which is the command. *)
Lemma unix_parse_ok (content : string) (records : list ProcessData) :
  UnixParser.parse content = Ok records ->
  (exists first rest,
     Spec.unix_data_lines content = first :: rest
     /\ PyStr.startswith first "USER" = true)
  /\ length records = length (Spec.unix_data_lines content)
  /\ Forall2 (fun line r =>
                length (PyStr.split line) = 11%nat
                /\ command r = nth 10 (PyStr.split line) EmptyString)
       (Spec.unix_data_lines content) records.
Proof.
  unfold UnixParser.parse, Spec.unix_data_lines.
  destruct (tail _) as [|first rest]; [done|].
  destruct (PyStr.startswith first "USER") eqn:Hu; cbn [negb]; [|done].
  intros Hok%collect_ok. split_and!.
  - by eexists _, _.
  - symmetry. by eapply Forall2_length.
  - eapply Forall2_impl; [exact Hok|]. intros line r Hr.
    apply unix_parse_line_ok in Hr. naive_solver.
Qed.

(** The header test is made on the first data line. *)
Lemma unix_parse_tests_first_data_line (content first : string) (rest : list string) :
  Spec.unix_data_lines content = first :: rest ->
  PyStr.startswith first "USER" = false ->
  UnixParser.parse content = Raise psaux_invalid.
Proof.
  unfold UnixParser.parse, Spec.unix_data_lines. intros -> Hu. by rewrite Hu.
Qed.

End UnixAccepts.

Section Parsers.
Context `{Runtime}.

Lemma unix_parse_line_raises (line : string) (e : exn) :
  UnixParser.parse_line line = Raise e -> e = psaux_invalid.
Proof.
  unfold UnixParser.parse_line. field_positions. case_match; [by intros [= <-]|].
  repeat case_match; by intros [= <-].
Qed.

Lemma unix_parse_line_malformed (line : string) :
  Spec.unix_malformed_line line -> UnixParser.parse_line line = Raise psaux_invalid.
Proof.
  unfold Spec.unix_malformed_line, UnixParser.parse_line. field_positions.
  rewrite re_split_ws_strip. intros Hbad.
  destruct (PyStr.split line) as [|t ts] eqn:Htokens; [done|].
  set (fields := t :: ts) in *.
  destruct (_ =? _)%nat eqn:Hlen; cbn [negb]; [|done].
  apply Nat.eqb_eq in Hlen.
  destruct Hbad as [Hbad|[Hbad|[Hbad|[Hbad|[Hbad|Hbad]]]]]; [congruence|..];
    rewrite Hbad; repeat case_match; done.
Qed.

Lemma windows_parse_line_raises (cp : list nat) (line : string) (e : exn) :
  WindowsParser.parse_line cp line = Raise e ->
  e = IndexError \/ exists msg, e = ValueError msg.
Proof.
  unfold WindowsParser.parse_line, WindowsParser.line_fields. field_positions.
  destruct (last cp); simpl; [|intros [= <-]; by left].
  destruct (PyStr.split _); simpl; [intros [= <-]; by left|].
  repeat (match goal with
          | |- context [of_option ?o _] => destruct o; simpl
          end; try (intros [= <-]; by eauto)).
Qed.

Lemma windows_parse_line_malformed (cp : list nat) (line : string) :
  Spec.windows_malformed_line cp line ->
  exists e, WindowsParser.parse_line cp line = Raise e.
Proof.
  unfold WindowsParser.parse_line. field_positions.
  intros [->|(fields & -> & Hpid)]; run_result; [by eexists|].
  destruct (nth_error fields 4); run_result; [|by eexists].
  destruct (nth_error fields 1) as [pid_text|] eqn:Hf; run_result; [|by eexists].
  rewrite (nth_error_nth _ _ _ Hf) in Hpid. rewrite Hpid. run_result. by eexists.
Qed.

(** An empty line cannot be sliced, whatever the columns are. *)
Lemma windows_empty_line_malformed (cp : list nat) :
  Spec.windows_malformed_line cp EmptyString.
Proof.
  left. unfold WindowsParser.line_fields.
  destruct (last cp) as [n|]; run_result; [|done]. by destruct n.
Qed.

Lemma malformed_nonempty (p : ParserFactory.Parser) (content : string) :
  Spec.malformed p content -> content <> EmptyString.
Proof.
  intros Hbad ->. destruct p; simpl in Hbad.
  - destruct Hbad as (line & Hin & _). by apply elem_of_nil in Hin.
  - destruct Hbad as (sep & line & Hsep & _). done.
Qed.

(** X28. What the parsers do reject. A listing with a data line that violates the
    field shape makes [parse] fail, and with it the whole ingest call, which
    stages nothing: the exception is raised to the caller and Redis is left as
    it was. For Unix the violation is a data line whose token count is not 11
    or whose PID, %CPU, %MEM, VSZ or RSS is not a number, and the exception is
    the HTTP 400 of a format error. For Windows it is a data line with no
    text at or after the last column (an empty line) or whose PID field is
    not a number, and the exception is a bare [IndexError] or [ValueError]. *)
Lemma malformed_listing_is_rejected (p : ParserFactory.Parser) (content : string) :
  Spec.malformed p content ->
  exists e,
    ParserFactory.parse p content = Raise e
    /\ Spec.shape_exception p e
    /\ forall now os_type meta_info redis,
         os_type <> EmptyString ->
         ParserFactory.get_parser os_type = Ok p ->
         receive_and_parse_data now
           (mkIngestData (Some os_type) (Some content) meta_info) redis
         = (Raise e, redis).
Proof.
  intros Hbad.
  assert (Hparse : exists e, ParserFactory.parse p content = Raise e
                             /\ Spec.shape_exception p e).
  { destruct p; simpl in *.
    - exists psaux_invalid. split; [|done].
      destruct Hbad as (line & Hin & Hline).
      unfold UnixParser.parse. unfold Spec.unix_data_lines in Hin.
      generalize dependent (tail (PyStr.split_char "010" (PyStr.strip content))).
      intros [|header rest] Hin; [done|].
      destruct (PyStr.startswith header "USER"); cbn [negb]; [|done].
      destruct (collect_raise UnixParser.parse_line _ line psaux_invalid Hin)
        as (y & e' & _ & Hy & ->); [by apply unix_parse_line_malformed|].
      by rewrite (unix_parse_line_raises _ _ Hy).
    - destruct Hbad as (sep & line & Hsep & Hin & Hline).
      unfold WindowsParser.parse. unfold Spec.windows_lines in *. simpl in *.
      rewrite Hsep. run_result.
      destruct (windows_parse_line_malformed _ _ Hline) as (e & He).
      destruct (collect_raise _ _ line e Hin He) as (y & e' & _ & Hy & ->).
      exists e'. split; [done|]. by eapply windows_parse_line_raises. }
  destruct Hparse as (e & Hparse & Hshape). exists e. split_and!; [done..|].
  intros now os meta redis Hos Hp.
  unfold receive_and_parse_data. simpl.
  pose proof (malformed_nonempty _ _ Hbad) as Hne.
  destruct os; [done|]. destruct content; [done|]. simpl.
  rewrite Hp. simpl. by rewrite Hparse.
Qed.

End Parsers.

Example malformed_listings_rejected :
  Spec.malformed ParserFactory.Unix Examples.ps_listing_short_line
  /\ Spec.malformed ParserFactory.Windows Examples.tasklist_empty_line
  /\ ParserFactory.parse ParserFactory.Unix Examples.ps_listing_short_line
     = Raise psaux_invalid
  /\ ParserFactory.parse ParserFactory.Windows Examples.tasklist_empty_line
     = Raise IndexError.
Proof.
  assert (HU : Spec.malformed ParserFactory.Unix Examples.ps_listing_short_line).
  { exists "bob 8 0.5 0.1". split; [|left; vm_compute; lia].
    vm_compute. right. left. }
  assert (HW : Spec.malformed ParserFactory.Windows Examples.tasklist_empty_line).
  { eexists _, "". split_and!; [vm_compute; reflexivity| |apply windows_empty_line_malformed].
    vm_compute. right. left. }
  split_and!; [exact HU|exact HW| |].
  - destruct (malformed_listing_is_rejected ParserFactory.Unix _ HU) as (e & He & Hs & _).
    rewrite He. simpl in Hs. by rewrite Hs.
  - destruct (malformed_listing_is_rejected ParserFactory.Windows _ HW) as (e & He & Hs & _).
    rewrite He. vm_compute in He. exact (eq_sym He).
Defined.

(** C3 (the code departs from the claim). A Unix listing whose header line
    does not start with [USER] is not rejected: it parses into a record,
    because [parse] tests the first data line in place of the header. A
    Windows listing with a non-numeric PID fails with a bare [ValueError], one
    with an empty line with a bare [IndexError]: neither is the format error,
    the HTTP 400, that the Unix parser raises for such lines. *)
Theorem shape_violations_not_format_errors :
  (exists record,
     PyStr.startswith Examples.ps_listing_bad_header "USER" = false
     /\ UnixParser.parse Examples.ps_listing_bad_header = Ok [record])
  /\ WindowsParser.parse Examples.tasklist_bad_pid
     = Raise (ValueError "invalid literal for int() with base 10")
  /\ WindowsParser.parse Examples.tasklist_empty_line = Raise IndexError
  /\ (forall msg, ValueError msg <> psaux_invalid)
  /\ IndexError <> psaux_invalid.
Proof.
  split_and!; [eexists; split; vm_compute; reflexivity|vm_compute; reflexivity..|done|done].
Qed.

(** ** Ingest: batch ids *)

(** The text [strftime] gives depends on the second the instant falls in,
    not on where in that second. *)
Lemma strftime_compact_second (t1 t2 : Calendar.datetime) :
  t1 / Calendar.us_per_second = t2 / Calendar.us_per_second ->
  Calendar.strftime_compact t1 = Calendar.strftime_compact t2.
Proof.
  intros Hsec. unfold Calendar.strftime_compact, Calendar.date_of.
  assert (Hday : forall t,
    t / Calendar.us_per_day = t / Calendar.us_per_second / 86400).
  { intros t. unfold Calendar.us_per_day.
    rewrite Z.div_div by (unfold Calendar.us_per_second; lia).
    f_equal; lia. }
  assert (Hsecs : forall t,
    t mod Calendar.us_per_day / Calendar.us_per_second
    = (t / Calendar.us_per_second) mod 86400).
  { intros t. unfold Calendar.us_per_day.
    rewrite (Z.mul_comm 86400), Z.rem_mul_r by (unfold Calendar.us_per_second; lia).
    rewrite Z.mul_comm, Z.div_add by (unfold Calendar.us_per_second; lia).
    rewrite Z.div_small; [lia|].
    apply Z.mod_pos_bound. unfold Calendar.us_per_second. lia. }
  by rewrite !Hday, !Hsecs, Hsec.
Qed.

(** Two successful ingests within one second get the same batch id, and the
    second staged batch replaces the first. *)
Lemma same_second_batches_collide `{Runtime}
    (now1 now2 : Calendar.datetime) (data1 data2 : IngestData)
    (redis redis1 redis2 : gmap string redis_value) (id1 id2 : string) (n1 n2 : nat) :
  now1 / Calendar.us_per_second = now2 / Calendar.us_per_second ->
  receive_and_parse_data now1 data1 redis = (Ok (id1, n1), redis1) ->
  receive_and_parse_data now2 data2 redis1 = (Ok (id2, n2), redis2) ->
  id1 = id2
  /\ exists meta2 records2,
       redis2 !! id1 = Some (StagedBatch meta2 records2) /\ length records2 = n2.
Proof.
  intros Hsec H1 H2.
  assert (Hstore : forall now data r id n r',
    receive_and_parse_data now data r = (Ok (id, n), r') ->
    id = "batch_" +:+ Calendar.strftime_compact now
    /\ exists meta records, r' !! id = Some (StagedBatch meta records) /\ length records = n).
  { intros now data r id n r'. unfold receive_and_parse_data.
    destruct (in_os_type data); [|done]. destruct (in_content data); [|done].
    case_match; [done|]. case_match; [|done].
    unfold store_process_data_in_redis.
    destruct (in_meta_info data !! "timestamp"); run_result; [|done].
    destruct (in_meta_info data !! "machine_name"); run_result; [|done].
    destruct (in_meta_info data !! "machine_id"); run_result; [|done].
    destruct (in_meta_info data !! "os_type"); run_result; [|done].
    intros Heq. simplify_eq. split; [done|].
    eexists _, _. rewrite lookup_insert_eq. split; [done|]. by rewrite length_map. }
  apply Hstore in H1 as [-> _]. apply Hstore in H2 as [-> Hb].
  rewrite (strftime_compact_second now1 now2 Hsec). done.
Qed.

(** C2 (the code departs from the claim). Two ingest calls at 12:00:00.1 and
    12:00:00.9 of the same day both succeed and both return the batch id
    [batch_20240229120000]; after the second, the staging store holds one
    batch, that of the second call: the first one was overwritten. *)
Theorem same_second_ingests_share_batch_id :
  let first :=
    receive_and_parse_data Examples.noon_early
      (Examples.ingest "m1" Examples.tasklist_one) ∅ in
  let second :=
    receive_and_parse_data Examples.noon_late
      (Examples.ingest "m2" Examples.tasklist_two) first.2 in
  first.1 = Ok ("batch_20240229120000", 1%nat)
  /\ second.1 = Ok ("batch_20240229120000", 2%nat)
  /\ (exists records,
        first.2 !! "batch_20240229120000"
        = Some (StagedBatch (mkMetaInfo "2024-02-29T12:00:00" "m1" "m1" "windows") records)
        /\ length records = 1%nat)
  /\ (exists records,
        second.2 !! "batch_20240229120000"
        = Some (StagedBatch (mkMetaInfo "2024-02-29T12:00:00" "m2" "m2" "windows") records)
        /\ length records = 2%nat)
  /\ dom second.2 = {["batch_20240229120000"]}.
Proof.
  vm_compute. split_and!; try reflexivity.
  - eexists. split; reflexivity.
  - eexists. split; reflexivity.
Qed.

(** ** Materialize: rollups *)

Lemma fold_left_Qplus (l : list Q) (a : Q) :
  (fold_left Qplus l a == a + Spec.total l)%Q.
Proof.
  revert a. induction l as [|x l IH]; intros a; simpl.
  - by rewrite Qplus_0_r.
  - rewrite IH. by rewrite Qplus_assoc.
Qed.

Lemma qsum_total (l : list Q) :
  (qsum l == Spec.total l)%Q.
Proof. unfold qsum. rewrite fold_left_Qplus. apply Qplus_0_l. Qed.

Lemma fromkeys_distinct (l : list string) :
  length (fromkeys l) = Spec.distinct l.
Proof.
  unfold Spec.distinct.
  rewrite <- (size_list_to_set (C := gset string) (fromkeys l)) by apply NoDup_fromkeys.
  f_equal. apply set_eq. intros x. by rewrite !elem_of_list_to_set, elem_of_fromkeys.
Qed.

Lemma nlargest_is_top (n : nat) (col : ProcessData -> Q) (rows : list ProcessData) :
  Spec.is_top n col rows (map (fun p => (command p, col p)) (nlargest n col rows)).
Proof.
  exists (py_sorted (fun a b => Qle_bool (col b) (col a)) rows). split_and!.
  - apply py_sorted_perm.
  - eapply StronglySorted_impl; [|apply py_sorted_sorted].
    + intros a b Hab. by apply Qle_bool_iff.
    + intros a b. rewrite !Qle_bool_iff.
      destruct (Qlt_le_dec (col a) (col b)) as [Hlt%Qlt_le_weak|Hle]; auto.
    + intros a b c. rewrite !Qle_bool_iff. intros ??. by eapply Qle_trans.
  - intros v. apply filter_py_sorted.
    intros a b Ha Hb. apply Qle_bool_iff. rewrite Ha, Hb. apply Qle_refl.
  - reflexivity.
Qed.

Lemma aggregate_rollup_of (rows : list ProcessData) :
  Spec.rollup_of rows (aggregate rows).
Proof.
  split_and!; simpl.
  - apply qsum_total.
  - apply qsum_total.
  - by rewrite fromkeys_distinct.
  - apply nlargest_is_top.
  - apply nlargest_is_top.
Qed.

Lemma fold_insert_lookup {V} (g : string -> string) (v : string -> V)
    (ks : list string) (m : gmap string V) (k : string) :
  (forall a b, g a = g b -> a = b) ->
  fold_left (fun r key => <[g key := v key]> r) ks m !! g k
  = if decide (k ∈ ks) then Some (v k) else m !! g k.
Proof.
  intros Hinj. revert m. induction ks as [|x ks IH]; intros m; simpl; [done|].
  rewrite IH. destruct (decide (k ∈ ks)) as [Hin|Hnin].
  - rewrite decide_True; [done|by right].
  - destruct (decide (k = x)) as [->|Hne].
    + rewrite lookup_insert_eq, decide_True; [done|by left].
    + rewrite lookup_insert_ne by (intros ?%Hinj; done).
      rewrite decide_False; [done|]. rewrite elem_of_cons. naive_solver.
Qed.

Lemma fold_insert_lookup_other {V} (g : string -> string) (v : string -> V)
    (ks : list string) (m : gmap string V) (j : string) :
  (forall k, k ∈ ks -> g k <> j) ->
  fold_left (fun r key => <[g key := v key]> r) ks m !! j = m !! j.
Proof.
  revert m. induction ks as [|x ks IH]; intros m Hj; simpl; [done|].
  rewrite IH by (intros k Hk; apply Hj; by right).
  apply lookup_insert_ne, Hj. by left.
Qed.

Lemma elem_of_group_keys (key : string) (df : list (string * ProcessData)) :
  key ∈ group_keys df <-> key ∈ map fst df.
Proof. unfold group_keys. by rewrite py_sorted_perm, elem_of_fromkeys. Qed.

Lemma agg_key_inj (a b : string) :
  "agg_" +:+ a = "agg_" +:+ b -> a = b.
Proof. cbv [String.append]. by intros [= ->]. Qed.

Lemma update_redis_aggregations_lookup
    (df : list (string * ProcessData)) (redis : gmap string redis_value) (key : string) :
  key ∈ map fst df ->
  _update_redis_aggregations df redis !! ("agg_" +:+ key)
  = Some (Rollup (aggregate (group key df))).
Proof.
  intros Hkey. unfold _update_redis_aggregations.
  rewrite (fold_insert_lookup (fun k => "agg_" +:+ k)
             (fun k => Rollup (aggregate (group k df)))) by apply agg_key_inj.
  rewrite decide_True; [done|]. by apply elem_of_group_keys.
Qed.

Lemma update_redis_aggregations_other
    (df : list (string * ProcessData)) (redis : gmap string redis_value) (j : string) :
  (forall key, key ∈ map fst df -> j <> "agg_" +:+ key) ->
  _update_redis_aggregations df redis !! j = redis !! j.
Proof.
  intros Hj. unfold _update_redis_aggregations.
  apply (fold_insert_lookup_other (fun k => "agg_" +:+ k)).
  intros k Hk%elem_of_group_keys ?. by eapply Hj.
Qed.

Section Materialize.
Context `{Runtime}.

Lemma group_single_key (key : string) (rows : list ProcessData) :
  (forall p, p ∈ rows -> partition_key p = key) ->
  group key (map (fun p => (partition_key p, p)) rows) = rows.
Proof.
  intros Hkey. unfold group.
  induction rows as [|p rows IH]; [done|]. simpl.
  rewrite filter_cons, decide_True by (simpl; apply Hkey; by left).
  simpl. f_equal. apply IH. intros q Hq. apply Hkey. by right.
Qed.

(** What [process_and_store_data] does with a staged batch that has records.
    When the insert goes through, the rows go to the table, the rollups of
    the batch are written and the staged batch is deleted. When it raises,
    nothing is written and the batch stays. *)
Lemma process_and_store_data_staged
    (next_id : Z) (batch_id : string) (meta : MetaInfo) (records : list ProcessData)
    (redis : gmap string redis_value) (db : list ProcessData) :
  redis !! batch_id = Some (StagedBatch meta records) ->
  records <> [] ->
  let rows := map (merge_meta meta) records in
  let df := map (fun p => (partition_key p, p)) rows in
  process_and_store_data next_id batch_id (redis, db)
  = match sql_insert_error rows with
    | None =>
        (Ok tt,
         (delete batch_id (_update_redis_aggregations df redis), db ++ assign_ids next_id rows))
    | Some e => (if caught e then Ok tt else Raise e, (redis, db))
    end.
Proof.
  intros Hb Hne rows df. unfold process_and_store_data, _update_sql_database. rewrite Hb.
  fold rows. fold df.
  assert (Hrows : map snd df = rows).
  { subst df. rewrite map_map. simpl. apply map_id. }
  rewrite Hrows.
  destruct rows as [|r rows'] eqn:Erows; [by destruct records|].
  by destruct (sql_insert_error (r :: rows')).
Qed.

Lemma group_subset (key : string) (df : list (string * ProcessData)) :
  group key df = Spec.subset key df.
Proof.
  unfold group. induction df as [|[k p] df IH]; [done|].
  rewrite filter_cons. simpl. destruct (decide (k = key)); simpl; by rewrite IH.
Qed.

(** C4. For a batch, given as the frame [df] of its rows with their partition
    keys, and a partition key occurring in it, there is one rollup [a], that
    of the batch's rows of this key alone (the sums of cpu_usage and
    mem_usage, the number of distinct commands, the first ten rows by
    descending cpu_usage and by descending mem_usage with equal values in
    row order), such that: the rows the code groups under the key are that
    subset; [_update_redis_aggregations] leaves [a] under [agg_] + key
    whatever Redis held before, in particular after an earlier batch [df0]
    was written; the entries of Redis not named by a key of the batch are
    untouched. A staged batch whose timestamp is read as [t] has every
    record on the one key made of the day of [t], an underscore and the
    os_type of its [meta_info]; materializing it leaves [a] under that key
    and removes the staged entry when the insert into the table goes
    through, and writes nothing at all, the staged entry staying, when the
    insert raises. *)
Theorem rollup_recomputed_from_batch_alone
    (df : list (string * ProcessData)) (key : string) :
  key ∈ map fst df ->
  exists a,
    Spec.rollup_of (Spec.subset key df) a
    /\ group key df = Spec.subset key df
    /\ (forall redis,
          _update_redis_aggregations df redis !! ("agg_" +:+ key) = Some (Rollup a))
    /\ (forall df0 redis,
          _update_redis_aggregations df (_update_redis_aggregations df0 redis)
            !! ("agg_" +:+ key) = Some (Rollup a))
    /\ (forall redis j,
          (forall k, k ∈ map fst df -> j <> "agg_" +:+ k) ->
          _update_redis_aggregations df redis !! j = redis !! j)
    /\ (forall next_id batch_id meta records redis db t,
          redis !! batch_id = Some (StagedBatch meta records) ->
          pd_to_datetime (meta_timestamp meta) = Some t ->
          key = Spec.partition_key_of t (meta_os_type meta) ->
          df = map (fun p => (key, p)) (map (merge_meta meta) records) ->
          batch_id <> "agg_" +:+ key ->
          let after := process_and_store_data next_id batch_id (redis, db) in
          Spec.subset key df = map (merge_meta meta) records
          /\ match sql_insert_error (map (merge_meta meta) records) with
             | None =>
                 after.1 = Ok tt
                 /\ after.2.1 !! ("agg_" +:+ key) = Some (Rollup a)
                 /\ after.2.1 !! batch_id = None
             | Some e =>
                 after.1 = (if caught e then Ok tt else Raise e)
                 /\ after.2 = (redis, db)
             end).
Proof.
  intros Hkey. exists (aggregate (group key df)). split_and!.
  - rewrite <- group_subset. apply aggregate_rollup_of.
  - apply group_subset.
  - intros redis. by apply update_redis_aggregations_lookup.
  - intros df0 redis. by apply update_redis_aggregations_lookup.
  - intros redis j Hj. by apply update_redis_aggregations_other.
  - intros next_id batch_id meta records redis db t Hb Ht Hk Hdf Hne after.
    assert (Hrec : records <> []).
    { intros ->. subst df. by apply elem_of_nil in Hkey. }
    assert (Hkeys : forall p, p ∈ map (merge_meta meta) records -> partition_key p = key).
    { intros p (r & -> & _)%list_elem_of_fmap. rewrite Hk.
      unfold partition_key, merge_meta, Spec.partition_key_of.
      cbn [timestamp os_type]. by rewrite Ht. }
    assert (Hframe : map (fun p => (partition_key p, p)) (map (merge_meta meta) records) = df).
    { rewrite Hdf. apply map_ext_in. intros p Hp%list_elem_of_In. by rewrite Hkeys. }
    split.
    + rewrite <- group_subset, <- Hframe. by apply group_single_key.
    + subst after.
      rewrite (process_and_store_data_staged _ _ meta records) by done. cbv zeta.
      rewrite Hframe.
      destruct (sql_insert_error (map (merge_meta meta) records)) as [e|]; [done|].
      cbn [fst snd]. split_and!; [done| |by rewrite lookup_delete_eq].
      rewrite lookup_delete_ne by done.
      by apply update_redis_aggregations_lookup.
Qed.

End Materialize.

Lemma rollup_recomputed_from_batch_alone_witness :
  "2024-01-01_linux" ∈ map fst Examples.frame
  /\ exists a,
       Spec.rollup_of
         [Examples.proc "nginx" 1.5 0.25; Examples.proc "python3" 2.5 1;
          Examples.proc "nginx" 1.5 3] a
       /\ _update_redis_aggregations Examples.frame Examples.redis_linux
            !! "agg_2024-01-01_linux" = Some (Rollup a).
Proof.
  assert (Hin : "2024-01-01_linux" ∈ map fst Examples.frame) by (simpl; left).
  split; [exact Hin|].
  destruct (rollup_recomputed_from_batch_alone (H := Reference.runtime) Examples.frame
              "2024-01-01_linux" Hin) as (a & Ha & _ & Hset & _).
  exists a. split; [exact Ha|apply Hset].
Defined.

(** The rollup of the three rows of 2024-01-01 replaces the stored one: the
    two nginx rows count as one command, and keep their order in the top
    lists where their values are equal. *)
Example update_redis_aggregations_frame :
  _update_redis_aggregations Examples.frame Examples.redis_linux !! "agg_2024-01-01_linux"
  = Some (Rollup (mkAggregated 5.500 4.25 2
                    [("python3", 2.5%Q); ("nginx", 1.5%Q); ("nginx", 1.5%Q)]
                    [("nginx", 3%Q); ("python3", 1%Q); ("nginx", 0.25%Q)])).
Proof. vm_compute. reflexivity. Qed.

(** Materializing two batches of the same day and system one after the
    other leaves the rollup of the second batch alone. *)
Example materialize_twice_keeps_second :
  let staged (machine content : string) (now : Calendar.datetime) redis :=
    (receive_and_parse_data now (Examples.ingest machine content) redis).2 in
  let redis1 := staged "m1" Examples.tasklist_two Examples.noon_early ∅ in
  let run1 := process_and_store_data 1 "batch_20240229120000" (redis1, []) in
  let redis2 := staged "m2" Examples.tasklist_one Examples.noon_late run1.2.1 in
  let run2 := process_and_store_data 3 "batch_20240229120000" (redis2, run1.2.2) in
  run1.1 = Ok tt
  /\ run1.2.1 !! "agg_2024-02-29_windows"
     = Some (Rollup (mkAggregated 0 123464 2
                       [("chrome.exe", 0%Q); ("System Idle Process", 0%Q)]
                       [("chrome.exe", 123456%Q); ("System Idle Process", 8%Q)]))
  /\ run2.1 = Ok tt
  /\ run2.2.1 !! "agg_2024-02-29_windows"
     = Some (Rollup (mkAggregated 0 123456 1
                       [("chrome.exe", 0%Q)] [("chrome.exe", 123456%Q)]))
  /\ length run2.2.2 = 3%nat
  /\ dom run2.2.1 = {["agg_2024-02-29_windows"]}.
Proof. vm_compute. split_and!; reflexivity. Qed.

(** A process id the parser reads and the table does not take: the insert
    raises, the exception leaves the background step, no row and no rollup
    is written, and the batch stays staged. *)
Example materialize_refused_by_the_table :
  let call :=
    receive_and_parse_data Examples.noon_early
      (mkIngestData (Some "linux") (Some Examples.ps_listing_huge_pid) (Examples.meta "m1")) ∅ in
  let run := process_and_store_data 1 "batch_20240229120000" (call.2, []) in
  call.1 = Ok ("batch_20240229120000", 1%nat)
  /\ run.1 = Raise DatabaseError
  /\ run.2 = (call.2, [])
  /\ dom call.2 = {["batch_20240229120000"]}.
Proof. vm_compute. split_and!; reflexivity. Qed.

(** ** The memoized rollup lookup *)

Section Cache.
Context {V : Type}.
Implicit Types (c pre post : list (string * V)) (k : string) (v : V).

Lemma cache_lookup_cons k k' v' c :
  cache_lookup k ((k', v') :: c) = if decide (k' = k) then Some v' else cache_lookup k c.
Proof.
  unfold cache_lookup. simpl. destruct (decide (k' = k)) as [Heq|Hne].
  - by rewrite bool_decide_eq_true_2.
  - by rewrite bool_decide_eq_false_2.
Qed.

Lemma cache_lookup_None k c :
  cache_lookup k c = None <-> k ∉ c.*1.
Proof.
  induction c as [|[k' v'] c IH]; [split; [intros _; apply not_elem_of_nil|done]|].
  rewrite cache_lookup_cons, fmap_cons, not_elem_of_cons. simpl.
  case_decide; naive_solver.
Qed.

Lemma cache_lookup_middle k v pre post :
  k ∉ pre.*1 -> cache_lookup k (pre ++ (k, v) :: post) = Some v.
Proof.
  induction pre as [|[k' v'] pre IH]; simpl; intros Hk.
  - by rewrite cache_lookup_cons, decide_True.
  - apply not_elem_of_cons in Hk as [Hne Hk].
    rewrite cache_lookup_cons, decide_False by done. by apply IH.
Qed.

Lemma cache_remove_keys k c :
  (cache_remove k c).*1 = filter (fun j => j <> k) c.*1.
Proof.
  unfold cache_remove. induction c as [|[k' v'] c IH]; [done|].
  rewrite fmap_cons, !filter_cons. simpl.
  destruct (decide (k' <> k)); [rewrite fmap_cons; simpl|]; by rewrite <- IH.
Qed.

Lemma cache_remove_middle k k' v pre post :
  k <> k' ->
  cache_remove k' (pre ++ (k, v) :: post)
  = cache_remove k' pre ++ (k, v) :: cache_remove k' post.
Proof.
  intros Hne. unfold cache_remove.
  by rewrite filter_app, filter_cons, decide_True.
Qed.

Lemma cache_remove_length k c :
  k ∈ c.*1 -> (length (cache_remove k c) < length c)%nat.
Proof.
  intros ([k' v'] & -> & Hin)%list_elem_of_fmap.
  eapply length_filter_lt; [done|]. simpl. naive_solver.
Qed.

End Cache.

Section Staleness.
Context (k : string) (v : option redis_value).

(** One more lookup of another key keeps the invariant, with that key added
    to the recent ones. *)
Lemma tracks_step redis recent cache k' :
  k' <> k -> tracks k v recent cache ->
  tracks k v (recent ∪ {[k']}) (_get_aggregated_data redis k' cache).2.
Proof.
  intros Hne (Hnd & Hlen & Hk). unfold tracks, _get_aggregated_data.
  destruct (cache_lookup k' cache) as [v'|] eqn:Hlook; cbn [snd].
  - (* hit: the entry moves to the front *)
    assert (Hin : k' ∈ cache.*1).
    { apply dec_stable. intros Hn%cache_lookup_None. congruence. }
    pose proof (cache_remove_length _ _ Hin) as Hlt.
    assert (Hnd' : NoDup ((k', v') :: cache_remove k' cache).*1).
    { rewrite fmap_cons, cache_remove_keys. simpl. apply NoDup_cons. split.
      - rewrite list_elem_of_filter. naive_solver.
      - by apply NoDup_filter. }
    split_and!; [done|simpl; lia|].
    destruct (decide (size recent < maxsize)%nat) as [Hsz|Hsz].
    + destruct Hk as (pre & post & -> & <-).
      assert (Hset : list_to_set ((k', v') :: cache_remove k' pre).*1
                     =@{gset string} list_to_set pre.*1 ∪ {[k']}).
      { rewrite fmap_cons, cache_remove_keys. simpl. apply set_eq. intros x.
        rewrite elem_of_union, elem_of_singleton, elem_of_union, elem_of_singleton,
          !elem_of_list_to_set, list_elem_of_filter.
        destruct (decide (x = k')); naive_solver. }
      rewrite cache_remove_middle in * by done.
      case_decide as Hsz'.
      * exists ((k', v') :: cache_remove k' pre), (cache_remove k' post). done.
      * exfalso. rewrite <- Hset in Hsz'.
        rewrite (app_comm_cons _ _ (k', v')), fmap_app in Hnd'.
        apply NoDup_app in Hnd' as (Hnd1 & _ & _).
        rewrite size_list_to_set in Hsz' by done.
        rewrite length_fmap in Hsz'. unfold maxsize in *.
        rewrite !length_app in Hlt. rewrite length_app in Hlen.
        simpl in Hsz', Hlt, Hlen. lia.
    + rewrite decide_False.
      * rewrite fmap_cons, cache_remove_keys. simpl.
        rewrite not_elem_of_cons, list_elem_of_filter. naive_solver.
      * assert (size recent <= size (recent ∪ {[k']}))%nat
          by (apply subseteq_size; set_solver).
        lia.
  - (* miss: the result goes in front, the cache is cut to maxsize *)
    apply cache_lookup_None in Hlook.
    assert (Hnd' : NoDup (take maxsize ((k', fetch_aggregated_data redis k') :: cache)).*1).
    { rewrite fmap_take. eapply sublist_NoDup; [|apply sublist_take].
      rewrite fmap_cons. simpl. by apply NoDup_cons. }
    split_and!; [done|rewrite length_take; unfold maxsize; lia|].
    destruct (decide (size recent < maxsize)%nat) as [Hsz|Hsz].
    + destruct Hk as (pre & post & -> & <-).
      rewrite fmap_app in Hnd, Hlook. apply NoDup_app in Hnd as (Hnd1 & Hdisj & Hnd2).
      apply not_elem_of_app in Hlook as [Hl1 Hl2].
      rewrite size_list_to_set, length_fmap in Hsz by done.
      assert (Hsize : size (list_to_set pre.*1 ∪ {[k']} : gset string) = S (length pre)).
      { rewrite size_union, size_singleton, size_list_to_set, length_fmap by
          (done || (rewrite disjoint_singleton_r, elem_of_list_to_set; done)). lia. }
      rewrite Hsize. rewrite length_app in Hlen. simpl in Hlen.
      case_decide as Hsz'.
      * exists ((k', fetch_aggregated_data redis k') :: pre),
          (take (maxsize - S (S (length pre))) post).
        split.
        -- unfold maxsize in *. rewrite firstn_cons. simpl. f_equal.
           rewrite take_app_ge by lia.
           f_equal. destruct (127 - length pre)%nat as [|n] eqn:E; [lia|].
           rewrite firstn_cons. do 2 f_equal. lia.
        -- rewrite fmap_cons. simpl. set_solver.
      * assert (length pre = 127%nat) as Hp by (unfold maxsize in *; lia).
        unfold maxsize. rewrite firstn_cons, take_app_length' by done.
        rewrite fmap_cons. simpl. rewrite not_elem_of_cons. split; [done|].
        intros Hkin. eapply Hdisj; [done|]. rewrite fmap_cons. simpl. by left.
    + rewrite decide_False.
      * intros Hkin. apply Hk.
        rewrite fmap_take in Hkin.
        eapply elem_of_sublist in Hkin; [|apply sublist_take].
        rewrite fmap_cons in Hkin. simpl in Hkin.
        apply elem_of_cons in Hkin as [?|?]; [congruence|done].
      * assert (size recent <= size (recent ∪ {[k']}))%nat
          by (apply subseteq_size; set_solver).
        lia.
Qed.

Lemma tracks_lookups redis recent cache keys :
  k ∉ keys -> tracks k v recent cache ->
  tracks k v (recent ∪ list_to_set keys)
    (fold_left (fun c key => (_get_aggregated_data redis key c).2) keys cache).
Proof.
  revert recent cache. induction keys as [|k' keys IH]; intros recent cache Hk Ht; simpl.
  - by rewrite (right_id_L ∅ (∪)).
  - apply not_elem_of_cons in Hk as [Hne Hk].
    rewrite (assoc_L (∪)). apply IH; [done|]. by apply tracks_step.
Qed.

(** What the next lookup of [k] returns. *)
Lemma tracks_final redis recent cache :
  tracks k v recent cache ->
  (_get_aggregated_data redis k cache).1
  = if decide (size recent < maxsize)%nat then v else fetch_aggregated_data redis k.
Proof.
  intros (Hnd & _ & Hk). unfold _get_aggregated_data.
  destruct (decide (size recent < maxsize)%nat).
  - destruct Hk as (pre & post & -> & _).
    rewrite cache_lookup_middle; [done|].
    rewrite fmap_app, fmap_cons in Hnd. apply NoDup_app in Hnd as (_ & Hd & _).
    intros Hin. eapply Hd; [done|]. by left.
  - apply cache_lookup_None in Hk. by rewrite Hk.
Qed.

End Staleness.

(** A pre-aggregated query uses the cache as the sequence of lookups of its
    keys does. *)
Lemma scan_os_types_cache redis d os_types cache :
  (scan_os_types redis d os_types cache).2
  = fold_left (fun c key => (_get_aggregated_data redis key c).2)
      (map (fun os => Calendar.date_str d +:+ "_" +:+ os) os_types) cache.
Proof.
  revert cache. induction os_types as [|os rest IH]; intros cache; [done|].
  cbn [scan_os_types map fold_left].
  destruct (_get_aggregated_data _ _ cache) as [a c1] eqn:E1.
  specialize (IH c1). destruct (scan_os_types redis d rest c1) as [rs c2].
  simpl in *. by rewrite IH.
Qed.

Lemma scan_dates_cache redis n d os_types cache :
  (scan_dates redis n d os_types cache).2
  = fold_left (fun c key => (_get_aggregated_data redis key c).2)
      (keys_scanned n d os_types) cache.
Proof.
  revert d cache. induction n as [|n IH]; intros d cache; [done|].
  cbn [scan_dates keys_scanned]. rewrite fold_left_app, <- scan_os_types_cache.
  destruct (scan_os_types redis d os_types cache) as [rows c1]. cbn [snd].
  destruct (d =? Calendar.max_ordinal); [done|].
  specialize (IH (d + 1) c1).
  destruct (scan_dates redis n (d + 1) os_types c1) as [rest c2]. by simpl in *.
Qed.

(** Right after a lookup of [k], its entry is in front. *)
Lemma get_aggregated_data_tracks redis cache k :
  NoDup cache.*1 -> (length cache <= maxsize)%nat ->
  tracks k (_get_aggregated_data redis k cache).1 ∅ (_get_aggregated_data redis k cache).2.
Proof.
  intros Hnd Hlen. unfold tracks, _get_aggregated_data.
  destruct (cache_lookup k cache) as [v|] eqn:Hlook; cbn [fst snd].
  - assert (Hin : k ∈ cache.*1).
    { apply dec_stable. intros Hn%cache_lookup_None. congruence. }
    pose proof (cache_remove_length _ _ Hin) as Hlt.
    split_and!.
    + rewrite fmap_cons, cache_remove_keys. simpl. apply NoDup_cons. split.
      * rewrite list_elem_of_filter. naive_solver.
      * by apply NoDup_filter.
    + simpl. lia.
    + rewrite decide_True by (rewrite size_empty; unfold maxsize; lia).
      by exists [], (cache_remove k cache).
  - apply cache_lookup_None in Hlook. unfold maxsize in *. rewrite firstn_cons. split_and!.
    + rewrite fmap_cons, fmap_take. simpl. apply NoDup_cons. split.
      * intros Hin. eapply elem_of_sublist in Hin; [|apply sublist_take]. done.
      * eapply sublist_NoDup; [|apply sublist_take]. done.
    + simpl. rewrite length_take. lia.
    + rewrite decide_True by (rewrite size_empty; lia).
      by eexists [], _.
Qed.

Lemma tracks_run k v trace redis recent cache :
  k ∉ looked_up trace -> tracks k v recent cache ->
  tracks k v (recent ∪ list_to_set (looked_up trace)) (run trace (redis, cache)).2.
Proof.
  revert redis recent cache.
  induction trace as [|[k'|q|redis'] trace IH]; intros redis recent cache Hk Ht; simpl in *.
  - by rewrite (right_id_L ∅ (∪)).
  - apply not_elem_of_cons in Hk as [Hne Hk].
    rewrite (assoc_L (∪)). apply IH; [done|]. by apply tracks_step.
  - apply not_elem_of_app in Hk as [Hq Hk].
    rewrite list_to_set_app_L, (assoc_L (∪)). apply IH; [done|].
    unfold _execute_on_pre_aggregated. rewrite scan_dates_cache.
    by apply tracks_lookups.
  - by apply IH.
Qed.

(** A pre-aggregated query returns what the sequence of lookups of its keys
    finds, the empty results left out. *)
Lemma lookups_app redis keys1 keys2 cache :
  lookups redis (keys1 ++ keys2) cache
  = ((lookups redis keys1 cache).1 ++ (lookups redis keys2 (lookups redis keys1 cache).2).1,
     (lookups redis keys2 (lookups redis keys1 cache).2).2).
Proof.
  revert cache. induction keys1 as [|k keys1 IH]; intros cache; simpl.
  - by destruct (lookups redis keys2 cache).
  - by rewrite IH.
Qed.

Lemma lookups_cache redis keys cache :
  (lookups redis keys cache).2
  = fold_left (fun c key => (_get_aggregated_data redis key c).2) keys cache.
Proof. revert cache. induction keys as [|k keys IH]; intros cache; simpl; [done|apply IH]. Qed.

Lemma lookups_length redis keys cache :
  length (lookups redis keys cache).1 = length keys.
Proof. revert cache. induction keys as [|k keys IH]; intros cache; simpl; [done|by rewrite IH]. Qed.

Lemma scan_os_types_lookups redis d os_types cache :
  scan_os_types redis d os_types cache
  = let found :=
      lookups redis (map (fun os => Calendar.date_str d +:+ "_" +:+ os) os_types) cache in
    (Stored <$> omap (fun v => v) found.1, found.2).
Proof.
  revert cache. induction os_types as [|os rest IH]; intros cache; [done|].
  cbn [scan_os_types map lookups].
  destruct (_get_aggregated_data _ _ cache) as [a c1]. cbn [fst snd].
  rewrite IH. cbv zeta. cbn [fst snd]. by destruct a.
Qed.

Lemma scan_dates_lookups redis n d os_types cache :
  (n <> O -> d + Z.of_nat n <= Calendar.max_ordinal) ->
  scan_dates redis n d os_types cache
  = let found := lookups redis (keys_scanned n d os_types) cache in
    (Ok (Stored <$> omap (fun v => v) found.1), found.2).
Proof.
  revert d cache. induction n as [|n IH]; intros d cache Hd; [done|].
  cbn [scan_dates keys_scanned]. rewrite scan_os_types_lookups. cbv zeta.
  specialize (Hd ltac:(done)).
  destruct (Z.eqb_spec d Calendar.max_ordinal); [lia|].
  rewrite IH by lia. cbv zeta. rewrite lookups_app. cbn [fst snd mbind result_bind].
  by rewrite omap_app, fmap_app.
Qed.

Lemma execute_on_pre_aggregated_lookups redis q cache :
  Calendar.date_of (Calendar.wall (o_end_time q)) < Calendar.max_ordinal ->
  _execute_on_pre_aggregated redis q cache
  = let found := lookups redis (query_keys q) cache in
    (Ok (Stored <$> omap (fun v => v) found.1), found.2).
Proof.
  intros Hend. unfold _execute_on_pre_aggregated, query_keys.
  apply scan_dates_lookups. lia.
Qed.

(** C10. The cache holds at most 128 entries. A lookup of [k] that misses
    reads Redis under [agg_] + [k] and caches what it finds, the empty result
    included. Whatever happens then, other lookups, whole pre-aggregated
    queries, Redis being rewritten, the next lookup of [k] returns what the
    first one returned as long as fewer than 128 distinct other keys were
    looked up in between; once 128 were, the entry is gone and the lookup
    reads Redis as it is then. So does the next pre-aggregated query that has
    [k] among its keys: it returns the results of the lookups of its keys,
    in their order and without the empty ones, and the result for [k] is the
    one cached, not what Redis holds by then, as long as fewer than 128
    distinct other keys were looked up since the first lookup, the keys the
    query itself looks up before [k] included. *)
Theorem cached_rollup_outlives_store_updates
    (redis : gmap string redis_value) (cache : list (string * option redis_value))
    (k : string) (trace : list event) :
  NoDup cache.*1 -> (length cache <= maxsize)%nat ->
  k ∉ looked_up trace ->
  let first := _get_aggregated_data redis k cache in
  let later := run trace (redis, first.2) in
  maxsize = 128%nat
  /\ (cache_lookup k cache = None -> first.1 = redis !! ("agg_" +:+ k))
  /\ (_get_aggregated_data later.1 k later.2).1
     = (if decide (size (list_to_set (looked_up trace) : gset string) < 128)%nat
        then first.1
        else later.1 !! ("agg_" +:+ k))
  /\ (forall q before after,
        query_keys q = before ++ k :: after ->
        k ∉ before ->
        Calendar.date_of (Calendar.wall (o_end_time q)) < Calendar.max_ordinal ->
        let found := (lookups later.1 (query_keys q) later.2).1 in
        (_execute_on_pre_aggregated later.1 q later.2).1
        = Ok (Stored <$> omap (fun v => v) found)
        /\ length found = length (query_keys q)
        /\ found !! length before
           = Some (if decide (size (list_to_set (looked_up trace ++ before) : gset string)
                              < 128)%nat
                   then first.1
                   else later.1 !! ("agg_" +:+ k)))
  /\ NoDup later.2.*1 /\ (length later.2 <= 128)%nat.
Proof.
  intros Hnd Hlen Hk first later.
  pose proof (get_aggregated_data_tracks redis cache k Hnd Hlen) as Ht.
  apply (tracks_run _ _ trace redis) in Ht; [|done].
  rewrite (left_id_L ∅ (∪)) in Ht. fold first in Ht. fold later in Ht.
  split_and!.
  - reflexivity.
  - intros Hmiss. unfold first, _get_aggregated_data. by rewrite Hmiss.
  - by apply tracks_final.
  - intros q before after Hkeys Hbefore Hend found.
    rewrite execute_on_pre_aggregated_lookups by done. cbv zeta. cbn [fst].
    split; [done|]. split; [apply lookups_length|].
    subst found. rewrite Hkeys, lookups_app. cbn [fst lookups].
    rewrite lookup_app_r by (by rewrite lookups_length).
    rewrite lookups_length, Nat.sub_diag. cbn [lookup list_lookup]. f_equal.
    rewrite lookups_cache.
    pose proof (tracks_lookups k first.1 later.1 _ _ before Hbefore Ht) as Ht'.
    rewrite <- list_to_set_app_L in Ht'.
    by apply tracks_final.
  - apply Ht.
  - apply Ht.
Qed.

(** A key is looked up while it has no rollup; the rollup is written; the
    next lookup still returns the empty result, and so does a query of that
    day, whose three lookups all come back empty. *)
Lemma cached_rollup_outlives_store_updates_witness :
  let first := _get_aggregated_data ∅ "2024-01-01_linux" [] in
  let later := run Examples.stale_trace (∅, first.2) in
  first.1 = None
  /\ later.1 !! "agg_2024-01-01_linux" = Some (Rollup Examples.rollup_linux)
  /\ (_get_aggregated_data later.1 "2024-01-01_linux" later.2).1 = None
  /\ exists found,
       (_execute_on_pre_aggregated later.1 Examples.day_query later.2).1
       = Ok (Stored <$> omap (fun v => v) found)
       /\ length found = 3%nat
       /\ found !! 1%nat = Some None.
Proof.
  intros first later.
  assert (Hnd : NoDup ([] : list (string * option redis_value)).*1) by constructor.
  assert (Hlen : (length ([] : list (string * option redis_value)) <= maxsize)%nat)
    by (unfold maxsize; simpl; lia).
  assert (Hk : "2024-01-01_linux" ∉ looked_up Examples.stale_trace).
  { simpl. intros [Heq|Hin]%elem_of_cons; [discriminate|by apply elem_of_nil in Hin]. }
  destruct (cached_rollup_outlives_store_updates ∅ [] "2024-01-01_linux"
              Examples.stale_trace Hnd Hlen Hk) as (_ & _ & Hlater & Hquery & _).
  split; [reflexivity|]. split; [reflexivity|].
  fold first in Hlater. fold later in Hlater. split; [rewrite Hlater; reflexivity|].
  destruct (Hquery Examples.day_query ["2024-01-01_windows"] ["2024-01-01_mac"])
    as (Hrows & Hfound & Hstale).
  - vm_compute. reflexivity.
  - intros [Heq|Hin]%elem_of_cons; [discriminate|by apply elem_of_nil in Hin].
  - vm_compute. reflexivity.
  - eexists. split; [exact Hrows|]. split; [exact Hfound|exact Hstale].
Defined.

(** The same query on a cache that has not seen the key returns the rollup. *)
Example stale_and_fresh_query :
  let first := _get_aggregated_data ∅ "2024-01-01_linux" [] in
  let later := run Examples.stale_trace (∅, first.2) in
  (_execute_on_pre_aggregated later.1 Examples.day_query later.2).1 = Ok []
  /\ (_execute_on_pre_aggregated later.1 Examples.day_query []).1
     = Ok [Stored (Rollup Examples.rollup_linux)].
Proof. vm_compute. split; reflexivity. Qed.

(** A query scanning 127 other keys leaves the entry in the cache, one
    scanning 128 evicts it. *)
Example eviction_after_128_keys :
  let first := _get_aggregated_data ∅ "2024-01-01_linux" [] in
  let after (n : Z) :=
    run [StoreBecomes Examples.redis_linux; Query (Examples.span_query n)] (∅, first.2) in
  length (query_keys (Examples.span_query 127)) = 127%nat
  /\ (_get_aggregated_data (after 127).1 "2024-01-01_linux" (after 127).2).1 = None
  /\ length (query_keys (Examples.span_query 128)) = 128%nat
  /\ (_get_aggregated_data (after 128).1 "2024-01-01_linux" (after 128).2).1
     = Some (Rollup Examples.rollup_linux).
Proof. vm_compute. split_and!; reflexivity. Qed.

(** * Further properties *)

(** ** More on the Unix parser *)

Lemma split_char_absent (sep : ascii) (s : string) :
  sep ∉ list_ascii_of_string s -> PyStr.split_char sep s = [s].
Proof.
  induction s as [|c s IH]; simpl; [done|].
  intros Hn. destruct (Ascii.eqb c sep) eqn:E.
  - apply Ascii.eqb_eq in E. subst. exfalso. apply Hn. left.
  - rewrite IH; [done|]. intros Hin. apply Hn. by right.
Qed.

(** X1. A listing that, once stripped, has no line break (the empty text, a
    blank text, a header alone) has no data line after the header is
    dropped: [parse] raises the HTTP 400 of a format error. *)
Theorem unix_parse_single_line_rejected `{Runtime} (content : string) :
  "010"%char ∉ list_ascii_of_string (PyStr.strip content) ->
  UnixParser.parse content = Raise psaux_invalid.
Proof. intros Hn. unfold UnixParser.parse. by rewrite split_char_absent. Qed.

Lemma unix_parse_single_line_rejected_witness :
  ("010"%char ∉ list_ascii_of_string (PyStr.strip Examples.ps_header))
  /\ UnixParser.parse (H := Reference.runtime) Examples.ps_header = Raise psaux_invalid.
Proof.
  assert (Hn : "010"%char ∉ list_ascii_of_string (PyStr.strip Examples.ps_header)).
  { apply (bool_decide_unpack _). vm_compute. exact I. }
  split; [exact Hn|]. exact (unix_parse_single_line_rejected _ Hn).
Defined.

(** The pieces of a whitespace split hold no whitespace. *)
Lemma re_split_ws_from_no_space (b : bool) (s : string) :
  Forall (fun t => Forall (fun c => PyStr.isspace c = false) (list_ascii_of_string t))
    (PyStr.re_split_ws_from b s).
Proof.
  revert b. induction s as [|c s IH]; intros b; simpl.
  - repeat constructor.
  - destruct (PyStr.isspace c) eqn:Hc.
    + destruct b; [apply IH|]. constructor; [constructor|apply IH].
    + specialize (IH false). destruct (PyStr.re_split_ws_from false s) as [|t ts].
      * repeat constructor. done.
      * inversion IH; subst. constructor; [|done]. simpl. by constructor.
Qed.

Lemma split_tokens (s t : string) :
  t ∈ PyStr.split s ->
  t <> EmptyString /\ Forall (fun c => PyStr.isspace c = false) (list_ascii_of_string t).
Proof.
  unfold PyStr.split, PyStr.re_split_ws. intros [Hne Hin]%list_elem_of_filter.
  split; [done|].
  pose proof (re_split_ws_from_no_space false s) as Hall.
  rewrite Forall_forall in Hall. by apply Hall.
Qed.

(** X2. Every record the Unix parser returns has a command that is one
    token: not empty and free of whitespace. A process listed with its
    arguments never comes out of [parse]. The same holds for the user. *)
Theorem unix_records_single_token_command `{Runtime}
    (content : string) (records : list ProcessData) :
  UnixParser.parse content = Ok records ->
  Forall (fun r =>
            command r <> EmptyString
            /\ Forall (fun c => PyStr.isspace c = false) (list_ascii_of_string (command r))
            /\ user r <> EmptyString
            /\ Forall (fun c => PyStr.isspace c = false) (list_ascii_of_string (user r)))
    records.
Proof.
  unfold UnixParser.parse.
  destruct (tail _) as [|first rest]; [done|].
  destruct (PyStr.startswith first "USER"); cbn [negb]; [|done].
  intros Hok%collect_ok. generalize dependent (first :: rest). clear first rest.
  intros lines Hok. induction Hok as [|line r lines records Hr _ IH]; constructor; [|done].
  apply unix_parse_line_ok in Hr. cbn zeta in Hr.
  destruct Hr as (Hlen & Hu & _ & _ & _ & _ & _ & Hc).
  assert (Hin : forall i, (i < 11)%nat -> nth i (PyStr.split line) EmptyString ∈ PyStr.split line).
  { intros i Hi. apply list_elem_of_In, nth_In. lia. }
  rewrite Hc, Hu.
  destruct (split_tokens line _ (Hin 10%nat ltac:(lia))).
  destruct (split_tokens line _ (Hin 0%nat ltac:(lia))). done.
Qed.

Lemma unix_records_single_token_command_witness :
  exists record,
    UnixParser.parse (H := Reference.runtime) Examples.ps_listing_user = Ok [record]
    /\ command record <> EmptyString
    /\ Forall (fun c => PyStr.isspace c = false) (list_ascii_of_string (command record)).
Proof.
  eexists. split; [vm_compute; reflexivity|].
  pose proof (unix_records_single_token_command (H := Reference.runtime)
                Examples.ps_listing_user _ eq_refl) as Hall.
  apply Forall_inv in Hall. destruct Hall as (H1 & H2 & _). split; [exact H1|exact H2].
Defined.

(** X3. What the Unix parser makes of a line depends on its tokens only:
    leading and trailing whitespace and the width of the gaps between the
    columns do not matter. *)
Theorem unix_parse_line_reads_tokens `{Runtime} (line1 line2 : string) :
  PyStr.split line1 = PyStr.split line2 ->
  UnixParser.parse_line line1 = UnixParser.parse_line line2.
Proof.
  intros Heq. unfold UnixParser.parse_line. by rewrite !re_split_ws_strip, Heq.
Qed.

Lemma unix_parse_line_reads_tokens_witness :
  let padded :=
    "  USERX   7  0.5 0.1 1000  200 pts/0  S  10:00   0:01 python3  " in
  let plain := "USERX 7 0.5 0.1 1000 200 pts/0 S 10:00 0:01 python3" in
  PyStr.split padded = PyStr.split plain
  /\ UnixParser.parse_line (H := Reference.runtime) padded
     = UnixParser.parse_line (H := Reference.runtime) plain.
Proof.
  cbv zeta.
  assert (Heq : PyStr.split
                  "  USERX   7  0.5 0.1 1000  200 pts/0  S  10:00   0:01 python3  "
                = PyStr.split "USERX 7 0.5 0.1 1000 200 pts/0 S 10:00 0:01 python3").
  { vm_compute. reflexivity. }
  split; [exact Heq|]. exact (unix_parse_line_reads_tokens _ _ Heq).
Defined.

(** ** More on the Windows parser *)

Section WindowsColumns.
Import WindowsParser.

Lemma column_positions_from_ge (i : nat) (prev : bool) (s : string) (j : nat) :
  j ∈ column_positions_from i prev s -> (i <= j)%nat.
Proof.
  revert i prev. induction s as [|c s IH]; intros i prev; simpl.
  - by intros ?%elem_of_nil.
  - intros [Hin|Hin]%elem_of_app.
    + destruct (_ && _); [|by apply elem_of_nil in Hin].
      apply list_elem_of_singleton in Hin. lia.
    + apply IH in Hin. lia.
Qed.

Lemma column_positions_from_offset (i : nat) (prev : bool) (s : string) (d : nat) :
  (i + d)%nat ∈ column_positions_from i prev s
  <-> String.get d s = Some "="%char
      /\ match d with
         | O => prev = false
         | S d' => String.get d' s <> Some "="%char
         end.
Proof.
  revert i prev d. induction s as [|c s IH]; intros i prev d; simpl.
  - split; [by intros ?%elem_of_nil|]. intros [Hget _]. by destruct d.
  - rewrite elem_of_app. destruct d as [|d].
    + rewrite Nat.add_0_r. split.
      * intros [Hin|Hin]; [|apply column_positions_from_ge in Hin; lia].
        destruct (Ascii.eqb c "=") eqn:Hc; [|by apply elem_of_nil in Hin].
        apply Ascii.eqb_eq in Hc. subst c.
        destruct prev; [by apply elem_of_nil in Hin|done].
      * intros [[= ->] ->]. left. simpl. by left.
    + replace (i + S d)%nat with (S i + d)%nat by lia. rewrite IH. split.
      * intros [Hin|[Hget Hrun]].
        { destruct (_ && _); [|by apply elem_of_nil in Hin].
          apply list_elem_of_singleton in Hin. lia. }
        split; [done|]. destruct d as [|d]; [|done].
        intros [= ->]. by rewrite Ascii.eqb_refl in Hrun.
      * intros [Hget Hrun]. right. split; [done|]. destruct d as [|d]; [|done].
        destruct (Ascii.eqb c "=") eqn:Hc; [|done].
        apply Ascii.eqb_eq in Hc. by subst c.
Qed.

Lemma column_positions_from_sorted (i : nat) (prev : bool) (s : string) :
  StronglySorted lt (column_positions_from i prev s).
Proof.
  revert i prev. induction s as [|c s IH]; intros i prev; simpl; [constructor|].
  destruct (_ && _); simpl; [|apply IH].
  constructor; [apply IH|]. apply Forall_forall. intros j Hj.
  apply column_positions_from_ge in Hj. lia.
Qed.

(** X4. The column offsets read off the separator line are, in increasing
    order, exactly the offsets at which a run of [=] starts: the character
    there is [=] and the one before it, if any, is not. *)
Theorem column_positions_run_starts (separator : string) :
  StronglySorted lt (column_positions separator)
  /\ forall j, j ∈ column_positions separator
       <-> String.get j separator = Some "="%char
           /\ (j = O \/ String.get (j - 1) separator <> Some "="%char).
Proof.
  split; [apply column_positions_from_sorted|].
  intros j. unfold column_positions.
  rewrite <- (Nat.add_0_l j) at 1. rewrite column_positions_from_offset.
  destruct j as [|j]; simpl; [naive_solver|].
  rewrite Nat.sub_0_r. naive_solver.
Qed.

End WindowsColumns.

Section WindowsRecords.
Context `{Runtime}.
Import WindowsParser.

Lemma inner_fields_length (line : string) (cp : list nat) :
  length (inner_fields line cp) = (length cp - 1)%nat.
Proof.
  induction cp as [|a [|b cp] IH]; [done..|].
  change (inner_fields line (a :: b :: cp))
    with (PyStr.strip (PyStr.slice line a b) :: inner_fields line (b :: cp)).
  simpl in *. lia.
Qed.

(** A data line is cut into as many fields as the separator has columns. *)
Lemma line_fields_length (line : string) (cp : list nat) (fields : list string) :
  line_fields line cp = Ok fields -> length fields = length cp.
Proof.
  unfold line_fields. destruct (last cp) eqn:Hlast; run_result; [|done].
  destruct (PyStr.split _); [done|]. intros [= <-].
  rewrite length_app, inner_fields_length. simpl.
  destruct cp; [done|]. simpl. lia.
Qed.

Lemma line_fields_raises (line : string) (cp : list nat) (e : exn) :
  line_fields line cp = Raise e -> e = IndexError.
Proof.
  unfold line_fields. destruct (last cp); run_result; [|by intros [= <-]].
  destruct (PyStr.split _); [by intros [= <-]|done].
Qed.

Lemma parse_line_few_columns (cp : list nat) (line : string) :
  (length cp < 5)%nat -> parse_line cp line = Raise IndexError.
Proof.
  intros Hcp. unfold parse_line. field_positions.
  destruct (line_fields line cp) as [fields|e] eqn:Hf; run_result.
  - apply line_fields_length in Hf.
    destruct (nth_error fields 4) eqn:Hn; run_result; [|done].
    assert (nth_error fields 4 <> None) as Hn'%nth_error_Some by congruence. lia.
  - by rewrite (line_fields_raises _ _ _ Hf).
Qed.

(** X5. A tasklist whose separator line, the first line starting with [=] or
    else the first line, has fewer than five runs of [=] cannot be parsed
    when it has a data line: whatever the data lines hold, [parse] raises a
    bare [IndexError]. *)
Theorem windows_parse_needs_five_columns (content separator : string) :
  (Spec.windows_lines content).1 = Some separator ->
  (length (column_positions separator) < 5)%nat ->
  (Spec.windows_lines content).2 <> [] ->
  WindowsParser.parse content = Raise IndexError.
Proof.
  unfold Spec.windows_lines, parse. simpl. intros -> Hcp Hdata. run_result.
  destruct (skipn _ _) as [|line rest]; [done|]. simpl.
  by rewrite parse_line_few_columns.
Qed.

Lemma parse_line_constant_fields (cp : list nat) (line : string) (r : ProcessData) :
  parse_line cp line = Ok r ->
  id r = None /\ user r = "N/A" /\ cpu_usage r = 0%Q /\ vsz r = 0 /\ rss r = 0
  /\ stat r = "N/A" /\ start_time r = "N/A" /\ duration r = Some "N/A"
  /\ timestamp r = None /\ machine_name r = None /\ machine_id r = None
  /\ os_type r = None.
Proof.
  unfold parse_line.
  repeat (match goal with
          | |- context [mbind _ ?o] => destruct o; run_result
          end; [|done]).
  by intros [= <-].
Qed.

(** X6. When the Windows parser returns, it returns one record per line
    after the separator, and every record carries the constants the parser
    fills in for what a tasklist does not give: user, status, start time and
    duration are ["N/A"], cpu_usage, vsz and rss are 0. *)
Theorem windows_records_constant_fields (content : string) (records : list ProcessData) :
  WindowsParser.parse content = Ok records ->
  length records = length (Spec.windows_lines content).2
  /\ Forall (fun r =>
               user r = "N/A" /\ cpu_usage r = 0%Q /\ vsz r = 0 /\ rss r = 0
               /\ stat r = "N/A" /\ start_time r = "N/A" /\ duration r = Some "N/A")
       records.
Proof.
  unfold Spec.windows_lines, parse. simpl.
  destruct (nth_error _ _) as [separator|]; run_result; [|done].
  intros Hok%collect_ok. split; [symmetry; by eapply Forall2_length|].
  induction Hok as [|line r lines records Hr _ IH]; constructor; [|done].
  apply parse_line_constant_fields in Hr. naive_solver.
Qed.

End WindowsRecords.

Lemma windows_parse_needs_five_columns_witness :
  let listing :=
    "Image Name   PID" +:+ nl +:+ "============ ====" +:+ nl +:+ "chrome.exe  1234" in
  (Spec.windows_lines listing).1 = Some "============ ===="
  /\ WindowsParser.parse (H := Reference.runtime) listing = Raise IndexError.
Proof.
  cbv zeta. split; [vm_compute; reflexivity|].
  apply (windows_parse_needs_five_columns (H := Reference.runtime) _ "============ ====").
  - vm_compute. reflexivity.
  - vm_compute. lia.
  - vm_compute. discriminate.
Defined.

Lemma windows_records_constant_fields_witness :
  exists records,
    WindowsParser.parse (H := Reference.runtime) Examples.tasklist_two = Ok records
    /\ length records = 2%nat
    /\ Forall (fun r => user r = "N/A" /\ cpu_usage r = 0%Q) records.
Proof.
  eexists. split; [vm_compute; reflexivity|].
  destruct (windows_records_constant_fields (H := Reference.runtime)
              Examples.tasklist_two _ eq_refl) as [Hlen Hall].
  split; [exact Hlen|].
  eapply Forall_impl; [exact Hall|]. intros r (Hu & Hc & _). split; [exact Hu|exact Hc].
Defined.

(** ** Ingest and materialize, end to end *)

Section Pipeline.
Context `{Runtime}.

(** The outcomes of an ingest call: a failure leaves Redis as it was; a
    success went through the parser, found the four keys of [meta_info] and
    staged the parsed records, without their duration, under the batch id. *)
Lemma receive_and_parse_data_inv
    (now : Calendar.datetime) (data : IngestData) (redis : gmap string redis_value) :
  match receive_and_parse_data now data redis with
  | (Raise _, redis') => redis' = redis
  | (Ok (batch_id, n), redis') =>
      exists os raw parser records ts mn mi ot,
        in_os_type data = Some os /\ in_content data = Some raw
        /\ ParserFactory.get_parser os = Ok parser
        /\ ParserFactory.parse parser raw = Ok records
        /\ in_meta_info data !! "timestamp" = Some ts
        /\ in_meta_info data !! "machine_name" = Some mn
        /\ in_meta_info data !! "machine_id" = Some mi
        /\ in_meta_info data !! "os_type" = Some ot
        /\ batch_id = "batch_" +:+ Calendar.strftime_compact now
        /\ n = length records
        /\ redis' = <[batch_id := StagedBatch (mkMetaInfo ts mn mi ot) (map to_dict records)]>
                      redis
  end.
Proof.
  unfold receive_and_parse_data.
  destruct (in_os_type data) as [os|]; [|done].
  destruct (in_content data) as [raw|]; [|done].
  destruct (_ || _); [done|].
  destruct (ParserFactory.get_parser os) as [parser|] eqn:Hp; run_result; [|done].
  destruct (ParserFactory.parse parser raw) as [records|] eqn:Hr; [|done].
  unfold store_process_data_in_redis.
  destruct (in_meta_info data !! "timestamp") as [ts|] eqn:H1; run_result; [|done].
  destruct (in_meta_info data !! "machine_name") as [mn|] eqn:H2; run_result; [|done].
  destruct (in_meta_info data !! "machine_id") as [mi|] eqn:H3; run_result; [|done].
  destruct (in_meta_info data !! "os_type") as [ot|] eqn:H4; run_result; [|done].
  by eexists os, raw, parser, records, ts, mn, mi, ot.
Qed.

(** X7. An ingest call that raises, for a missing or empty field, an
    unsupported system, a listing the parser refuses or a key missing from
    [meta_info], has staged nothing: Redis is as it was before the call. *)
Theorem ingest_failure_stages_nothing
    (now : Calendar.datetime) (data : IngestData) (redis : gmap string redis_value)
    (e : exn) :
  (receive_and_parse_data now data redis).1 = Raise e ->
  (receive_and_parse_data now data redis).2 = redis.
Proof.
  pose proof (receive_and_parse_data_inv now data redis) as Hinv.
  destruct (receive_and_parse_data now data redis) as [[[batch_id n]|e'] redis'];
    simpl; [done|]. by intros _.
Qed.

(** X8. An ingest call that returns has staged exactly one entry: the key is
    [batch_] followed by the clock reading to the second, the entry holds as
    many records as the count returned, none of them with a duration, and
    every other key of Redis is as it was. *)
Theorem ingest_success_stages_one_batch
    (now : Calendar.datetime) (data : IngestData) (redis redis' : gmap string redis_value)
    (batch_id : string) (n : nat) :
  receive_and_parse_data now data redis = (Ok (batch_id, n), redis') ->
  batch_id = "batch_" +:+ Calendar.strftime_compact now
  /\ (exists meta records,
        redis' !! batch_id = Some (StagedBatch meta records)
        /\ length records = n
        /\ Forall (fun r => duration r = None) records)
  /\ (forall j, j <> batch_id -> redis' !! j = redis !! j).
Proof.
  intros Hcall. pose proof (receive_and_parse_data_inv now data redis) as Hinv.
  rewrite Hcall in Hinv.
  destruct Hinv as (os & raw & parser & records & ts & mn & mi & ot
                    & _ & _ & _ & _ & _ & _ & _ & _ & Hid & -> & ->).
  split_and!; [done| |].
  - eexists _, _. rewrite lookup_insert_eq. split_and!; [done|by rewrite length_map|].
    apply Forall_forall. intros r (p & -> & _)%list_elem_of_fmap. done.
  - intros j Hj. by rewrite lookup_insert_ne.
Qed.

(** X9. A batch staged with no record is never materialized and never
    removed: when an ingest call returns the count 0, the background step on
    its batch id changes neither Redis nor the table, and the staged entry
    stays. *)
Theorem empty_batch_stays_staged
    (now : Calendar.datetime) (data : IngestData) (redis redis' : gmap string redis_value)
    (next_id : Z) (batch_id : string) (db : list ProcessData) :
  receive_and_parse_data now data redis = (Ok (batch_id, 0%nat), redis') ->
  process_and_store_data next_id batch_id (redis', db) = (Ok tt, (redis', db))
  /\ is_Some (redis' !! batch_id).
Proof.
  intros Hcall. pose proof (receive_and_parse_data_inv now data redis) as Hinv.
  rewrite Hcall in Hinv.
  destruct Hinv as (os & raw & parser & records & ts & mn & mi & ot
                    & _ & _ & _ & _ & _ & _ & _ & _ & Hid & Hn & ->).
  symmetry in Hn. apply length_zero_iff_nil in Hn. subst records.
  unfold process_and_store_data. rewrite lookup_insert_eq. simpl. split; [done|by eexists].
Qed.

Lemma assign_ids_spec (next : Z) (rows : list ProcessData) :
  Forall2 (fun p r =>
             command r = command p /\ pid r = pid p /\ vsz r = vsz p /\ rss r = rss p
             /\ cpu_usage r = cpu_usage p /\ mem_usage r = mem_usage p
             /\ tty r = tty p /\ stat r = stat p /\ start_time r = start_time p
             /\ duration r = duration p /\ user r = user p
             /\ timestamp r = timestamp p /\ machine_name r = machine_name p
             /\ machine_id r = machine_id p /\ os_type r = os_type p)
    rows (assign_ids next rows).
Proof.
  revert next. induction rows as [|p rows IH]; intros next; simpl; constructor; [|done].
  by split_and!.
Qed.

Lemma assign_ids_length (next : Z) (rows : list ProcessData) :
  length (assign_ids next rows) = length rows.
Proof. symmetry. eapply Forall2_length, assign_ids_spec. Qed.

Lemma batch_key_not_rollup_key (a b : string) : "batch_" +:+ a <> "agg_" +:+ b.
Proof. cbv [String.append]. done. Qed.

(** X10. An ingest call followed by the background step on its batch id,
    when the call staged at least one record and the timestamp of
    [meta_info] is read as the instant [t]. If the insert of the staged
    records, merged with [meta_info], goes through, the step returns, the
    table keeps its rows and gains one row per parsed record, in order, with
    the listing fields of the record, the instant [t], and the machine name,
    machine id and system of [meta_info]; the duration the parser read is
    not among them. If the insert raises, Redis and the table are as the
    ingest call left them, and the exception leaves the step unless it is a
    [KeyError] or a [TypeError]. *)
Theorem ingest_then_process_appends_rows
    (now : Calendar.datetime) (data : IngestData) (redis redis' : gmap string redis_value)
    (next_id : Z) (batch_id : string) (n : nat) (db : list ProcessData)
    (t : Calendar.datetime) :
  receive_and_parse_data now data redis = (Ok (batch_id, n), redis') ->
  n <> 0%nat ->
  (in_meta_info data !! "timestamp") ≫= pd_to_datetime = Some t ->
  exists parser records meta,
    (exists os raw,
       in_os_type data = Some os /\ in_content data = Some raw
       /\ ParserFactory.get_parser os = Ok parser
       /\ ParserFactory.parse parser raw = Ok records)
    /\ redis' !! batch_id = Some (StagedBatch meta (map to_dict records))
    /\ let after := process_and_store_data next_id batch_id (redis', db) in
       match sql_insert_error (map (merge_meta meta) (map to_dict records)) with
       | Some e => after = (if caught e then Ok tt else Raise e, (redis', db))
       | None =>
           exists new,
             after.1 = Ok tt
             /\ after.2.2 = db ++ new
             /\ length new = n
             /\ Forall2 (fun p r =>
                           command r = command p /\ pid r = pid p /\ user r = user p
                           /\ cpu_usage r = cpu_usage p /\ mem_usage r = mem_usage p
                           /\ vsz r = vsz p /\ rss r = rss p /\ tty r = tty p
                           /\ stat r = stat p /\ start_time r = start_time p
                           /\ duration r = None
                           /\ timestamp r = Some t
                           /\ machine_name r = in_meta_info data !! "machine_name"
                           /\ machine_id r = in_meta_info data !! "machine_id"
                           /\ os_type r = in_meta_info data !! "os_type")
                  records new
       end.
Proof.
  intros Hcall Hn Ht. pose proof (receive_and_parse_data_inv now data redis) as Hinv.
  rewrite Hcall in Hinv.
  destruct Hinv as (os & raw & parser & records & ts & mn & mi & ot
                    & Hos & Hraw & Hp & Hr & Hts & Hmn & Hmi & Hot & Hid & -> & ->).
  rewrite Hts in Ht. simpl in Ht.
  set (meta := mkMetaInfo ts mn mi ot).
  exists parser, records, meta.
  split; [by exists os, raw|]. split; [by rewrite lookup_insert_eq|].
  rewrite (process_and_store_data_staged next_id batch_id meta (map to_dict records));
    [|by rewrite lookup_insert_eq|by destruct records].
  cbv zeta.
  destruct (sql_insert_error (map (merge_meta meta) (map to_dict records))) as [e|]; [done|].
  cbn [fst snd].
  eexists. split_and!; [reflexivity|reflexivity| |].
  - by rewrite assign_ids_length, !length_map.
  - rewrite !map_map.
    pose proof (assign_ids_spec next_id
                  (map (fun x => merge_meta meta (to_dict x)) records)) as Hids.
    apply Forall2_fmap_l in Hids. eapply Forall2_impl; [exact Hids|].
    intros p r Hpr. simpl in Hpr. rewrite Hmn, Hmi, Hot, <- Ht. naive_solver.
Qed.

(** X11. The same two steps, seen from Redis, when the insert goes through:
    the staged entry is gone, one rollup has been written, under [agg_] +
    the day of [t] + [_] + the system named in [meta_info] (not the one the
    parser was chosen by), and every other key is as it was before the
    ingest call. When the insert raises, Redis is as the ingest call left
    it: no rollup is written and the batch stays staged. *)
Theorem ingest_then_process_writes_one_rollup
    (now : Calendar.datetime) (data : IngestData) (redis redis' : gmap string redis_value)
    (next_id : Z) (batch_id : string) (n : nat) (db : list ProcessData)
    (t : Calendar.datetime) (ot : string) :
  receive_and_parse_data now data redis = (Ok (batch_id, n), redis') ->
  n <> 0%nat ->
  (in_meta_info data !! "timestamp") ≫= pd_to_datetime = Some t ->
  in_meta_info data !! "os_type" = Some ot ->
  let key := Calendar.date_str (Calendar.date_of t) +:+ "_" +:+ ot in
  let after := (process_and_store_data next_id batch_id (redis', db)).2.1 in
  exists meta staged,
    redis' !! batch_id = Some (StagedBatch meta staged)
    /\ length staged = n
    /\ match sql_insert_error (map (merge_meta meta) staged) with
       | Some _ => after = redis'
       | None =>
           after !! batch_id = None
           /\ after !! ("agg_" +:+ key)
              = Some (Rollup (aggregate (map (merge_meta meta) staged)))
           /\ (forall j, j <> batch_id -> j <> "agg_" +:+ key -> after !! j = redis !! j)
       end.
Proof.
  intros Hcall Hn Ht Hot' key after.
  pose proof (receive_and_parse_data_inv now data redis) as Hinv.
  rewrite Hcall in Hinv.
  destruct Hinv as (os & raw & parser & records & ts & mn & mi & ot0
                    & Hos & Hraw & Hp & Hr & Hts & Hmn & Hmi & Hot & Hid & -> & ->).
  rewrite Hts in Ht. simpl in Ht. rewrite Hot' in Hot. injection Hot as <-.
  set (meta := mkMetaInfo ts mn mi ot).
  set (rows := map (merge_meta meta) (map to_dict records)).
  assert (Hkeys : forall p, p ∈ rows -> partition_key p = key).
  { intros p (q & -> & _)%list_elem_of_fmap.
    unfold partition_key, merge_meta. cbn [timestamp os_type meta_timestamp meta_os_type meta].
    by rewrite Ht. }
  assert (Hrows : rows <> []) by (subst rows; by destruct records).
  assert (Hin : key ∈ map fst (map (fun p => (partition_key p, p)) rows)).
  { destruct rows as [|p rows'] eqn:Erows; [done|]. simpl.
    rewrite (Hkeys p) by (by left). by left. }
  exists meta, (map to_dict records).
  split; [by rewrite lookup_insert_eq|]. split; [by rewrite length_map|].
  subst after.
  rewrite (process_and_store_data_staged next_id batch_id meta (map to_dict records));
    [|by rewrite lookup_insert_eq|by destruct records].
  cbv zeta. fold rows.
  destruct (sql_insert_error rows) as [e|]; [done|].
  cbn [fst snd]. split_and!.
  - by rewrite lookup_delete_eq.
  - rewrite lookup_delete_ne by (rewrite Hid; apply batch_key_not_rollup_key).
    rewrite update_redis_aggregations_lookup by done.
    by rewrite group_single_key.
  - intros j Hj Hagg. rewrite lookup_delete_ne by done.
    rewrite update_redis_aggregations_other; [by rewrite lookup_insert_ne|].
    intros k Hk. rewrite map_map in Hk. simpl in Hk.
    apply list_elem_of_fmap in Hk as (p & -> & Hp').
    by rewrite (Hkeys p).
Qed.

(** X12. In the rollup of a group of rows that is not empty, the process
    count, the number of distinct commands, lies between 1 and the number of
    rows, and each of the two top lists has ten entries, or as many as there
    are rows when these are fewer. *)
Theorem rollup_counts_bounded (rows : list ProcessData) :
  rows <> [] ->
  1 <= process_count (aggregate rows) <= Z.of_nat (length rows)
  /\ length (top_cpu_processes (aggregate rows)) = Nat.min 10 (length rows)
  /\ length (top_memory_processes (aggregate rows)) = Nat.min 10 (length rows).
Proof.
  intros Hne. unfold aggregate, nlargest. cbn [process_count top_cpu_processes top_memory_processes].
  rewrite !length_map, !length_take.
  rewrite !(Permutation_length (py_sorted_perm _ rows)).
  split; [|done].
  assert (Hle : forall l : list string, (length (fromkeys l) <= length l)%nat).
  { induction l as [|x l IH]; [done|]. rewrite fromkeys_cons. simpl.
    pose proof (length_filter (fun y => y <> x) (fromkeys l)). lia. }
  specialize (Hle (map command rows)). rewrite length_map in Hle.
  destruct rows as [|p rows]; [done|]. simpl map in *. rewrite fromkeys_cons in *.
  simpl in *. lia.
Qed.

End Pipeline.

Lemma ingest_failure_stages_nothing_witness :
  let call :=
    receive_and_parse_data (H := Reference.runtime) Examples.noon_early
      (mkIngestData (Some "solaris") (Some Examples.ps_listing_user) (Examples.meta "m1"))
      Examples.redis_linux in
  call.1 = Raise (ValueError "Unsupported OS type: solaris")
  /\ call.2 = Examples.redis_linux.
Proof.
  cbv zeta. split; [vm_compute; reflexivity|].
  eapply (ingest_failure_stages_nothing (H := Reference.runtime)). vm_compute. reflexivity.
Defined.

Lemma ingest_success_stages_one_batch_witness :
  let call :=
    receive_and_parse_data (H := Reference.runtime) Examples.noon_early
      (Examples.ingest "m1" Examples.tasklist_one) Examples.redis_linux in
  call.1 = Ok ("batch_20240229120000", 1%nat)
  /\ call.2 !! "agg_2024-01-01_linux" = Examples.redis_linux !! "agg_2024-01-01_linux".
Proof.
  intros call. split; [vm_compute; reflexivity|].
  refine (proj2 (proj2 (ingest_success_stages_one_batch (H := Reference.runtime)
                          Examples.noon_early (Examples.ingest "m1" Examples.tasklist_one)
                          Examples.redis_linux call.2 "batch_20240229120000" 1%nat _)) _ _).
  - vm_compute. reflexivity.
  - discriminate.
Defined.

Lemma empty_batch_stays_staged_witness :
  let call :=
    receive_and_parse_data (H := Reference.runtime) Examples.noon_early
      (Examples.ingest "m1" Examples.tasklist_header) ∅ in
  call.1 = Ok ("batch_20240229120000", 0%nat)
  /\ process_and_store_data (H := Reference.runtime) 1 "batch_20240229120000" (call.2, [])
     = (Ok tt, (call.2, [])).
Proof.
  intros call. split; [vm_compute; reflexivity|].
  refine (proj1 (empty_batch_stays_staged (H := Reference.runtime)
                   Examples.noon_early (Examples.ingest "m1" Examples.tasklist_header)
                   ∅ call.2 1 "batch_20240229120000" [] _)).
  vm_compute. reflexivity.
Defined.

Lemma ingest_then_process_appends_rows_witness :
  let call :=
    receive_and_parse_data (H := Reference.runtime) Examples.noon_early
      (Examples.ingest "m1" Examples.tasklist_two) ∅ in
  let after :=
    process_and_store_data (H := Reference.runtime) 1 "batch_20240229120000" (call.2, []) in
  exists new, after.1 = Ok tt /\ after.2.2 = new /\ length new = 2%nat.
Proof.
  intros call after.
  assert (Hcall : receive_and_parse_data (H := Reference.runtime) Examples.noon_early
                    (Examples.ingest "m1" Examples.tasklist_two) ∅
                  = (Ok ("batch_20240229120000", 2%nat), call.2))
    by (vm_compute; reflexivity).
  assert (Ht : (DataOrganizer.in_meta_info (Examples.ingest "m1" Examples.tasklist_two)
                  !! "timestamp") ≫= pd_to_datetime (Runtime := Reference.runtime)
               = Some (Calendar.at_time 738945 12 0 0 0))
    by (vm_compute; reflexivity).
  destruct (ingest_then_process_appends_rows (H := Reference.runtime)
              Examples.noon_early (Examples.ingest "m1" Examples.tasklist_two)
              ∅ call.2 1 "batch_20240229120000" 2%nat [] (Calendar.at_time 738945 12 0 0 0)
              Hcall ltac:(lia) Ht)
    as (parser & records & meta & _ & Hstaged & Hafter).
  cbv zeta in Hafter. remember (map to_dict records) as staged eqn:Hrecords.
  vm_compute in Hstaged. injection Hstaged as <- <-.
  match type of Hafter with
  | context [sql_insert_error ?rows] =>
      assert (Hinsert : sql_insert_error (Runtime := Reference.runtime) rows = None)
        by (vm_compute; reflexivity)
  end.
  rewrite Hinsert in Hafter.
  destruct Hafter as (new & Hok & Hdb & Hlen & _).
  exists new. split; [exact Hok|]. split; [exact Hdb|exact Hlen].
Defined.

Lemma ingest_then_process_writes_one_rollup_witness :
  let call :=
    receive_and_parse_data (H := Reference.runtime) Examples.noon_early
      (Examples.ingest "m1" Examples.tasklist_two) Examples.redis_linux in
  let after :=
    (process_and_store_data (H := Reference.runtime) 1 "batch_20240229120000"
       (call.2, [])).2.1 in
  after !! "batch_20240229120000" = None
  /\ is_Some (after !! "agg_2024-02-29_windows")
  /\ after !! "agg_2024-01-01_linux" = Some (Rollup Examples.rollup_linux).
Proof.
  intros call after.
  assert (Hcall : receive_and_parse_data (H := Reference.runtime) Examples.noon_early
                    (Examples.ingest "m1" Examples.tasklist_two) Examples.redis_linux
                  = (Ok ("batch_20240229120000", 2%nat), call.2))
    by (vm_compute; reflexivity).
  assert (Ht : (DataOrganizer.in_meta_info (Examples.ingest "m1" Examples.tasklist_two)
                  !! "timestamp") ≫= pd_to_datetime (Runtime := Reference.runtime)
               = Some (Calendar.at_time 738945 12 0 0 0))
    by (vm_compute; reflexivity).
  assert (Hos : DataOrganizer.in_meta_info (Examples.ingest "m1" Examples.tasklist_two)
                  !! "os_type" = Some "windows")
    by (vm_compute; reflexivity).
  destruct (ingest_then_process_writes_one_rollup (H := Reference.runtime)
              Examples.noon_early (Examples.ingest "m1" Examples.tasklist_two)
              Examples.redis_linux call.2 1 "batch_20240229120000" 2%nat []
              (Calendar.at_time 738945 12 0 0 0) "windows" Hcall ltac:(lia) Ht Hos)
    as (meta & staged & Hstaged & _ & Hafter).
  vm_compute in Hstaged. injection Hstaged as <- <-.
  match type of Hafter with
  | context [sql_insert_error ?rows] =>
      assert (Hinsert : sql_insert_error (Runtime := Reference.runtime) rows = None)
        by (vm_compute; reflexivity)
  end.
  rewrite Hinsert in Hafter. destruct Hafter as (Hgone & Hrollup & Hframe).
  split_and!.
  - exact Hgone.
  - eexists. exact Hrollup.
  - subst after. rewrite (Hframe "agg_2024-01-01_linux"); [reflexivity|discriminate|].
    vm_compute. discriminate.
Defined.

Lemma rollup_counts_bounded_witness :
  1 <= process_count (aggregate [Examples.idle_row]) <= 1
  /\ length (top_cpu_processes (aggregate [Examples.idle_row])) = 1%nat.
Proof.
  destruct (rollup_counts_bounded [Examples.idle_row] ltac:(discriminate)) as (Hc & Ht & _).
  split; [exact Hc|exact Ht].
Defined.

(** ** More on the optimize stage *)

(** X13. The time window after the optimize stage. Whenever the stage
    returns, the two bounds are of one kind, both naive or both aware; the
    end is the later of the two bounds given, by their instants (a missing
    start counts as 30 days before now, a missing end as now, both naive);
    the start is the earlier one, or 365 days before the end if that is
    later; so the window is never reversed and never longer than 365 days.
    The stage raises [TypeError] when one bound is naive and the other
    aware. For a query with naive bounds and an offset that is not null it
    returns, with naive bounds. *)
Theorem optimize_time_window (now : Calendar.datetime) (a : Analyzed) :
  let start0 := default (Calendar.naive (now - Calendar.days 30)) (a_start_time a) in
  let end0 := default (Calendar.naive now) (a_end_time a) in
  (forall q,
     _optimize_query now a = Ok q ->
     (Calendar.utcoffset (o_start_time q) = None <-> Calendar.utcoffset (o_end_time q) = None)
     /\ (o_end_time q = start0 \/ o_end_time q = end0)
     /\ Spec.instant (o_end_time q) = Z.max (Spec.instant start0) (Spec.instant end0)
     /\ Spec.instant (o_start_time q)
        = Z.max (Z.min (Spec.instant start0) (Spec.instant end0))
            (Spec.instant (o_end_time q) - Calendar.days 365)
     /\ Spec.instant (o_start_time q) <= Spec.instant (o_end_time q)
     /\ Spec.instant (o_end_time q) - Spec.instant (o_start_time q) <= Calendar.days 365)
  /\ (Calendar.days 31 <= now ->
      (Calendar.utcoffset start0 = None <-> Calendar.utcoffset end0 <> None) ->
      _optimize_query now a = Raise TypeError)
  /\ (Spec.naive_window now a ->
      a_offset a <> None ->
      exists q,
        _optimize_query now a = Ok q
        /\ o_end_time q
           = Calendar.naive (Z.max (Calendar.wall start0) (Calendar.wall end0))
        /\ o_start_time q
           = Calendar.naive
               (Z.max (Z.min (Calendar.wall start0) (Calendar.wall end0))
                  (Z.max (Calendar.wall start0) (Calendar.wall end0) - Calendar.days 365))).
Proof.
  intros start0 end0. split_and!.
  - intros q (o & _ & Hr & _)%optimize_query_inv.
    apply time_range_inv in Hr as (Hkind & Hle & Hlen & s0 & e0 & -> & -> & Hend & He & Hs).
    by split_and!.
  - intros Hnow Hmix. unfold _optimize_query.
    by rewrite time_range_mixed.
  - intros Hwin Ho.
    destruct (a_offset a) as [o|] eqn:Hoff; [clear Ho|done].
    pose proof (time_range_naive now a Hwin) as Hr. cbv zeta in Hr.
    destruct (optimize_query_returns now a _ _ o Hr Hoff) as [q Hq].
    exists q. split; [done|].
    apply optimize_query_inv in Hq as (_ & _ & Hr' & _).
    rewrite Hr in Hr'. injection Hr' as <- <-.
    subst start0 end0. by destruct (a_start_time a), (a_end_time a).
Qed.

Lemma optimize_time_window_witness :
  exists q,
    _optimize_query Examples.noon_late
      (_analyze_query
         (mkQueryParams Absent (Value (Calendar.naive Examples.noon_early))
            (Value (Calendar.naive Examples.day))
            Absent Absent Absent Absent Absent Absent Absent Absent Absent)) = Ok q
    /\ o_start_time q = Calendar.naive Examples.day
    /\ o_end_time q = Calendar.naive Examples.noon_early.
Proof.
  destruct (optimize_time_window Examples.noon_late
              (_analyze_query
                 (mkQueryParams Absent (Value (Calendar.naive Examples.noon_early))
                    (Value (Calendar.naive Examples.day))
                    Absent Absent Absent Absent Absent Absent Absent Absent Absent)))
    as (_ & _ & Hreturns).
  destruct Hreturns as (q & Hq & Hend & Hstart).
  - split_and!.
    + vm_compute. discriminate.
    + intros t [= <-]. split; [reflexivity|vm_compute; discriminate].
    + intros t [= <-]. split; [reflexivity|vm_compute; discriminate].
  - discriminate.
  - exists q. split; [exact Hq|]. split; [exact Hstart|exact Hend].
Defined.

Lemma filter_all {A} (P : A -> Prop) `{!forall x, Decision (P x)} (l : list A) :
  Forall P l -> filter P l = l.
Proof.
  induction 1 as [|x l Hx _ IH]; [done|]. by rewrite filter_cons, decide_True, IH.
Qed.

Lemma fromkeys_NoDup (l : list string) :
  NoDup l -> fromkeys l = l.
Proof.
  induction 1 as [|x l Hx _ IH]; [done|].
  rewrite fromkeys_cons, IH. f_equal. apply filter_all.
  apply Forall_forall. intros y Hy ->. done.
Qed.

Lemma py_sorted_of_sorted {A} (leb : A -> A -> bool) (l : list A) :
  StronglySorted (fun a b => leb a b = true) l -> py_sorted leb l = l.
Proof.
  induction 1 as [|x l _ IH Hx]; [done|]. simpl. rewrite IH.
  destruct Hx as [|y l Hy _]; [done|]. simpl. by rewrite Hy.
Qed.

(** X14. [_optimize_aggregations] is idempotent: the list it returns has no
    duplicate and is in priority order, so optimizing it again changes
    nothing. *)
Theorem optimize_aggregations_idempotent (aggregations : list string) :
  _optimize_aggregations (_optimize_aggregations aggregations)
  = _optimize_aggregations aggregations.
Proof.
  unfold _optimize_aggregations.
  set (leb := fun a b => (priority a <=? priority b)%nat).
  rewrite (fromkeys_NoDup (py_sorted leb (fromkeys aggregations))).
  - apply py_sorted_of_sorted, py_sorted_sorted.
    + intros a b. unfold leb. rewrite !Nat.leb_le. lia.
    + intros a b c. unfold leb. rewrite !Nat.leb_le. lia.
  - rewrite py_sorted_perm. apply NoDup_fromkeys.
Qed.

(** ** More on source selection *)

Lemma select_data_source_names (q1 q2 : Optimized) :
  o_type q1 = o_type q2 ->
  (forall x, x ∈ default [] (o_aggregations q1) <-> x ∈ default [] (o_aggregations q2)) ->
  _select_data_source q1 = _select_data_source q2.
Proof.
  intros Ht Hnames.
  rewrite <- (planned_source_unique q2 (_select_data_source q1)); [done|].
  pose proof (select_data_source_planned q1) as Hplan.
  destruct Hplan as [q Hrt|q Hrt Ha|q aggs Hrt Ha Hne Hall|q aggs Hrt Ha (x & Hin & Hnot)].
  - apply Spec.plan_real_time. by rewrite <- Ht.
  - apply Spec.plan_no_aggregations; [by rewrite <- Ht|].
    rewrite Ha in Hnames. destruct (default [] (o_aggregations q2)) as [|y l]; [done|].
    exfalso. eapply elem_of_nil, Hnames. by left.
  - rewrite Ha in Hnames. simpl in Hnames.
    destruct (o_aggregations q2) as [aggs2|] eqn:Ha2; simpl in Hnames.
    + eapply Spec.plan_pre_aggregated; [by rewrite <- Ht|done| |].
      * intros ->. destruct aggs as [|y l]; [done|]. eapply elem_of_nil, Hnames. by left.
      * intros y Hy. apply Hall, Hnames, Hy.
    + destruct aggs as [|y l]; [done|]. exfalso. eapply elem_of_nil, Hnames. by left.
  - rewrite Ha in Hnames. simpl in Hnames.
    destruct (o_aggregations q2) as [aggs2|] eqn:Ha2; simpl in Hnames.
    + eapply Spec.plan_other; [by rewrite <- Ht|done|].
      exists x. split; [by apply Hnames|done].
    + exfalso. eapply elem_of_nil, Hnames, Hin.
Qed.

(** X15. The optimize stage never changes which source a query goes to: the
    source selected for the optimized query is the one the type and the
    aggregation list would select as they came in. Removing duplicates and
    reordering the names does not matter to the selection. *)
Theorem optimization_keeps_source
    (now : Calendar.datetime) (a : Analyzed) (q q0 : Optimized) :
  _optimize_query now a = Ok q ->
  o_type q0 = a_type a ->
  o_aggregations q0 = a_aggregations a ->
  _select_data_source q = _select_data_source q0.
Proof.
  intros Hq Ht Ha.
  apply optimize_query_inv in Hq as (o & _ & _ & _ & _ & Haggs & Hty & _).
  apply select_data_source_names.
  - by rewrite Hty, Ht.
  - rewrite Haggs, Ha. destruct (a_aggregations a) as [[|y l]|]; [done| |done].
    intros x. simpl. unfold _optimize_aggregations.
    rewrite (py_sorted_perm _ (fromkeys (y :: l))). apply elem_of_fromkeys.
Qed.

Lemma optimization_keeps_source_witness :
  exists q,
    _optimize_query Examples.noon_late
      (_analyze_query
         (mkQueryParams Absent Absent Absent Absent Absent Absent Absent Absent Absent Absent
            (Value ["process_count"; "total_cpu_usage"; "process_count"]) Absent)) = Ok q
    /\ o_aggregations q = Some ["process_count"; "total_cpu_usage"]
    /\ _select_data_source q = "pre_aggregated_store".
Proof.
  eexists. split; [vm_compute; reflexivity|]. split; [reflexivity|].
  etransitivity; [|reflexivity].
  eapply (optimization_keeps_source Examples.noon_late
            (_analyze_query
               (mkQueryParams Absent Absent Absent Absent Absent Absent Absent Absent Absent
                  Absent (Value ["process_count"; "total_cpu_usage"; "process_count"]) Absent))
            _
            (mkOptimized (Some "historical") (Calendar.naive 0) (Calendar.naive 0)
               None None None None None 100 0
               (Some ["process_count"; "total_cpu_usage"; "process_count"]) (Some [])
               (mkFilters None None None None None))); [vm_compute; reflexivity|reflexivity..].
Defined.

(** ** What the execute stage reads *)

(** X16. Of the [filters] mapping the optimize stage builds, the execute
    stage reads the os_type alone: replacing the mapping by any other with
    the same os_type, whatever its machine_id, command and floored
    thresholds, gives the same result and the same cache on every source. *)
Theorem filters_read_for_os_type_only `{Runtime}
    (redis : gmap string redis_value) (db : list ProcessData) (q : Optimized)
    (machine_id_ command_ : option string) (cpu_usage_gt_ memory_usage_gt_ : option Q)
    (data_source : string) (cache : list (string * option redis_value)) :
  _execute_optimized_query redis db
    (mkOptimized (o_type q) (o_start_time q) (o_end_time q) (o_os_type q) (o_machine_id q)
       (o_command q) (o_cpu_usage_gt q) (o_memory_usage_gt q) (o_limit q) (o_offset q)
       (o_aggregations q) (o_group_by q)
       (mkFilters (f_os_type (o_filters q)) machine_id_ command_
          cpu_usage_gt_ memory_usage_gt_))
    data_source cache
  = _execute_optimized_query redis db q data_source cache.
Proof. by destruct q as [??????????? ? []]. Qed.

(** ** More on the pre-aggregated path *)

Section Coherence.
Context (redis : gmap string redis_value).

Lemma cache_lookup_Some {V} (k : string) (v : V) (cache : list (string * V)) :
  cache_lookup k cache = Some v -> (k, v) ∈ cache.
Proof.
  unfold cache_lookup. destruct (find _ cache) as [[k' v']|] eqn:Hfind; [|done].
  intros [= <-]. apply find_some in Hfind as [Hin Hk].
  apply bool_decide_eq_true in Hk. simpl in Hk. subst k'. by apply list_elem_of_In.
Qed.

Lemma get_aggregated_data_agrees (k : string) (cache : list (string * option redis_value)) :
  agrees_with redis cache ->
  (_get_aggregated_data redis k cache).1 = redis !! ("agg_" +:+ k)
  /\ agrees_with redis (_get_aggregated_data redis k cache).2.
Proof.
  unfold agrees_with. intros Hc. unfold _get_aggregated_data, fetch_aggregated_data.
  destruct (cache_lookup k cache) as [v|] eqn:Hlook; cbn [fst snd].
  - apply cache_lookup_Some in Hlook.
    rewrite Forall_forall in Hc. pose proof (Hc _ Hlook) as Hv. simpl in Hv.
    split; [done|]. apply Forall_cons. split; [done|].
    apply Forall_forall. intros e [_ He]%list_elem_of_filter. by apply Hc.
  - split; [done|]. apply Forall_take. by apply Forall_cons.
Qed.

Lemma scan_os_types_agrees (d : Calendar.date) (os_types : list string)
    (cache : list (string * option redis_value)) :
  agrees_with redis cache ->
  (scan_os_types redis d os_types cache).1
  = omap (fun k => Stored <$> redis !! ("agg_" +:+ k))
      (map (fun os => Calendar.date_str d +:+ "_" +:+ os) os_types)
  /\ agrees_with redis (scan_os_types redis d os_types cache).2.
Proof.
  revert cache. induction os_types as [|os rest IH]; intros cache Hc; [done|].
  cbn [scan_os_types map omap].
  destruct (get_aggregated_data_agrees (Calendar.date_str d +:+ "_" +:+ os) cache Hc)
    as [Hv Hc1].
  destruct (_get_aggregated_data _ _ cache) as [a c1]. cbn [fst snd] in *.
  destruct (IH c1 Hc1) as [Hrows Hc2].
  destruct (scan_os_types redis d rest c1) as [rs c2]. cbn [fst snd] in *.
  subst a rs. split; [|done]. simpl. by destruct (redis !! _).
Qed.

Lemma scan_dates_agrees (n : nat) (d : Calendar.date) (os_types : list string)
    (cache : list (string * option redis_value)) :
  agrees_with redis cache ->
  (n <> O -> d + Z.of_nat n <= Calendar.max_ordinal) ->
  (scan_dates redis n d os_types cache).1
  = Ok (omap (fun k => Stored <$> redis !! ("agg_" +:+ k)) (keys_scanned n d os_types))
  /\ agrees_with redis (scan_dates redis n d os_types cache).2.
Proof.
  revert d cache. induction n as [|n IH]; intros d cache Hc Hd; [done|].
  cbn [scan_dates keys_scanned].
  destruct (scan_os_types_agrees d os_types cache Hc) as [Hrows Hc1].
  destruct (scan_os_types redis d os_types cache) as [rows c1]. cbn [fst snd] in *.
  specialize (Hd ltac:(done)).
  destruct (Z.eqb_spec d Calendar.max_ordinal); [lia|].
  destruct (IH (d + 1) c1 Hc1) as [Hrest Hc2]; [lia|].
  destruct (scan_dates redis n (d + 1) os_types c1) as [rest c2]. cbn [fst snd] in *.
  rewrite Hrest. run_result. by rewrite omap_app, Hrows.
Qed.

(** X17. A pre-aggregated query on a cache that agrees with Redis, as an
    empty cache does, and whose window ends before 9999-12-31: it returns,
    in the order of the scan, the rollups Redis holds now under the keys it
    looks up, skipping the keys that have none, and it leaves a cache that
    agrees with Redis. *)
Theorem pre_aggregated_reads_current_rollups
    (q : Optimized) (cache : list (string * option redis_value)) :
  agrees_with redis cache ->
  Calendar.date_of (Calendar.wall (o_end_time q)) < Calendar.max_ordinal ->
  (_execute_on_pre_aggregated redis q cache).1
  = Ok (omap (fun k => Stored <$> redis !! ("agg_" +:+ k)) (query_keys q))
  /\ agrees_with redis (_execute_on_pre_aggregated redis q cache).2.
Proof.
  intros Hc Hend. unfold _execute_on_pre_aggregated, query_keys.
  apply scan_dates_agrees; [done|]. lia.
Qed.

Lemma scan_dates_overflow (n : nat) (d : Calendar.date) (os_types : list string)
    (cache : list (string * option redis_value)) :
  n <> O -> d + Z.of_nat n = Calendar.max_ordinal + 1 ->
  (scan_dates redis n d os_types cache).1 = Raise OverflowError.
Proof.
  revert d cache. induction n as [|n IH]; intros d cache Hn Hd; [done|].
  cbn [scan_dates].
  destruct (scan_os_types redis d os_types cache) as [rows c1].
  destruct (Z.eqb_spec d Calendar.max_ordinal); [done|].
  specialize (IH (d + 1) c1).
  destruct (scan_dates redis n (d + 1) os_types c1) as [rest c2]. cbn [fst snd] in *.
  rewrite IH; [done| |lia]. intros ->. simpl in Hd. lia.
Qed.

(** X18. A pre-aggregated query whose window ends on 9999-12-31, the last
    day a date can hold, fails: after the last day is scanned the loop steps
    to the next day, which raises [OverflowError]. *)
Theorem pre_aggregated_overflows_on_last_day
    (q : Optimized) (cache : list (string * option redis_value)) :
  Calendar.date_of (Calendar.wall (o_start_time q))
  <= Calendar.date_of (Calendar.wall (o_end_time q)) ->
  Calendar.date_of (Calendar.wall (o_end_time q)) = Calendar.max_ordinal ->
  (_execute_on_pre_aggregated redis q cache).1 = Raise OverflowError.
Proof.
  intros Hle Hend. unfold _execute_on_pre_aggregated.
  apply scan_dates_overflow; lia.
Qed.

End Coherence.

Lemma keys_scanned_spec (n : nat) (d : Calendar.date) (os_types : list string) (k : string) :
  k ∈ keys_scanned n d os_types ->
  exists d' os,
    k = Calendar.date_str d' +:+ "_" +:+ os
    /\ d <= d' < d + Z.of_nat n /\ os ∈ os_types.
Proof.
  revert d. induction n as [|n IH]; intros d; simpl; [by intros ?%elem_of_nil|].
  intros [Hk|Hk]%elem_of_app.
  - apply list_elem_of_fmap in Hk as (os & -> & Hos). exists d, os. split_and!; [done|lia..|done].
  - destruct (d =? Calendar.max_ordinal); [by apply elem_of_nil in Hk|].
    apply IH in Hk as (d' & os & -> & Hd & Hos). exists d', os. split_and!; [done|lia..|done].
Qed.

Lemma elem_of_chars (os v : string) :
  os ∈ chars v -> exists c, os = String c EmptyString /\ c ∈ list_ascii_of_string v.
Proof.
  induction v as [|c v IH]; simpl; [by intros ?%elem_of_nil|].
  intros [->|Hin]%elem_of_cons.
  - exists c. split; [done|by left].
  - destruct (IH Hin) as (c' & -> & Hc'). exists c'. split; [done|by right].
Qed.

(** X19. The keys a pre-aggregated query looks up, which are all it puts in
    the cache: each is a day of the window, an underscore and a tag; without
    an os_type filter the tag is windows, linux or mac, with a filter it is
    one character of the filter value. No other key is ever read, so a
    rollup under any other tag is out of reach of this path. *)
Theorem pre_aggregated_lookups_within_window `{Runtime}
    (redis : gmap string redis_value) (q : Optimized)
    (cache : list (string * option redis_value)) :
  (_execute_on_pre_aggregated redis q cache).2
  = fold_left (fun c key => (_get_aggregated_data redis key c).2) (query_keys q) cache
  /\ forall k, k ∈ query_keys q ->
       exists d os,
         k = Calendar.date_str d +:+ "_" +:+ os
         /\ Calendar.date_of (Calendar.wall (o_start_time q)) <= d
            <= Calendar.date_of (Calendar.wall (o_end_time q))
         /\ match f_os_type (o_filters q) with
            | None => os ∈ ["windows"; "linux"; "mac"]
            | Some v => exists c, os = String c EmptyString /\ c ∈ list_ascii_of_string v
            end.
Proof.
  split; [apply scan_dates_cache|].
  intros k (d & os & -> & Hd & Hos)%keys_scanned_spec. exists d, os.
  split_and!; [done|lia..|].
  unfold os_types_iterated in Hos. destruct (f_os_type (o_filters q)); [|done].
  by apply elem_of_chars.
Qed.

Lemma pre_aggregated_reads_current_rollups_witness :
  (_execute_on_pre_aggregated Examples.redis_linux (Examples.span_query 2) []).1
  = Ok (omap (fun k => Stored <$> Examples.redis_linux !! ("agg_" +:+ k))
          (query_keys (Examples.span_query 2))).
Proof.
  refine (proj1 (pre_aggregated_reads_current_rollups Examples.redis_linux
                   (Examples.span_query 2) [] _ _)).
  - constructor.
  - vm_compute. reflexivity.
Defined.

Lemma pre_aggregated_overflows_on_last_day_witness :
  let last_day := Calendar.at_time Calendar.max_ordinal 0 0 0 0 in
  (_execute_on_pre_aggregated ∅
     (mkOptimized None (Calendar.naive Examples.day) (Calendar.naive last_day)
        None None None None None 100 0
        (Some ["process_count"]) None (mkFilters None None None None None)) []).1
  = Raise OverflowError.
Proof.
  cbv zeta. apply pre_aggregated_overflows_on_last_day.
  - vm_compute. discriminate.
  - vm_compute. reflexivity.
Defined.

(** ** More on the SQL path *)

Section Sql.
Context `{Runtime}.

Lemma execute_on_sql_length (q : Optimized) (db : list ProcessData) (rows : list result_row) :
  _execute_on_sql q db = Ok rows -> (length rows <= Z.to_nat (o_limit q))%nat.
Proof.
  unfold _execute_on_sql.
  match goal with |- context [mbind _ ?o] => destruct o as [selected|]; run_result; [|done] end.
  destruct (_ <? _); [done|]. intros [= <-]. rewrite length_take. lia.
Qed.

(** X20. A query that goes to the SQL store with a limit that is not
    negative returns at most 1000 records, and no more than its limit,
    however many rows match and whatever limit was asked for; the count it
    reports is the number of records returned, not of rows matching. *)
Theorem sql_store_count_capped
    (now : Calendar.datetime) (redis : gmap string redis_value) (db : list ProcessData)
    (query_params : QueryParams) (cache : list (string * option redis_value))
    (q : Optimized) (n : nat) (rows : list result_row) :
  _optimize_query now (_analyze_query query_params) = Ok q ->
  _select_data_source q = "sql_store" ->
  0 <= o_limit q ->
  (execute_query now redis db query_params cache).1 = Ok (n, rows) ->
  n = length rows
  /\ (n <= 1000)%nat
  /\ Z.of_nat n <= o_limit q.
Proof.
  intros Hq Hs Hpos. unfold execute_query. rewrite Hq, Hs.
  unfold _execute_optimized_query.
  rewrite bool_decide_eq_false_2, bool_decide_eq_true_2 by done.
  destruct (_execute_on_sql q db) as [rows'|] eqn:Hsql; run_result; [|done].
  cbn [fst]. intros [= <- <-]. apply execute_on_sql_length in Hsql.
  assert (Hl : o_limit q <= 1000).
  { apply optimize_query_inv in Hq as (o & _ & _ & Hl & _). lia. }
  lia.
Qed.

(** X21. The records of a plain query, one with no aggregation and no
    grouping, on the SQL path: each is the [to_dict] of a row of the table
    whose timestamp is set and lies in the window, ends included, whose
    cpu_usage and mem_usage are above the thresholds supplied, and whose
    os_type and machine_id equal the filters that are not empty. The
    timestamp is compared with a naive bound as it is, and with an aware
    bound as the instant the database reads it as. *)
Theorem sql_plain_query_sound
    (q : Optimized) (db : list ProcessData) (rows : list result_row) :
  default [] (o_aggregations q) = [] ->
  default [] (o_group_by q) = [] ->
  _execute_on_sql q db = Ok rows ->
  Forall (fun r =>
               exists p t,
                 r = FullRecord (to_dict p) /\ p ∈ db
                 /\ timestamp p = Some t
                 /\ match Calendar.utcoffset (o_start_time q) with
                    | None => Calendar.wall (o_start_time q) <= t
                    | Some offset =>
                        Calendar.wall (o_start_time q) - offset <= sql_timestamptz t
                    end
                 /\ match Calendar.utcoffset (o_end_time q) with
                    | None => t <= Calendar.wall (o_end_time q)
                    | Some offset =>
                        sql_timestamptz t <= Calendar.wall (o_end_time q) - offset
                    end
                 /\ (forall x, o_cpu_usage_gt q = Some x -> (x < cpu_usage p)%Q)
                 /\ (forall x, o_memory_usage_gt q = Some x -> (x < mem_usage p)%Q)
                 /\ (forall v, o_os_type q = Some v -> v <> EmptyString -> os_type p = Some v)
                 /\ (forall v, o_machine_id q = Some v -> v <> EmptyString ->
                     machine_id p = Some v))
       rows.
Proof.
  intros Ha Hg Hsql.
  unfold _execute_on_sql in Hsql. rewrite Ha, Hg in Hsql.
  rewrite filter_nil in Hsql. run_result.
  destruct (_ <? _); [done|]. injection Hsql as <-.
  apply Forall_take, Forall_drop, Forall_fmap, Forall_forall.
  intros p [Hw Hp]%list_elem_of_filter. simpl.
  unfold where_clause in Hw.
  apply andb_prop_elim in Hw as [Hw Hmem]. apply andb_prop_elim in Hw as [Hw Hcpu].
  apply andb_prop_elim in Hw as [Hw _]. apply andb_prop_elim in Hw as [Hw Hmid].
  apply andb_prop_elim in Hw as [Hw Hos].
  destruct (timestamp p) as [t|] eqn:Hts; [|done].
  apply andb_prop_elim in Hw as [Hfrom Hto].
  assert (Habove : forall x y : Q, Is_true (negb (Qle_bool y x)) -> (x < y)%Q).
  { intros x y Hxy. apply Qnot_le_lt. intros Hle%Qle_bool_iff.
    rewrite Hle in Hxy. done. }
  exists p, t. split_and!; [done|done|done| | | | | |].
  - unfold not_before in Hfrom.
    destruct (Calendar.utcoffset (o_start_time q)); by apply Is_true_true, Z.leb_le in Hfrom.
  - unfold not_after in Hto.
    destruct (Calendar.utcoffset (o_end_time q)); by apply Is_true_true, Z.leb_le in Hto.
  - intros x Hx. rewrite Hx in Hcpu. by apply Habove.
  - intros x Hx. rewrite Hx in Hmem. by apply Habove.
  - intros v Hv Hne. rewrite Hv in Hos. destruct v; [done|].
    by apply bool_decide_unpack in Hos.
  - intros v Hv Hne. rewrite Hv in Hmid. destruct v; [done|].
    by apply bool_decide_unpack in Hmid.
Qed.

End Sql.

Lemma sql_store_count_capped_witness :
  exists n rows,
    (execute_query (H := Reference.runtime) Examples.noon_late ∅ [Examples.idle_row]
       (Examples.cpu_query (-5)) []).1 = Ok (n, rows)
    /\ (n <= 1000)%nat.
Proof.
  eexists _, _. split; [vm_compute; reflexivity|].
  refine (proj1 (proj2 (sql_store_count_capped (H := Reference.runtime) Examples.noon_late ∅
                          [Examples.idle_row] (Examples.cpu_query (-5)) [] _ _ _ _ _ _ _))).
  - reflexivity.
  - reflexivity.
  - vm_compute. discriminate.
  - vm_compute. reflexivity.
Defined.

Lemma sql_plain_query_sound_witness :
  exists q rows,
    _optimize_query Examples.noon_late (_analyze_query (Examples.cpu_query (-5))) = Ok q
    /\ _execute_on_sql (H := Reference.runtime) q [Examples.idle_row] = Ok rows
    /\ Forall (fun r => exists p, r = FullRecord (to_dict p) /\ p ∈ [Examples.idle_row]) rows.
Proof.
  eexists _, _. split; [reflexivity|].
  match goal with
  | |- _execute_on_sql ?q ?db = Ok ?rows /\ _ =>
      assert (Hsql : _execute_on_sql (H := Reference.runtime) q db = Ok rows)
        by (vm_compute; reflexivity);
      split; [exact Hsql|];
      pose proof (sql_plain_query_sound (H := Reference.runtime) q db rows eq_refl eq_refl Hsql)
        as Hall
  end.
  eapply Forall_impl; [exact Hall|].
  intros r (p & t & Hr & Hp & _). exists p. split; [exact Hr|exact Hp].
Defined.

(** ** Aggregation names on the SQL path *)

Lemma split_char_app (sep : ascii) (t s : string) :
  sep ∉ list_ascii_of_string t ->
  PyStr.split_char sep (t +:+ String sep s) = t :: PyStr.split_char sep s.
Proof.
  induction t as [|c t IH].
  - intros _. change (EmptyString +:+ String sep s) with (String sep s).
    cbn [PyStr.split_char]. by rewrite Ascii.eqb_refl.
  - intros Hn. change (String c t +:+ String sep s) with (String c (t +:+ String sep s)).
    cbn [PyStr.split_char list_ascii_of_string] in *.
    destruct (Ascii.eqb c sep) eqn:Hc.
    + apply Ascii.eqb_eq in Hc. subst c. exfalso. apply Hn. by left.
    + rewrite IH; [done|]. intros Hin. apply Hn. by right.
Qed.

(** Joining the pieces of a split with the separator gives the text back. *)
Lemma join_split_char (sep : ascii) (s : string) :
  PyStr.join (String sep EmptyString) (PyStr.split_char sep s) = s.
Proof.
  induction s as [|c s IH]; [done|]. cbn [PyStr.split_char].
  pose proof (split_char_nonempty sep s) as Hne.
  destruct (Ascii.eqb c sep) eqn:Hc.
  - apply Ascii.eqb_eq in Hc. subst c.
    destruct (PyStr.split_char sep s) as [|t ts]; [done|].
    change (PyStr.join (String sep EmptyString) (EmptyString :: t :: ts))
      with (EmptyString +:+ String sep EmptyString
            +:+ PyStr.join (String sep EmptyString) (t :: ts)).
    rewrite IH. done.
  - destruct (PyStr.split_char sep s) as [|t ts]; [done|].
    destruct ts as [|t' ts].
    + simpl in *. by rewrite IH.
    + change (PyStr.join (String sep EmptyString) (String c t :: t' :: ts))
        with (String c t +:+ String sep EmptyString
              +:+ PyStr.join (String sep EmptyString) (t' :: ts)).
      change (PyStr.join (String sep EmptyString) (t :: t' :: ts))
        with (t +:+ String sep EmptyString
              +:+ PyStr.join (String sep EmptyString) (t' :: ts)) in IH.
      rewrite <- IH. done.
Qed.

(** X22. An aggregation name made of a function name without underscore, an
    underscore and a column of the table selects that function of that
    column, labelled with the whole name; a function name that is none of
    avg, max, min, sum, count silently selects the average. *)
Theorem aggregate_entity_of_name `{Runtime} (agg_type column : string) :
  "_"%char ∉ list_ascii_of_string agg_type ->
  column ∈ columns ->
  aggregate_entity (agg_type +:+ "_" +:+ column)
  = Some (EAggregate
            (if decide (agg_type = "max") then FMax
             else if decide (agg_type = "min") then FMin
             else if decide (agg_type = "sum") then FSum
             else if decide (agg_type = "count") then FCount
             else FAvg)
            column (agg_type +:+ "_" +:+ column)).
Proof.
  intros Hn Hcol. unfold aggregate_entity.
  change (agg_type +:+ "_" +:+ column) with (agg_type +:+ String "_" column).
  rewrite split_char_app by done.
  pose proof (split_char_nonempty "_" column) as Hne.
  pose proof (join_split_char "_" column) as Hjoin.
  destruct (PyStr.split_char "_" column) as [|t ts]; [done|].
  rewrite Hjoin. rewrite decide_True by (by left).
  unfold _get_aggregation_func, agg_map. do 2 f_equal.
  repeat case_decide; subst; try done.
  cbn [find fst snd]. by repeat case_bool_decide.
Qed.

Lemma aggregate_entity_of_name_witness :
  aggregate_entity (H := Reference.runtime) "total_cpu_usage"
  = Some (EAggregate FAvg "cpu_usage" "total_cpu_usage").
Proof.
  refine (aggregate_entity_of_name (H := Reference.runtime) "total" "cpu_usage" _ _).
  - apply (bool_decide_unpack _). vm_compute. exact I.
  - apply (bool_decide_unpack _). vm_compute. exact I.
Defined.

(** ** The endpoints *)

Section Endpoints.
Context `{Runtime} (str : exn -> string).

(** X23. The two outcomes of the ingest endpoint. When it answers, it has
    staged one batch, added one background task, for that batch, and
    reports the number of records staged. When it fails, the answer is an
    HTTP 500 whose detail is the text of the exception underneath, also
    when that is the HTTP 400 of the Unix parser, and nothing is staged. *)
Theorem ingest_endpoint_outcomes
    (now : Calendar.datetime) (data : Api.IngestDataRequest)
    (redis : gmap string redis_value) :
  match Api.ingest_data str now data redis with
  | (Ok (response, tasks), redis') =>
      exists batch_id meta records,
        tasks = [batch_id]
        /\ redis' !! batch_id = Some (StagedBatch meta records)
        /\ Api.records_processed response = length records
        /\ forall j, j <> batch_id -> redis' !! j = redis !! j
  | (Raise e, redis') =>
      redis' = redis
      /\ exists cause,
           (receive_and_parse_data now (Api.dict data) redis).1 = Raise cause
           /\ e = HTTPException 500 (str cause)
  end.
Proof.
  unfold Api.ingest_data.
  pose proof (receive_and_parse_data_inv now (Api.dict data) redis) as Hinv.
  destruct (receive_and_parse_data now (Api.dict data) redis) as [[[batch_id n]|e] redis'].
  - destruct Hinv as (os & raw & parser & parsed & ts & mn & mi & ot
                      & _ & _ & _ & _ & _ & _ & _ & _ & _ & -> & ->).
    eexists batch_id, _, _. rewrite lookup_insert_eq.
    split_and!; [done|done|by rewrite length_map|].
    intros j Hj. by rewrite lookup_insert_ne.
  - split; [done|]. by exists e.
Qed.

(** X24. A query of type [real_time] sent to the query endpoint is always
    answered with an HTTP 500, whatever its other fields, and leaves the
    cache as it was: either the optimize stage raises, and the detail is the
    text of its exception, or it returns, the raw data store is selected,
    and the detail is the text of the [NotImplementedError] that executing
    on it raises. *)
Theorem real_time_query_answers_500
    (now : Calendar.datetime) (redis : gmap string redis_value) (db : list ProcessData)
    (query_params : Api.QueryParams) (cache : list (string * option redis_value)) :
  Api.type query_params = Some "real_time" ->
  exists cause,
    Api.query_data str now redis db query_params cache
    = (Raise (HTTPException 500 (str cause)), cache)
    /\ match _optimize_query now (_analyze_query (Api.model_dump query_params)) with
       | Ok _ => exists msg, cause = NotImplementedError msg
       | Raise e => cause = e
       end.
Proof.
  intros Ht. unfold Api.query_data, execute_query.
  destruct (_optimize_query now (_analyze_query (Api.model_dump query_params)))
    as [q|e] eqn:Hq.
  - assert (Hty : o_type q = Some "real_time").
    { apply optimize_query_inv in Hq as (o & _ & _ & _ & _ & _ & -> & _).
      simpl. by rewrite Ht. }
    unfold _select_data_source. rewrite bool_decide_eq_true_2 by done.
    eexists. split; [reflexivity|]. by eexists.
  - by exists e.
Qed.

End Endpoints.

Lemma real_time_query_answers_500_witness :
  exists detail,
    (Api.query_data (H := Reference.runtime) (fun _ => "error") Examples.noon_late ∅ []
       (Api.mkQueryParams None None None (Some "real_time") None None None None
          (Some 100) (Some 0) None) []).1
    = Raise (HTTPException 500 detail).
Proof.
  destruct (real_time_query_answers_500 (H := Reference.runtime) (fun _ => "error")
              Examples.noon_late ∅ []
              (Api.mkQueryParams None None None (Some "real_time") None None None None
                 (Some 100) (Some 0) None) [] eq_refl) as (cause & Hq & _).
  eexists. rewrite Hq. reflexivity.
Defined.

(** ** The parser factory *)

(** X25. The parser is chosen by the os_type without regard to letter
    case: two spellings with the same lower-case form get the same parser,
    or are both refused with a [ValueError]. *)
Theorem get_parser_ignores_case (os_type1 os_type2 : string) :
  PyStr.lower os_type1 = PyStr.lower os_type2 ->
  match ParserFactory.get_parser os_type1, ParserFactory.get_parser os_type2 with
  | Ok parser1, Ok parser2 => parser1 = parser2
  | Raise (ValueError _), Raise (ValueError _) => True
  | _, _ => False
  end.
Proof.
  intros Heq. unfold ParserFactory.get_parser. rewrite Heq.
  by repeat case_bool_decide.
Qed.

Lemma get_parser_ignores_case_witness :
  ParserFactory.get_parser "LiNuX" = Ok ParserFactory.Unix
  /\ match ParserFactory.get_parser "LiNuX", ParserFactory.get_parser "linux" with
     | Ok parser1, Ok parser2 => parser1 = parser2
     | _, _ => False
     end.
Proof.
  split; [reflexivity|].
  pose proof (get_parser_ignores_case "LiNuX" "linux" eq_refl) as Hcase.
  exact Hcase.
Defined.

(** ** The background step, run again *)

(** X26. The background step is idempotent: running it a second time on
    the same batch id changes nothing and ends as the first run did, since
    the first run, when it materialized the batch, removed it from Redis,
    and, when the insert raised, left everything as it was. No row is
    inserted twice. *)
Theorem process_and_store_data_idempotent `{Runtime}
    (next_id next_id' : Z) (batch_id : string)
    (st : gmap string redis_value * list ProcessData) :
  process_and_store_data next_id' batch_id (process_and_store_data next_id batch_id st).2
  = process_and_store_data next_id batch_id st.
Proof.
  destruct st as [redis db].
  assert (Hnop : forall n,
            match redis !! batch_id with
            | Some (StagedBatch _ (_ :: _)) => False
            | _ => True
            end ->
            process_and_store_data n batch_id (redis, db) = (Ok tt, (redis, db))).
  { intros n. unfold process_and_store_data.
    by destruct (redis !! batch_id) as [[meta [|r records]|a]|]. }
  destruct (redis !! batch_id) as [[meta records|a]|] eqn:Hb; cbn [fst snd] in Hnop.
  - destruct records as [|r records].
    + rewrite (Hnop next_id) by done. cbn [snd]. by apply Hnop.
    + rewrite (process_and_store_data_staged next_id batch_id meta (r :: records) redis db)
        by done.
      cbv zeta.
      destruct (sql_insert_error (map (merge_meta meta) (r :: records))) as [e|] eqn:He.
      * cbn [snd].
        rewrite (process_and_store_data_staged next_id' batch_id meta (r :: records) redis db)
          by done.
        cbv zeta. by rewrite He.
      * cbn [snd]. unfold process_and_store_data at 1. by rewrite lookup_delete_eq.
  - rewrite (Hnop next_id) by done. cbn [snd]. by apply Hnop.
  - rewrite (Hnop next_id) by done. cbn [snd]. by apply Hnop.
Qed.

(** ** From a rollup written to a rollup read *)

Lemma elem_of_keys_scanned (n : nat) (d d' : Calendar.date) (os_types : list string)
    (os : string) :
  d <= d' < d + Z.of_nat n -> d + Z.of_nat n <= Calendar.max_ordinal ->
  os ∈ os_types ->
  Calendar.date_str d' +:+ "_" +:+ os ∈ keys_scanned n d os_types.
Proof.
  revert d. induction n as [|n IH]; intros d Hd Hmax Hos; [lia|].
  simpl. apply elem_of_app.
  destruct (decide (d' = d)) as [->|Hne].
  - left. by apply (list_elem_of_fmap_2 (fun os => Calendar.date_str d +:+ "_" +:+ os)).
  - right. destruct (Z.eqb_spec d Calendar.max_ordinal); [lia|].
    apply IH; [lia..|done].
Qed.

(** X27. What a materialized batch writes, a query finds: a rollup that
    Redis holds under [agg_] + the day of an instant [t] + [_] + one of the
    tags windows, linux, mac is among the results of every pre-aggregated
    query without os_type filter whose window contains [t], by the readings
    of its two bounds, and ends before 9999-12-31, when the cache agrees with
    Redis, as an empty cache does. *)
Theorem written_rollup_is_found
    (redis : gmap string redis_value) (q : Optimized)
    (cache : list (string * option redis_value))
    (t : Calendar.datetime) (tag : string) (a : Aggregated) :
  redis !! ("agg_" +:+ Calendar.date_str (Calendar.date_of t) +:+ "_" +:+ tag)
    = Some (Rollup a) ->
  tag ∈ ["windows"; "linux"; "mac"] ->
  f_os_type (o_filters q) = None ->
  Calendar.wall (o_start_time q) <= t <= Calendar.wall (o_end_time q) ->
  Calendar.date_of (Calendar.wall (o_end_time q)) < Calendar.max_ordinal ->
  agrees_with redis cache ->
  exists rows,
    (_execute_on_pre_aggregated redis q cache).1 = Ok rows
    /\ Stored (Rollup a) ∈ rows.
Proof.
  intros Hroll Htag Hfilter Ht Hend Hcache.
  assert (Hdays : Calendar.date_of (Calendar.wall (o_start_time q)) <= Calendar.date_of t
                  <= Calendar.date_of (Calendar.wall (o_end_time q))).
  { unfold Calendar.date_of. split; apply Z.div_le_mono; try lia; by vm_compute. }
  unfold _execute_on_pre_aggregated.
  destruct (scan_dates_agrees redis
              (Z.to_nat (Calendar.date_of (Calendar.wall (o_end_time q))
                         - Calendar.date_of (Calendar.wall (o_start_time q)) + 1))
              (Calendar.date_of (Calendar.wall (o_start_time q)))
              (os_types_iterated (o_filters q)) cache Hcache) as [Hrows _]; [lia|].
  rewrite Hrows. eexists. split; [reflexivity|].
  apply list_elem_of_omap.
  exists (Calendar.date_str (Calendar.date_of t) +:+ "_" +:+ tag).
  split; [|by rewrite Hroll].
  apply elem_of_keys_scanned; [lia..|].
  unfold os_types_iterated. by rewrite Hfilter.
Qed.

Lemma written_rollup_is_found_witness :
  exists rows,
    (_execute_on_pre_aggregated Examples.redis_linux
       (mkOptimized None (Calendar.naive Examples.day)
          (Calendar.naive (Examples.day + Calendar.days 1)) None None None None
          None 100 0 (Some ["process_count"]) None (mkFilters None None None None None))
       []).1 = Ok rows
    /\ Stored (Rollup Examples.rollup_linux) ∈ rows.
Proof.
  apply (written_rollup_is_found Examples.redis_linux _ [] Examples.day "linux").
  - vm_compute. reflexivity.
  - apply (bool_decide_unpack _). vm_compute. exact I.
  - reflexivity.
  - vm_compute. split; discriminate.
  - vm_compute. reflexivity.
  - constructor.
Defined.

(** ** A worked instance of [unix_parse_ok] *)

Lemma unix_parse_ok_witness :
  exists records,
    UnixParser.parse (H := Reference.runtime) Examples.ps_listing_user = Ok records
    /\ length records = 1%nat.
Proof.
  destruct (UnixParser.parse (H := Reference.runtime) Examples.ps_listing_user)
    as [records|e] eqn:Hparse; [|vm_compute in Hparse; discriminate Hparse].
  exists records. split; [reflexivity|].
  destruct (unix_parse_ok (H := Reference.runtime) Examples.ps_listing_user records Hparse)
    as (_ & Hlen & _).
  rewrite Hlen. vm_compute. reflexivity.
Defined.

(** ** From a listing ingested to records queried *)

Section RoundTrip.
Context `{Runtime}.

(** A query with a window and nothing else: no filter, no aggregation, no
    grouping, from the first row on. *)
Lemma where_clause_window (q : Optimized) (row : ProcessData) (t : Calendar.datetime) :
  o_os_type q = None -> o_machine_id q = None -> o_command q = None ->
  o_cpu_usage_gt q = None -> o_memory_usage_gt q = None ->
  timestamp row = Some t ->
  not_before t (o_start_time q) = true -> not_after t (o_end_time q) = true ->
  where_clause q row = true.
Proof.
  intros Hos Hmid Hcmd Hcpu Hmem Hts Hs He. unfold where_clause.
  by rewrite Hos, Hmid, Hcmd, Hcpu, Hmem, Hts, Hs, He.
Qed.

(** X30. What is ingested can be queried. After a successful ingest of at
    least one record whose timestamp is read as [t], and the background step
    on its batch id with an insert that goes through, a query on the SQL
    path with a window that contains [t], no filter, no aggregation, no
    grouping, offset 0 and a limit that covers the table returns, among its
    records, the [to_dict] of every row the batch added. The window is
    compared as the [WHERE] clause does: with a naive bound the timestamp as
    it is, with an aware one the instant the database reads it as. *)
Theorem ingested_rows_are_queryable
    (now : Calendar.datetime) (data : IngestData) (redis redis' : gmap string redis_value)
    (next_id : Z) (batch_id : string) (n : nat) (db : list ProcessData)
    (t : Calendar.datetime) (q : Optimized) :
  receive_and_parse_data now data redis = (Ok (batch_id, n), redis') ->
  n <> 0%nat ->
  (in_meta_info data !! "timestamp") ≫= pd_to_datetime = Some t ->
  (forall meta staged,
     redis' !! batch_id = Some (StagedBatch meta staged) ->
     sql_insert_error (map (merge_meta meta) staged) = None) ->
  not_before t (o_start_time q) = true /\ not_after t (o_end_time q) = true ->
  o_os_type q = None /\ o_machine_id q = None /\ o_command q = None
  /\ o_cpu_usage_gt q = None /\ o_memory_usage_gt q = None ->
  default [] (o_aggregations q) = [] /\ default [] (o_group_by q) = [] ->
  o_offset q = 0 ->
  Z.of_nat (length db + n) <= o_limit q ->
  exists new rows,
    process_and_store_data next_id batch_id (redis', db)
    = (Ok tt, ((process_and_store_data next_id batch_id (redis', db)).2.1, db ++ new))
    /\ length new = n
    /\ _execute_on_sql q (db ++ new) = Ok rows
    /\ forall r, r ∈ new -> FullRecord (to_dict r) ∈ rows.
Proof.
  intros Hcall Hn Ht Hinsert [Hfrom Hto] (Hos & Hmid & Hcmd & Hcpu & Hmem) (Hagg & Hgrp)
    Hoff Hlim.
  pose proof (receive_and_parse_data_inv now data redis) as Hinv.
  rewrite Hcall in Hinv.
  destruct Hinv as (os & raw & parser & records & ts & mn & mi & ot
                    & _ & _ & _ & _ & Hts & _ & _ & _ & _ & -> & ->).
  rewrite Hts in Ht. simpl in Ht.
  set (meta := mkMetaInfo ts mn mi ot).
  specialize (Hinsert meta (map to_dict records) ltac:(by rewrite lookup_insert_eq)).
  rewrite (process_and_store_data_staged next_id batch_id meta (map to_dict records));
    [|by rewrite lookup_insert_eq|by destruct records].
  cbv zeta. rewrite Hinsert. cbn [fst snd].
  set (new := assign_ids _ _).
  assert (Hlen : length new = length records).
  { subst new. by rewrite assign_ids_length, !length_map. }
  assert (Hnew : forall r, r ∈ new -> timestamp r = Some t).
  { intros r Hr. subst new.
    pose proof (assign_ids_spec next_id
                  (map (merge_meta meta) (map to_dict records))) as Hids.
    apply list_elem_of_lookup in Hr as [i Hi].
    destruct (Forall2_lookup_r _ _ _ _ _ Hids Hi) as (p & Hp & Hpr).
    destruct Hpr as (_ & _ & _ & _ & _ & _ & _ & _ & _ & _ & _ & -> & _).
    apply list_elem_of_lookup_2 in Hp.
    apply list_elem_of_fmap in Hp as (p3 & -> & _). simpl. exact Ht. }
  exists new. eexists. split_and!; [done|done| |].
  - unfold _execute_on_sql. rewrite Hagg, Hgrp, filter_nil. run_result.
    destruct (Z.ltb_spec (o_limit q) 0); [lia|]. reflexivity.
  - intros r Hr. rewrite Hoff. change (Z.to_nat 0) with 0%nat. rewrite drop_0.
    rewrite take_ge.
    + apply list_elem_of_fmap. exists r. split; [done|].
      apply list_elem_of_filter. split; [|apply elem_of_app; by right].
      apply Is_true_true. eapply where_clause_window; [done..|by apply Hnew|done|done].
    + rewrite ?length_map, ?length_fmap.
      pose proof (length_filter (where_clause q) (db ++ new)) as Hle.
      rewrite length_app in Hle. lia.
Qed.

End RoundTrip.

Lemma ingested_rows_are_queryable_witness :
  let call :=
    receive_and_parse_data (H := Reference.runtime) Examples.noon_early
      (Examples.ingest "m1" Examples.tasklist_two) ∅ in
  let q :=
    mkOptimized None (Calendar.naive Examples.day) (Calendar.naive Examples.noon_late)
      None None None None None 100 0
      None None (mkFilters None None None None None) in
  exists new rows,
    (process_and_store_data (H := Reference.runtime) 1 "batch_20240229120000"
       (call.2, [])).2.2 = new
    /\ length new = 2%nat
    /\ _execute_on_sql (H := Reference.runtime) q new = Ok rows
    /\ forall r, r ∈ new -> FullRecord (to_dict r) ∈ rows.
Proof.
  intros call q.
  assert (Hcall : receive_and_parse_data (H := Reference.runtime) Examples.noon_early
                    (Examples.ingest "m1" Examples.tasklist_two) ∅
                  = (Ok ("batch_20240229120000", 2%nat), call.2))
    by (vm_compute; reflexivity).
  assert (Ht : (DataOrganizer.in_meta_info (Examples.ingest "m1" Examples.tasklist_two)
                  !! "timestamp") ≫= pd_to_datetime (Runtime := Reference.runtime)
               = Some (Calendar.at_time 738945 12 0 0 0))
    by (vm_compute; reflexivity).
  assert (Hinsert : forall meta staged,
            call.2 !! "batch_20240229120000" = Some (StagedBatch meta staged) ->
            sql_insert_error (Runtime := Reference.runtime)
              (map (merge_meta (H := Reference.runtime) meta) staged) = None).
  { intros meta staged Hstaged. vm_compute in Hstaged. injection Hstaged as <- <-.
    vm_compute. reflexivity. }
  assert (Hwin : not_before (H := Reference.runtime) (Calendar.at_time 738945 12 0 0 0)
                   (o_start_time q) = true
                 /\ not_after (H := Reference.runtime) (Calendar.at_time 738945 12 0 0 0)
                      (o_end_time q) = true)
    by (vm_compute; split; reflexivity).
  assert (Hlim : Z.of_nat (length (@nil ProcessData) + 2) <= o_limit q)
    by (vm_compute; discriminate).
  destruct (ingested_rows_are_queryable (H := Reference.runtime)
              Examples.noon_early (Examples.ingest "m1" Examples.tasklist_two)
              ∅ call.2 1 "batch_20240229120000" 2%nat [] (Calendar.at_time 738945 12 0 0 0) q
              Hcall ltac:(lia) Ht Hinsert Hwin
              (conj eq_refl (conj eq_refl (conj eq_refl (conj eq_refl eq_refl))))
              (conj eq_refl eq_refl) eq_refl Hlim)
    as (new & rows & Hdb & Hlen & Hsql & Hall).
  exists new, rows. split_and!; [by rewrite Hdb|exact Hlen|exact Hsql|exact Hall].
Defined.
